(** * ai-audit: the web client's REST layer, its query hooks and the smoke script

    A shallow embedding of
    - [lib/api]    : [ApiError], [request] and the five API objects;
    - [hooks/*]    : the query and mutation hooks built on TanStack Query;
    - [App.tsx]    : the query client's default options;
    - [types]      : the two response envelopes;
    - the smoke-test PowerShell script;
    - [pages/*]    : the event handlers of the pages, the pipeline card's
                     button, the overview's steps, [formatFileSize];
    - [layout/*]   : the workspace tabs and the navigation bar;
    - [vite.config]: the development server's proxy.

    Effects are explicit.  A client operation is a function of the backend
    (a map from the [fetch] call to what it settles with) and returns the
    list of [fetch] calls it issued together with the value it resolves
    with or the exception it rejects with.  The query cache is a finite map
    from query keys to entries. *)

From Stdlib Require Import ZArith QArith String Ascii List Bool Lia.
From stdpp Require Import gmap strings list pretty.

Open Scope string_scope.
Open Scope list_scope.
Open Scope Z_scope.

(** ** Strings *)

(** [String.prototype.includes]: [needle] occurs somewhere in [s]
    (code units are compared exactly, so letter case matters). *)
Fixpoint includes (needle s : string) : bool :=
  String.prefix needle s ||
  match s with
  | EmptyString => false
  | String _ rest => includes needle rest
  end.

(** Lower-casing of the ASCII letters, every other character unchanged. *)
Definition lower_ascii (c : ascii) : ascii :=
  let n := nat_of_ascii c in
  if ((65 <=? n)%nat && (n <=? 90)%nat)%bool then ascii_of_nat (n + 32) else c.

Fixpoint lower (s : string) : string :=
  match s with
  | EmptyString => EmptyString
  | String c rest => String (lower_ascii c) (lower rest)
  end.

(** PowerShell's default string comparison ([-eq], [-ne], [-in] and member
    names) ignores letter case.  It is modelled on the ASCII letters, which
    is all the words compared in the scripts are made of. *)
Definition ps_eq (a b : string) : bool := String.eqb (lower a) (lower b).

Definition ps_in (a : string) (l : list string) : bool := existsb (ps_eq a) l.

(** [String.StartsWith], [String.EndsWith] and [String.TrimEnd] for the
    one character the scripts pass. *)
Definition StartsWith (p s : string) : bool := String.prefix p s.

Fixpoint EndsWith_slash (s : string) : bool :=
  match s with
  | EmptyString => false
  | String c EmptyString => Ascii.eqb c "/"
  | String _ rest => EndsWith_slash rest
  end.

Fixpoint TrimEnd_slash (s : string) : string :=
  match s with
  | EmptyString => EmptyString
  | String c rest =>
      match TrimEnd_slash rest with
      | EmptyString => if Ascii.eqb c "/" then EmptyString else String c EmptyString
      | rest' => String c rest'
      end
  end.

(** A text without [/], as a route parameter or a path segment is. *)
Fixpoint slash_free (s : string) : bool :=
  match s with
  | EmptyString => true
  | String c rest => negb (Ascii.eqb c "/") && slash_free rest
  end.

(** The double quote, for the JSON texts the smoke script posts. *)
Definition dq : string := String (ascii_of_nat 34) EmptyString.

(** ** HTTP vocabulary *)

Inductive Method := GET | POST | PATCH | DELETE.

#[global] Instance Method_eq_dec : EqDecision Method.
Proof. solve_decision. Defined.

(** The [File] handed to an upload and the [Blob] a download resolves with. *)
Record File := { file_name : string; file_bytes : string }.
Definition Blob := string.

Section Runtime.

(** JSON numbers are IEEE doubles at run time.  Nothing here computes with
    them; the client only asks whether one is truthy (neither zero nor NaN)
    and what text it converts to ([Number::toString]), and the smoke script
    only compares one with zero, so the number type and these tests are
    left open. *)
Context {Num : Type}.
Variable num_truthy : Num -> bool.
Variable num_text : Num -> string.

(** ** Values of the JavaScript run time that JSON can produce *)

(** An object keeps its members in insertion order, keys unique. *)
#[warnings="-register-all"]
Inductive JsValue : Type :=
| JNull
| JBool (b : bool)
| JNumber (n : Num)
| JString (s : string)
| JArray (items : list JsValue)
| JObject (members : list (string * JsValue)).

(** A possibly [undefined] value. *)
Definition JsOpt := option JsValue.

Fixpoint assoc (k : string) (members : list (string * JsValue)) : JsOpt :=
  match members with
  | [] => None
  | (k', v) :: rest => if String.eqb k k' then Some v else assoc k rest
  end.

(** What a rejected promise or a [throw] carries: an [ApiError], whose
    [message] is the text [super(message)] made of the constructor's first
    argument and whose [status] and [code] are the other two arguments as
    they were given, or one of the run time's own errors, by class. *)
Record ApiError := {
  err_message : string;
  err_status : Z;
  err_code : JsOpt
}.

Inductive Exn :=
| ThrowApiError (e : ApiError)
| ThrowSyntaxError            (* [response.json()] on a body that is not JSON *)
| ThrowTypeError.             (* a member read on [null] or [undefined], a value that
                                 has no text, or [fetch] itself rejecting *)

Inductive Result (A : Type) :=
| Ok (a : A)
| Throw (e : Exn).
Arguments Ok {A} a.
Arguments Throw {A} e.

Definition bind {A B} (r : Result A) (k : A -> Result B) : Result B :=
  match r with
  | Ok a => k a
  | Throw e => Throw e
  end.

(** [v.k] for one of the member names the client reads ([message], [code],
    [data], [status]): none of them is inherited from a prototype, so only
    an object's own members can answer; [null] and [undefined] throw. *)
Definition js_get (v : JsOpt) (k : string) : Result JsOpt :=
  match v with
  | None | Some JNull => Throw ThrowTypeError
  | Some (JObject members) => Ok (assoc k members)
  | Some _ => Ok None
  end.

Definition truthy (v : JsOpt) : bool :=
  match v with
  | None | Some JNull => false
  | Some (JBool b) => b
  | Some (JNumber n) => num_truthy n
  | Some (JString s) => negb (String.eqb s "")
  | Some (JArray _) | Some (JObject _) => true
  end.

(** [a || 'fallback'] *)
Definition or_else (a : JsOpt) (fallback : string) : JsValue :=
  match a with
  | Some v => if truthy a then v else JString fallback
  | None => JString fallback
  end.

(** [ToString(v)], which the [Error] constructor applies to its message.
    An array is its elements' texts joined by commas, [null] among them
    giving no text.  An object parsed from JSON has the text
    [[object Object]] of [Object.prototype.toString], unless it has a member
    named [toString] of its own: that member is no function, the inherited
    [valueOf] answers the object itself, and the conversion throws. *)
Fixpoint ToString (v : JsValue) : Result string :=
  match v with
  | JNull => Ok "null"
  | JBool b => Ok (if b then "true" else "false")
  | JNumber n => Ok (num_text n)
  | JString s => Ok s
  | JArray items =>
      (fix join (l : list JsValue) : Result string :=
         match l with
         | [] => Ok ""
         | x :: rest =>
             bind (match x with
                   | JNull => Ok ""
                   | _ => ToString x
                   end) (fun next =>
             match rest with
             | [] => Ok next
             | _ :: _ => bind (join rest) (fun more => Ok (next +:+ "," +:+ more))
             end)
         end) items
  | JObject members =>
      match assoc "toString" members with
      | Some _ => Throw ThrowTypeError
      | None => Ok "[object Object]"
      end
  end.

(** ** [fetch] *)

Inductive Body :=
| JsonBody (payload : JsValue)   (* [JSON.stringify(payload)] *)
| FormBody (file : File).        (* a [FormData] with the one part [file] *)

Record RequestInit := {
  init_method : option Method;
  init_headers : list (string * string);
  init_body : option Body
}.

Definition no_options : RequestInit :=
  {| init_method := None; init_headers := []; init_body := None |}.

(** One call [fetch(url, init)]. *)
Record FetchCall := { call_url : string; call_init : RequestInit }.

(** [fetch] sends a GET unless the init names a method. *)
Definition method_of (c : FetchCall) : Method :=
  default GET (init_method (call_init c)).

Record Response := {
  status : Z;
  content_type : option string;   (* [headers.get('content-type')] *)
  json : option JsValue;          (* what [.json()] resolves with; [None]: it rejects *)
  blob : Blob
}.

(** [response.ok] *)
Definition ok (r : Response) : bool := (200 <=? status r) && (status r <=? 299).

Inductive Settled :=
| Responds (r : Response)
| NetworkError.

Definition Backend := FetchCall -> Settled.

(** What an operation did: the calls it issued, oldest first, and how it
    settled. *)
Record Outcome (A : Type) := {
  issued : list FetchCall;
  settled : Result A
}.
Arguments issued {A} o.
Arguments settled {A} o.

(** ** lib/api *)

Section Client.

(** [import.meta.env.VITE_API_BASE_URL] *)
Variable VITE_API_BASE_URL : option string.

Definition API_BASE_URL : string :=
  match VITE_API_BASE_URL with
  | Some s => if String.eqb s "" then "" else s
  | None => ""
  end.

Variable backend : Backend.

Definition json_of (r : Response) : Result JsValue :=
  match json r with
  | Some v => Ok v
  | None => Throw ThrowSyntaxError
  end.

Definition request (endpoint : string) (options : RequestInit) : Outcome JsValue :=
  let url := API_BASE_URL +:+ endpoint in
  if String.eqb API_BASE_URL "" then
    {| issued := [];
       settled := Throw (ThrowApiError
         {| err_message := "API not configured. Set VITE_API_BASE_URL environment variable.";
            err_status := 0;
            err_code := None |}) |}
  else
    let config :=
      {| init_method := init_method options;
         init_headers := ("Content-Type", "application/json") :: init_headers options;
         init_body := init_body options |} in
    let call := {| call_url := url; call_init := config |} in
    {| issued := [call];
       settled :=
         match backend call with
         | NetworkError => Throw ThrowTypeError
         | Responds response =>
             let contentType := content_type response in
             if negb (match contentType with
                      | Some ct => includes "application/json" ct
                      | None => false
                      end)
             then Throw (ThrowApiError
               {| err_message := "API returned non-JSON response. Check VITE_API_BASE_URL configuration.";
                  err_status := status response;
                  err_code := None |})
             else
               bind (json_of response) (fun data =>
               if negb (ok response) then
                 bind (js_get (Some data) "message") (fun message =>
                 bind (js_get (Some data) "code") (fun code =>
                 bind (ToString (or_else message "An error occurred")) (fun text =>
                 Throw (ThrowApiError
                   {| err_message := text;
                      err_status := status response;
                      err_code := code |}))))
               else Ok data)
         end |}.

(** The request types of [types/index.ts], and their [JSON.stringify]
    images (a member that is [undefined] is left out). *)

Definition opt_member (k : string) (v : option string) : list (string * JsValue) :=
  match v with
  | Some s => [(k, JString s)]
  | None => []
  end.

Record CreateWorkspaceRequest := {
  cw_name : string;
  cw_description : option string
}.

Definition js_CreateWorkspaceRequest (d : CreateWorkspaceRequest) : JsValue :=
  JObject (("name", JString (cw_name d)) :: opt_member "description" (cw_description d)).

(** [Partial<CreateWorkspaceRequest>] *)
Record PartialCreateWorkspaceRequest := {
  pw_name : option string;
  pw_description : option string
}.

Definition js_PartialCreateWorkspaceRequest (d : PartialCreateWorkspaceRequest) : JsValue :=
  JObject (opt_member "name" (pw_name d) ++ opt_member "description" (pw_description d)).

Record CreateInterviewRequest := {
  ci_workspaceId : string;
  ci_title : string;
  ci_participantName : option string;
  ci_participantRole : option string
}.

Definition js_CreateInterviewRequest (d : CreateInterviewRequest) : JsValue :=
  JObject (("workspaceId", JString (ci_workspaceId d)) :: ("title", JString (ci_title d))
           :: opt_member "participantName" (ci_participantName d)
           ++ opt_member "participantRole" (ci_participantRole d)).

Record InterviewResponse := {
  ir_questionId : string;
  ir_answer : string;
  ir_notes : option string
}.

Definition js_InterviewResponse (r : InterviewResponse) : JsValue :=
  JObject (("questionId", JString (ir_questionId r)) :: ("answer", JString (ir_answer r))
           :: opt_member "notes" (ir_notes r)).

Inductive ExportFormat := Pdf | Docx | Xlsx | Json.

Definition format_name (f : ExportFormat) : string :=
  match f with
  | Pdf => "pdf"
  | Docx => "docx"
  | Xlsx => "xlsx"
  | Json => "json"
  end.

Record ExportRequest := {
  er_workspaceId : string;
  er_format : ExportFormat;
  er_sections : option (list string)
}.

Definition js_ExportRequest (d : ExportRequest) : JsValue :=
  JObject (("workspaceId", JString (er_workspaceId d))
           :: ("format", JString (format_name (er_format d)))
           :: match er_sections d with
              | Some l => [("sections", JArray (map JString l))]
              | None => []
              end).

Definition with_method (m : Method) : RequestInit :=
  {| init_method := Some m; init_headers := []; init_body := None |}.

Definition with_json (m : Method) (payload : JsValue) : RequestInit :=
  {| init_method := Some m; init_headers := []; init_body := Some (JsonBody payload) |}.

(** *** workspacesApi *)

Definition workspacesApi_list : Outcome JsValue :=
  request "/workspaces" no_options.

Definition workspacesApi_get (id : string) : Outcome JsValue :=
  request ("/workspaces/" +:+ id) no_options.

Definition workspacesApi_create (data : CreateWorkspaceRequest) : Outcome JsValue :=
  request "/workspaces" (with_json POST (js_CreateWorkspaceRequest data)).

Definition workspacesApi_update (id : string) (data : PartialCreateWorkspaceRequest)
  : Outcome JsValue :=
  request ("/workspaces/" +:+ id) (with_json PATCH (js_PartialCreateWorkspaceRequest data)).

Definition workspacesApi_delete (id : string) : Outcome JsValue :=
  request ("/workspaces/" +:+ id) (with_method DELETE).

(** *** documentsApi *)

Definition documentsApi_list (workspaceId : string) : Outcome JsValue :=
  request ("/workspaces/" +:+ workspaceId +:+ "/documents") no_options.

Definition documentsApi_upload (workspaceId : string) (file : File) : Outcome JsValue :=
  let call :=
    {| call_url := API_BASE_URL +:+ "/workspaces/" +:+ workspaceId +:+ "/documents";
       call_init := {| init_method := Some POST; init_headers := [];
                       init_body := Some (FormBody file) |} |} in
  {| issued := [call];
     settled :=
       match backend call with
       | NetworkError => Throw ThrowTypeError
       | Responds response =>
           if negb (ok response) then
             (* [await response.json().catch(() => ({}))] *)
             let error := match json response with
                          | Some v => v
                          | None => JObject []
                          end in
             bind (js_get (Some error) "message") (fun message =>
             bind (ToString (or_else message "Upload failed")) (fun text =>
             Throw (ThrowApiError
               {| err_message := text;
                  err_status := status response;
                  err_code := None |})))
           else json_of response
       end |}.

Definition documentsApi_delete (workspaceId documentId : string) : Outcome JsValue :=
  request ("/workspaces/" +:+ workspaceId +:+ "/documents/" +:+ documentId)
          (with_method DELETE).

(** *** interviewsApi *)

Definition interviewsApi_list (workspaceId : string) : Outcome JsValue :=
  request ("/workspaces/" +:+ workspaceId +:+ "/interviews") no_options.

Definition interviewsApi_get (workspaceId interviewId : string) : Outcome JsValue :=
  request ("/workspaces/" +:+ workspaceId +:+ "/interviews/" +:+ interviewId) no_options.

Definition interviewsApi_create (data : CreateInterviewRequest) : Outcome JsValue :=
  request ("/workspaces/" +:+ ci_workspaceId data +:+ "/interviews")
          (with_json POST (js_CreateInterviewRequest data)).

Definition interviewsApi_getQuestions (workspaceId interviewId : string) : Outcome JsValue :=
  request ("/workspaces/" +:+ workspaceId +:+ "/interviews/" +:+ interviewId +:+ "/questions")
          no_options.

Definition interviewsApi_submitResponses
  (workspaceId interviewId : string) (responses : list InterviewResponse) : Outcome JsValue :=
  request ("/workspaces/" +:+ workspaceId +:+ "/interviews/" +:+ interviewId +:+ "/responses")
          (with_json POST (JObject [("responses", JArray (map js_InterviewResponse responses))])).

(** *** pipelineApi *)

Definition pipelineApi_get (workspaceId : string) : Outcome JsValue :=
  request ("/workspaces/" +:+ workspaceId +:+ "/pipeline") no_options.

Definition pipelineApi_start (workspaceId : string) : Outcome JsValue :=
  request ("/workspaces/" +:+ workspaceId +:+ "/pipeline/start") (with_method POST).

Definition pipelineApi_cancel (workspaceId : string) : Outcome JsValue :=
  request ("/workspaces/" +:+ workspaceId +:+ "/pipeline/cancel") (with_method POST).

(** *** exportsApi *)

Definition exportsApi_list (workspaceId : string) : Outcome JsValue :=
  request ("/workspaces/" +:+ workspaceId +:+ "/exports") no_options.

Definition exportsApi_create (data : ExportRequest) : Outcome JsValue :=
  request ("/workspaces/" +:+ er_workspaceId data +:+ "/exports")
          (with_json POST (js_ExportRequest data)).

Definition exportsApi_download (workspaceId exportId : string) : Outcome Blob :=
  let call :=
    {| call_url := API_BASE_URL +:+ "/workspaces/" +:+ workspaceId +:+ "/exports/"
                   +:+ exportId +:+ "/download";
       call_init := no_options |} in
  {| issued := [call];
     settled :=
       match backend call with
       | NetworkError => Throw ThrowTypeError
       | Responds response =>
           if negb (ok response) then
             Throw (ThrowApiError
               {| err_message := "Download failed";
                  err_status := status response;
                  err_code := None |})
           else Ok (blob response)
       end |}.

(** *** Every operation of the client, as one type *)

Inductive ApiCall :=
| WorkspacesList
| WorkspacesGet (id : string)
| WorkspacesCreate (data : CreateWorkspaceRequest)
| WorkspacesUpdate (id : string) (data : PartialCreateWorkspaceRequest)
| WorkspacesDelete (id : string)
| DocumentsList (workspaceId : string)
| DocumentsUpload (workspaceId : string) (file : File)
| DocumentsDelete (workspaceId documentId : string)
| InterviewsList (workspaceId : string)
| InterviewsGet (workspaceId interviewId : string)
| InterviewsCreate (data : CreateInterviewRequest)
| InterviewsGetQuestions (workspaceId interviewId : string)
| InterviewsSubmitResponses (workspaceId interviewId : string) (responses : list InterviewResponse)
| PipelineGet (workspaceId : string)
| PipelineStart (workspaceId : string)
| PipelineCancel (workspaceId : string)
| ExportsList (workspaceId : string)
| ExportsCreate (data : ExportRequest)
| ExportsDownload (workspaceId exportId : string).

(** What an operation resolves with: the parsed body, or the downloaded bytes. *)
Inductive Resolved :=
| RJson (data : JsValue)
| RBlob (b : Blob).

Definition resolve_with {A} (f : A -> Resolved) (o : Outcome A) : Outcome Resolved :=
  {| issued := issued o;
     settled := match settled o with
                | Ok a => Ok (f a)
                | Throw e => Throw e
                end |}.

Definition perform (c : ApiCall) : Outcome Resolved :=
  match c with
  | WorkspacesList => resolve_with RJson workspacesApi_list
  | WorkspacesGet id => resolve_with RJson (workspacesApi_get id)
  | WorkspacesCreate data => resolve_with RJson (workspacesApi_create data)
  | WorkspacesUpdate id data => resolve_with RJson (workspacesApi_update id data)
  | WorkspacesDelete id => resolve_with RJson (workspacesApi_delete id)
  | DocumentsList w => resolve_with RJson (documentsApi_list w)
  | DocumentsUpload w file => resolve_with RJson (documentsApi_upload w file)
  | DocumentsDelete w d => resolve_with RJson (documentsApi_delete w d)
  | InterviewsList w => resolve_with RJson (interviewsApi_list w)
  | InterviewsGet w i => resolve_with RJson (interviewsApi_get w i)
  | InterviewsCreate data => resolve_with RJson (interviewsApi_create data)
  | InterviewsGetQuestions w i => resolve_with RJson (interviewsApi_getQuestions w i)
  | InterviewsSubmitResponses w i rs => resolve_with RJson (interviewsApi_submitResponses w i rs)
  | PipelineGet w => resolve_with RJson (pipelineApi_get w)
  | PipelineStart w => resolve_with RJson (pipelineApi_start w)
  | PipelineCancel w => resolve_with RJson (pipelineApi_cancel w)
  | ExportsList w => resolve_with RJson (exportsApi_list w)
  | ExportsCreate data => resolve_with RJson (exportsApi_create data)
  | ExportsDownload w e => resolve_with RBlob (exportsApi_download w e)
  end.

(** The operations that go through the shared helper [request]; the other
    two, upload and download, call [fetch] themselves. *)
Definition uses_request (c : ApiCall) : bool :=
  match c with
  | DocumentsUpload _ _ | ExportsDownload _ _ => false
  | _ => true
  end.

End Client.

(** ** TanStack Query, as far as the hooks use it *)

(** A query key is an array of strings. *)
Definition QueryKey := list string.

(** What [refetchInterval] may answer: a number of milliseconds or [false]. *)
Inductive Interval :=
| Every (ms : Z)
| NoRefetch.

(** The part of a query the hooks look at: [query.state.data], the value
    the last successful fetch resolved with. *)
Record Query := { state_data : JsOpt }.

Record QueryOptions := {
  queryKey : QueryKey;
  queryFn : ApiCall;
  enabled : option bool;
  refetchInterval : option (Query -> Result Interval);
  retry : option nat
}.

(** [new QueryClient({ defaultOptions: { queries: ... } })] *)
Record QueryDefaults := {
  default_retry : option nat;
  default_refetchOnWindowFocus : option bool
}.

(** [!!s] on a string *)
Definition nonempty (s : string) : bool := negb (String.eqb s "").

(** *** App.tsx *)

Definition queryClient : QueryDefaults :=
  {| default_retry := Some 1%nat; default_refetchOnWindowFocus := Some false |}.

(** *** hooks/useWorkspaces *)

Definition useWorkspaces : QueryOptions :=
  {| queryKey := ["workspaces"]; queryFn := WorkspacesList;
     enabled := None; refetchInterval := None; retry := None |}.

Definition useWorkspace (id : string) : QueryOptions :=
  {| queryKey := ["workspaces"; id]; queryFn := WorkspacesGet id;
     enabled := Some (nonempty id); refetchInterval := None; retry := None |}.

(** *** hooks/useDocuments *)

Definition useDocuments (workspaceId : string) : QueryOptions :=
  {| queryKey := ["documents"; workspaceId]; queryFn := DocumentsList workspaceId;
     enabled := Some (nonempty workspaceId); refetchInterval := None; retry := None |}.

(** *** hooks/usePipeline *)

(** [query.state.data?.data.status]: the optional link guards the first
    read only. *)
Definition pipeline_status (query : Query) : Result JsOpt :=
  match state_data query with
  | None | Some JNull => Ok None
  | Some d => bind (js_get (Some d) "data") (fun inner => js_get inner "status")
  end.

(** [v === s] for a string literal [s] *)
Definition is_string (v : JsOpt) (s : string) : bool :=
  match v with
  | Some (JString s') => String.eqb s' s
  | _ => false
  end.

Definition usePipeline_refetchInterval (query : Query) : Result Interval :=
  bind (pipeline_status query) (fun status =>
  Ok (if is_string status "running" then Every 5000 else NoRefetch)).

Definition usePipeline (workspaceId : string) : QueryOptions :=
  {| queryKey := ["pipeline"; workspaceId]; queryFn := PipelineGet workspaceId;
     enabled := Some (nonempty workspaceId);
     refetchInterval := Some usePipeline_refetchInterval; retry := None |}.

(** *** hooks/useInterviews *)

Definition useInterviews (workspaceId : string) : QueryOptions :=
  {| queryKey := ["interviews"; workspaceId]; queryFn := InterviewsList workspaceId;
     enabled := Some (nonempty workspaceId); refetchInterval := None; retry := None |}.

Definition useInterview (workspaceId interviewId : string) : QueryOptions :=
  {| queryKey := ["interviews"; workspaceId; interviewId];
     queryFn := InterviewsGet workspaceId interviewId;
     enabled := Some (nonempty workspaceId && nonempty interviewId);
     refetchInterval := None; retry := None |}.

Definition useInterviewQuestions (workspaceId interviewId : string) : QueryOptions :=
  {| queryKey := ["interviews"; workspaceId; interviewId; "questions"];
     queryFn := InterviewsGetQuestions workspaceId interviewId;
     enabled := Some (nonempty workspaceId && nonempty interviewId);
     refetchInterval := None; retry := None |}.

(** *** hooks/useExports *)

Definition useExports (workspaceId : string) : QueryOptions :=
  {| queryKey := ["exports"; workspaceId]; queryFn := ExportsList workspaceId;
     enabled := Some (nonempty workspaceId); refetchInterval := None; retry := None |}.

(** Every query hook, with its arguments. *)
Inductive QueryHook :=
| UseWorkspaces
| UseWorkspace (id : string)
| UseDocuments (workspaceId : string)
| UsePipeline (workspaceId : string)
| UseInterviews (workspaceId : string)
| UseInterview (workspaceId interviewId : string)
| UseInterviewQuestions (workspaceId interviewId : string)
| UseExports (workspaceId : string).

Definition query_options (h : QueryHook) : QueryOptions :=
  match h with
  | UseWorkspaces => useWorkspaces
  | UseWorkspace id => useWorkspace id
  | UseDocuments w => useDocuments w
  | UsePipeline w => usePipeline w
  | UseInterviews w => useInterviews w
  | UseInterview w i => useInterview w i
  | UseInterviewQuestions w i => useInterviewQuestions w i
  | UseExports w => useExports w
  end.

(** The id arguments of a hook. *)
Definition hook_ids (h : QueryHook) : list string :=
  match h with
  | UseWorkspaces => []
  | UseWorkspace id => [id]
  | UseDocuments w | UsePipeline w | UseInterviews w | UseExports w => [w]
  | UseInterview w i | UseInterviewQuestions w i => [w; i]
  end.

(** *** The library's side of a query *)

(** The retry count in force: the hook's own, else the client's default,
    else the library's (3). *)
Definition resolved_retry (client : QueryDefaults) (o : QueryOptions) : nat :=
  default (default 3%nat (default_retry client)) (retry o).

(** One fetch of a query: [queryFn] is called, and called again after a
    failure while the failures so far are fewer than the retry count.  The
    backend may answer each attempt differently: [backends n] answers the
    attempt numbered [n].  The result counts the attempts made. *)
Fixpoint attempt (base : option string) (backends : nat -> Backend) (fn : ApiCall)
  (retries_left n : nat) : nat * Outcome Resolved :=
  let o := perform base (backends n) fn in
  match settled o, retries_left with
  | Throw _, S r =>
      let '(count, o') := attempt base backends fn r (S n) in
      (S count, {| issued := issued o ++ issued o'; settled := settled o' |})
  | _, _ => (1%nat, o)
  end.

Definition fetch_query (client : QueryDefaults) (base : option string)
  (backends : nat -> Backend) (o : QueryOptions) : nat * Outcome Resolved :=
  attempt base backends (queryFn o) (resolved_retry client o) 0%nat.

(** A query fetches by itself (on mount, on invalidation, on its refetch
    interval) only while it is enabled; [enabled] left out means enabled.
    [None] is a query that did not run. *)
Definition observe (client : QueryDefaults) (base : option string)
  (backends : nat -> Backend) (o : QueryOptions) : option (nat * Outcome Resolved) :=
  if default true (enabled o) then Some (fetch_query client base backends o) else None.

(** The [fetch] calls a mounted query issues. *)
Definition observed_calls (client : QueryDefaults) (base : option string)
  (backends : nat -> Backend) (o : QueryOptions) : list FetchCall :=
  match observe client base backends o with
  | Some (_, out) => issued out
  | None => []
  end.

(** *** Mutations and the query cache *)

Record CacheEntry := {
  entry_data : JsOpt;
  isInvalidated : bool
}.

(** What an [onSuccess] callback does. *)
Inductive Effect :=
| InvalidateQueries (filter : QueryKey)          (* [queryClient.invalidateQueries({ queryKey })] *)
| SetQueryData (key : QueryKey) (data : JsValue) (* [queryClient.setQueryData(key, data)] *)
| ClickDownloadLink (b : Blob) (download : string).

(** [partialMatchKey]: the filter's elements are the first elements of
    the key. *)
Fixpoint partialMatchKey (key filter : QueryKey) : bool :=
  match filter, key with
  | [], _ => true
  | f :: filter', k :: key' => String.eqb f k && partialMatchKey key' filter'
  | _ :: _, [] => false
  end.

Definition invalidate (e : CacheEntry) : CacheEntry :=
  {| entry_data := entry_data e; isInvalidated := true |}.

Definition invalidateQueries (filter : QueryKey) (cache : gmap QueryKey CacheEntry)
  : gmap QueryKey CacheEntry :=
  map_imap (fun key e => Some (if partialMatchKey key filter then invalidate e else e)) cache.

Definition setQueryData (key : QueryKey) (data : JsValue) (cache : gmap QueryKey CacheEntry)
  : gmap QueryKey CacheEntry :=
  <[key := {| entry_data := Some data; isInvalidated := false |}]> cache.

Definition apply_effect (cache : gmap QueryKey CacheEntry) (e : Effect)
  : gmap QueryKey CacheEntry :=
  match e with
  | InvalidateQueries filter => invalidateQueries filter cache
  | SetQueryData key data => setQueryData key data cache
  | ClickDownloadLink _ _ => cache
  end.

Record MutationOptions (V : Type) := {
  mutationFn : V -> ApiCall;
  onSuccess : Resolved -> V -> list Effect
}.
Arguments mutationFn {V} m.
Arguments onSuccess {V} m.

(** *** hooks/useWorkspaces, mutations *)

Definition useCreateWorkspace : MutationOptions CreateWorkspaceRequest :=
  {| mutationFn := fun data => WorkspacesCreate data;
     onSuccess := fun _ _ => [InvalidateQueries ["workspaces"]] |}.

Definition useUpdateWorkspace : MutationOptions (string * PartialCreateWorkspaceRequest) :=
  {| mutationFn := fun '(id, data) => WorkspacesUpdate id data;
     onSuccess := fun _ variables =>
       [InvalidateQueries ["workspaces"];
        InvalidateQueries ["workspaces"; fst variables]] |}.

Definition useDeleteWorkspace : MutationOptions string :=
  {| mutationFn := fun id => WorkspacesDelete id;
     onSuccess := fun _ _ => [InvalidateQueries ["workspaces"]] |}.

(** *** hooks/useDocuments, mutations *)

Definition useUploadDocument : MutationOptions (string * File) :=
  {| mutationFn := fun '(workspaceId, file) => DocumentsUpload workspaceId file;
     onSuccess := fun _ variables =>
       [InvalidateQueries ["documents"; fst variables];
        InvalidateQueries ["workspaces"; fst variables]] |}.

Definition useDeleteDocument : MutationOptions (string * string) :=
  {| mutationFn := fun '(workspaceId, documentId) => DocumentsDelete workspaceId documentId;
     onSuccess := fun _ variables =>
       [InvalidateQueries ["documents"; fst variables];
        InvalidateQueries ["workspaces"; fst variables]] |}.

(** *** hooks/useInterviews, mutations *)

Definition useCreateInterview : MutationOptions CreateInterviewRequest :=
  {| mutationFn := fun data => InterviewsCreate data;
     onSuccess := fun _ variables =>
       [InvalidateQueries ["interviews"; ci_workspaceId variables];
        InvalidateQueries ["workspaces"; ci_workspaceId variables]] |}.

Definition useSubmitInterviewResponses
  : MutationOptions (string * string * list InterviewResponse) :=
  {| mutationFn := fun '(workspaceId, interviewId, responses) =>
       InterviewsSubmitResponses workspaceId interviewId responses;
     onSuccess := fun _ '(workspaceId, interviewId, _) =>
       [InvalidateQueries ["interviews"; workspaceId; interviewId];
        InvalidateQueries ["interviews"; workspaceId]] |}.

(** *** hooks/useExports, mutations *)

Definition useCreateExport : MutationOptions ExportRequest :=
  {| mutationFn := fun data => ExportsCreate data;
     onSuccess := fun _ variables =>
       [InvalidateQueries ["exports"; er_workspaceId variables]] |}.

Definition useDownloadExport : MutationOptions (string * string) :=
  {| mutationFn := fun '(workspaceId, exportId) => ExportsDownload workspaceId exportId;
     onSuccess := fun resolved variables =>
       match resolved with
       | RBlob b => [ClickDownloadLink b ("export-" +:+ snd variables)]
       | RJson _ => []
       end |}.

(** *** hooks/usePipeline, mutations *)

Definition useStartPipeline : MutationOptions string :=
  {| mutationFn := fun workspaceId => PipelineStart workspaceId;
     onSuccess := fun _ workspaceId => [InvalidateQueries ["pipeline"; workspaceId]] |}.

Definition useCancelPipeline : MutationOptions string :=
  {| mutationFn := fun workspaceId => PipelineCancel workspaceId;
     onSuccess := fun _ workspaceId => [InvalidateQueries ["pipeline"; workspaceId]] |}.

(** A mutation hook together with the variables of one [mutate] call. *)
Inductive Mutation :=
| CreateWorkspace (data : CreateWorkspaceRequest)
| UpdateWorkspace (id : string) (data : PartialCreateWorkspaceRequest)
| DeleteWorkspace (id : string)
| UploadDocument (workspaceId : string) (file : File)
| DeleteDocument (workspaceId documentId : string)
| CreateInterview (data : CreateInterviewRequest)
| SubmitInterviewResponses (workspaceId interviewId : string) (responses : list InterviewResponse)
| CreateExport (data : ExportRequest)
| DownloadExport (workspaceId exportId : string)
| StartPipeline (workspaceId : string)
| CancelPipeline (workspaceId : string).

Definition mutation_call (m : Mutation) : ApiCall :=
  match m with
  | CreateWorkspace data => mutationFn useCreateWorkspace data
  | UpdateWorkspace id data => mutationFn useUpdateWorkspace (id, data)
  | DeleteWorkspace id => mutationFn useDeleteWorkspace id
  | UploadDocument w file => mutationFn useUploadDocument (w, file)
  | DeleteDocument w d => mutationFn useDeleteDocument (w, d)
  | CreateInterview data => mutationFn useCreateInterview data
  | SubmitInterviewResponses w i rs => mutationFn useSubmitInterviewResponses (w, i, rs)
  | CreateExport data => mutationFn useCreateExport data
  | DownloadExport w e => mutationFn useDownloadExport (w, e)
  | StartPipeline w => mutationFn useStartPipeline w
  | CancelPipeline w => mutationFn useCancelPipeline w
  end.

Definition mutation_onSuccess (m : Mutation) (resolved : Resolved) : list Effect :=
  match m with
  | CreateWorkspace data => onSuccess useCreateWorkspace resolved data
  | UpdateWorkspace id data => onSuccess useUpdateWorkspace resolved (id, data)
  | DeleteWorkspace id => onSuccess useDeleteWorkspace resolved id
  | UploadDocument w file => onSuccess useUploadDocument resolved (w, file)
  | DeleteDocument w d => onSuccess useDeleteDocument resolved (w, d)
  | CreateInterview data => onSuccess useCreateInterview resolved data
  | SubmitInterviewResponses w i rs => onSuccess useSubmitInterviewResponses resolved (w, i, rs)
  | CreateExport data => onSuccess useCreateExport resolved data
  | DownloadExport w e => onSuccess useDownloadExport resolved (w, e)
  | StartPipeline w => onSuccess useStartPipeline resolved w
  | CancelPipeline w => onSuccess useCancelPipeline resolved w
  end.

(** One [mutate]: the mutation function runs once (mutations are not
    retried: the client's defaults name queries only); [onSuccess] runs
    when it resolved and nothing runs when it rejected, the hooks having
    no [onError] nor [onSettled]. *)
Definition mutate (base : option string) (backend : Backend) (m : Mutation)
  (cache : gmap QueryKey CacheEntry)
  : Outcome Resolved * list Effect * gmap QueryKey CacheEntry :=
  let o := perform base backend (mutation_call m) in
  match settled o with
  | Ok resolved =>
      let effects := mutation_onSuccess m resolved in
      (o, effects, foldl apply_effect cache effects)
  | Throw _ => (o, [], cache)
  end.

(** ** types/index.ts: the two envelopes *)

Record ApiResponse (T : Type) := {
  data : T;
  message : option string
}.
Arguments data {T} a.
Arguments message {T} a.

Record PaginatedResponse (T : Type) := {
  page_data : list T;
  total : Num;
  page : Num;
  pageSize : Num;
  totalPages : Num
}.
Arguments page_data {T} p.
Arguments total {T} p.
Arguments page {T} p.
Arguments pageSize {T} p.
Arguments totalPages {T} p.

(** Their JSON images, the element type's image given. *)
Definition js_ApiResponse {T} (js : T -> JsValue) (r : ApiResponse T) : JsValue :=
  JObject (("data", js (data r)) :: opt_member "message" (message r)).

Definition js_PaginatedResponse {T} (js : T -> JsValue) (r : PaginatedResponse T) : JsValue :=
  JObject [("data", JArray (map js (page_data r)));
           ("total", JNumber (total r));
           ("page", JNumber (page r));
           ("pageSize", JNumber (pageSize r));
           ("totalPages", JNumber (totalPages r))].

Record PipelineStage := {
  stage_id : string;
  stage_name : string;
  stage_status : string;
  stage_progress : Num;
  stage_startedAt : option string;
  stage_completedAt : option string;
  stage_error : option string
}.

(** [status] is one of four words by its type; the type is erased at run
    time, so any word is admitted here. *)
Record Pipeline := {
  pipeline_workspaceId : string;
  pipeline_stages : list PipelineStage;
  pipeline_overallProgress : Num;
  pipeline_state : string        (* the member [status] *)
}.

Definition js_PipelineStage (s : PipelineStage) : JsValue :=
  JObject (("id", JString (stage_id s)) :: ("name", JString (stage_name s))
           :: ("status", JString (stage_status s)) :: ("progress", JNumber (stage_progress s))
           :: opt_member "startedAt" (stage_startedAt s)
           ++ opt_member "completedAt" (stage_completedAt s)
           ++ opt_member "error" (stage_error s)).

Definition js_Pipeline (p : Pipeline) : JsValue :=
  JObject [("workspaceId", JString (pipeline_workspaceId p));
           ("stages", JArray (map js_PipelineStage (pipeline_stages p)));
           ("overallProgress", JNumber (pipeline_overallProgress p));
           ("status", JString (pipeline_state p))].

(** The envelope each operation is declared to resolve with (the type
    argument of its [request<...>] call, or the cast of its result). *)
Inductive Envelope := PaginatedEnvelope | SingleEnvelope | BlobResult.

Definition declared_envelope (c : ApiCall) : Envelope :=
  match c with
  | WorkspacesList | DocumentsList _ | InterviewsList _ | ExportsList _ => PaginatedEnvelope
  | ExportsDownload _ _ => BlobResult
  | _ => SingleEnvelope
  end.

Definition is_list_operation (c : ApiCall) : bool :=
  match c with
  | WorkspacesList | DocumentsList _ | InterviewsList _ | ExportsList _ => true
  | _ => false
  end.

(** ** The smoke-test script *)

(** One [Invoke-RestMethod] or [Invoke-WebRequest]. *)
Record WebCall := {
  web_method : Method;
  web_uri : string;
  web_body : option string
}.

(** What stops the script: strict mode and [$ErrorActionPreference =
    "Stop"] turn every error into a terminating one. *)
Inductive ScriptError :=
| RequestFailed (uri : string)          (* the web cmdlet raised *)
| PropertyNotFound (name : string)      (* strict mode: no such property *)
| IndexOutOfRange                       (* strict mode: [items[0]] past the end *)
| SleepOutOfRange                       (* [Start-Sleep -Seconds] refuses its argument *)
| TimeoutWaiting (seconds : Z)          (* throw "Timeout waiting for run to finish after ... seconds." *)
| RunEnded (runStatus : string).        (* throw "Run ended with status: ..." *)

Inductive ScriptResult (A : Type) :=
| Done (a : A)
| Raised (e : ScriptError).
Arguments Done {A} a.
Arguments Raised {A} e.

(** The script as a state-and-error computation over the log of the web
    calls made so far. *)
Definition Script (A : Type) : Type := list WebCall -> list WebCall * ScriptResult A.

Definition ret {A} (a : A) : Script A := fun log => (log, Done a).

Definition raise {A} (e : ScriptError) : Script A := fun log => (log, Raised e).

Definition and_then {A B} (m : Script A) (k : A -> Script B) : Script B :=
  fun log =>
    match m log with
    | (log', Done a) => k a log'
    | (log', Raised e) => (log', Raised e)
    end.

Notation "x <- m ;; k" := (and_then m (fun x => k))
  (at level 100, m at next level, right associativity).
Notation "m ;;; k" := (and_then m (fun _ => k))
  (at level 100, right associativity).

Definition lift {A} (r : ScriptResult A) : Script A := fun log => (log, r).

(** The call is logged, then it answers or raises. *)
Definition invoke {A} (m : Method) (uri : string) (body : option string)
  (answer : option A) : Script A :=
  fun log =>
    (log ++ [{| web_method := m; web_uri := uri; web_body := body |}],
     match answer with
     | Some a => Done a
     | None => Raised (RequestFailed uri)
     end).

Definition Join_Url (base path : string) : string :=
  let base := if EndsWith_slash base then TrimEnd_slash base else base in
  let path := if negb (StartsWith "/" path) then "/" +:+ path else path in
  base +:+ path.

(** [$o.name] under strict mode, on the objects [ConvertFrom-Json] builds:
    property names ignore letter case, and a missing property raises.  The
    replies and rows the script reads are JSON objects; a read on any
    other value is taken to raise as well. *)
Fixpoint ps_assoc (name : string) (members : list (string * JsValue)) : option JsValue :=
  match members with
  | [] => None
  | (k, v) :: rest => if ps_eq name k then Some v else ps_assoc name rest
  end.

Definition ps_member (o : JsValue) (name : string) : ScriptResult JsValue :=
  match o with
  | JObject members =>
      match ps_assoc name members with
      | Some v => Done v
      | None => Raised (PropertyNotFound name)
      end
  | _ => Raised (PropertyNotFound name)
  end.

(** [$v[0]] on what [items] holds: the first element of an array; past
    the end of an empty one strict mode raises, and so, it is taken, does
    an index into any other value. *)
Definition ps_index0 (v : JsValue) : ScriptResult JsValue :=
  match v with
  | JArray (first :: _) => Done first
  | _ => Raised IndexOutOfRange
  end.

(** [foreach ($x in $v)]: the elements of an array, nothing for [$null],
    and any other value once. *)
Definition ps_enumerate (v : JsValue) : list JsValue :=
  match v with
  | JArray items => items
  | JNull => []
  | other => [other]
  end.

Section Smoke.

(** PowerShell's conversions of a JSON value, which the script applies to
    what the backend sent: [$v -gt 0], the truth value of [$v], and the
    text [$v] expands to inside a string.  They are left open. *)
Variable ps_gt_zero : JsValue -> bool.
Variable ps_truthy : JsValue -> bool.
Variable ps_text : JsValue -> string.

(** The script's parameters. *)
Variable ApiBase : string.
Variable TimeoutSeconds : Z.
Variable PollSeconds : Z.

(** One answer of the status endpoint: [$statusResp.data.status] when the
    request and the reads of [data.status], [data.stages] and the stages'
    names and statuses all went through; the time from the top of the
    loop's round to the clock read of its timeout test, which is a tick at
    least, the round having made a web request; and the time by which
    [Start-Sleep] and the way back to the top of the loop exceeded
    [PollSeconds], a sleep lasting as long as asked at least. *)
Record StatusReply := {
  runStatus : option string;
  round_ticks : positive;
  overslept : N
}.

(** The backend as the script meets it.  A [None] is a request that
    raised, or whose reply lacks the members read from it.  The script's
    work on the file system (its output folder, the saved listings) is
    taken to go through. *)
Record World := {
  openapi : option unit;                (* GET /openapi.json *)
  created : option string;              (* [$ws.data.id], as expanded in later paths *)
  started : option string;              (* [$runResp.data.runId] *)
  statuses : nat -> StatusReply;        (* the successive status replies *)
  artifacts : option JsValue;           (* the artifact listing *)
  exports : option JsValue;             (* the export listing *)
  download : string -> option unit      (* [Invoke-WebRequest -OutFile], by uri *)
}.

Variable world : World.

(** The clock counts ticks of 100 ns, as [DateTime] does. *)
Definition ticks_per_second : Z := 10000000.

(** [Start-Sleep -Seconds] accepts 0 .. 2147483. *)
Definition sleep_accepts (seconds : Z) : bool :=
  (0 <=? seconds) && (seconds <=? 2147483).

Definition terminal_statuses : list string := ["succeeded"; "failed"; "cancelled"].

Inductive LoopEnd :=
| Broke (runStatus : string)            (* [break] *)
| LoopRaised (e : ScriptError).

(** The polling loop.  [elapsed] is the time since [$start] at the top of
    the round, [n] counts the rounds already made.  [None]: the fuel ran
    out before the loop ended. *)
Fixpoint poll (fuel : nat) (wid : string) (n : nat) (elapsed : Z) (log : list WebCall)
  : option (list WebCall * LoopEnd) :=
  match fuel with
  | O => None
  | S fuel' =>
      let uri := Join_Url ApiBase ("/workspaces/" +:+ wid +:+ "/pipeline/status") in
      let log := log ++ [{| web_method := GET; web_uri := uri; web_body := None |}] in
      let reply := statuses world n in
      match runStatus reply with
      | None => Some (log, LoopRaised (RequestFailed uri))
      | Some st =>
          if ps_in st terminal_statuses then Some (log, Broke st)
          else
            let now := elapsed + Z.pos (round_ticks reply) in
            if now >? TimeoutSeconds * ticks_per_second
            then Some (log, LoopRaised (TimeoutWaiting TimeoutSeconds))
            else if sleep_accepts PollSeconds
            then poll fuel' wid (S n)
                   (now + PollSeconds * ticks_per_second + Z.of_N (overslept reply)) log
            else Some (log, LoopRaised SleepOutOfRange)
      end
  end.

(** Steps 4 and 5, after the run succeeded. *)
Definition download_first_artifact (wid runId : string) (arts : JsValue) : Script unit :=
  total <- lift (ps_member arts "total") ;;
  wanted <- (if ps_gt_zero total
             then items <- lift (ps_member arts "items") ;;
                  first <- lift (ps_index0 items) ;;
                  id <- lift (ps_member first "id") ;;
                  ret (ps_truthy id)
             else ret false) ;;
  if (wanted : bool) then
    items <- lift (ps_member arts "items") ;;
    a0 <- lift (ps_index0 items) ;;
    id <- lift (ps_member a0 "id") ;;
    let aUrl := Join_Url ApiBase ("/workspaces/" +:+ wid +:+ "/runs/" +:+ runId
                                  +:+ "/artifacts/" +:+ ps_text id +:+ "/download") in
    name <- lift (ps_member a0 "name") ;;
    invoke GET aUrl None (download world aUrl)
  else ret tt.

Fixpoint download_exports (wid : string) (rows : list JsValue) : Script unit :=
  match rows with
  | [] => ret tt
  | ex :: rest =>
      id <- lift (ps_member ex "id") ;;
      let exUrl := Join_Url ApiBase ("/workspaces/" +:+ wid +:+ "/exports/"
                                     +:+ ps_text id +:+ "/download") in
      kind <- lift (ps_member ex "kind") ;;
      invoke GET exUrl None (download world exUrl) ;;;
      download_exports wid rest
  end.

Definition list_and_download (wid runId : string) : Script unit :=
  arts <- invoke GET (Join_Url ApiBase ("/workspaces/" +:+ wid +:+ "/runs/" +:+ runId
                                        +:+ "/artifacts")) None (artifacts world) ;;
  total <- lift (ps_member arts "total") ;;
  download_first_artifact wid runId arts ;;;
  exps <- invoke GET (Join_Url ApiBase ("/workspaces/" +:+ wid +:+ "/exports")) None
                 (exports world) ;;
  total <- lift (ps_member exps "total") ;;
  rows <- lift (ps_member exps "items") ;;
  download_exports wid (ps_enumerate rows).

(** Steps 0 to 2, up to the loop. *)
Definition create_and_start : Script (string * string) :=
  invoke GET (Join_Url ApiBase "/openapi.json") None (openapi world) ;;;
  wid <- invoke POST (Join_Url ApiBase "/workspaces")
           (Some ("{" +:+ dq +:+ "name" +:+ dq +:+ ":" +:+ dq +:+ "SmokeDemo" +:+ dq +:+ ","
                  +:+ dq +:+ "retention_days" +:+ dq +:+ ":30}"))
           (created world) ;;
  runId <- invoke POST (Join_Url ApiBase ("/workspaces/" +:+ wid +:+ "/pipeline/run"))
             (Some ("{" +:+ dq +:+ "mode" +:+ dq +:+ ":" +:+ dq +:+ "draft" +:+ dq +:+ "}"))
             (started world) ;;
  ret (wid, runId).

(** The whole script: the web calls it made and how it ended.  [None]: the
    loop's fuel ran out. *)
Definition smoke_test (fuel : nat) : option (list WebCall * ScriptResult unit) :=
  match create_and_start [] with
  | (log, Raised e) => Some (log, Raised e)
  | (log, Done (wid, runId)) =>
      match poll fuel wid 0%nat 0 log with
      | None => None
      | Some (log, LoopRaised e) => Some (log, Raised e)
      | Some (log, Broke st) =>
          if negb (ps_eq st "succeeded") then Some (log, Raised (RunEnded st))
          else Some (list_and_download wid runId log)
      end
  end.

End Smoke.

End Runtime.

Arguments JsValue : clear implicits.
Arguments World : clear implicits.
Arguments Response : clear implicits.
Arguments Pipeline : clear implicits.
Arguments Query : clear implicits.
Arguments CacheEntry : clear implicits.
Arguments Ok {Num A} a.
Arguments Throw {Num A} e.
Arguments issued {Num A} o.
Arguments settled {Num A} o.
Arguments Done {A} a.
Arguments Raised {A} e.
Arguments data {T} a.
Arguments message {T} a.
Arguments page_data {Num T} p.
Arguments total {Num T} p.
Arguments page {Num T} p.
Arguments pageSize {Num T} p.
Arguments totalPages {Num T} p.
Arguments mutationFn {Num V} m.
Arguments onSuccess {Num V} m.

(** ** The endpoints of the specification's interface section *)

(** A path pattern: literal text, [{id}] and [...].  An [{id}] stands for
    one segment of the path, a text that is not empty and has no slash;
    [...] stands for whatever text follows. *)
Inductive Segment :=
| Lit (s : string)
| Hole
| Rest.

Definition Template := list Segment.

Definition segment (s : string) : bool := negb (String.eqb s "") && slash_free s.

(** [instance_of t p]: the path [p] is [t] with its holes filled in. *)
Inductive instance_of : Template -> string -> Prop :=
| instance_nil : instance_of [] ""
| instance_lit l t p : instance_of t p -> instance_of (Lit l :: t) (l +:+ p)
| instance_hole x t p :
    segment x = true -> instance_of t p -> instance_of (Hole :: t) (x +:+ p)
| instance_rest x t p : instance_of t p -> instance_of (Rest :: t) (x +:+ p).

Fixpoint strip_prefix (p s : string) : option string :=
  match p, s with
  | EmptyString, _ => Some s
  | String a p', String b s' => if Ascii.eqb a b then strip_prefix p' s' else None
  | String _ _, EmptyString => None
  end.

(** The decision procedure for [instance_of].  An [{id}] takes the
    characters up to a slash, one at least, and [...] any characters, each
    trying every split: [k] decides the rest of the pattern, [taken] says
    that a character was taken already. *)
Fixpoint hole_then (k : string -> bool) (taken : bool) (p : string) : bool :=
  (taken && k p) ||
  match p with
  | EmptyString => false
  | String c rest => negb (Ascii.eqb c "/") && hole_then k true rest
  end.

Fixpoint rest_then (k : string -> bool) (p : string) : bool :=
  k p ||
  match p with
  | EmptyString => false
  | String _ rest => rest_then k rest
  end.

Fixpoint matches (t : Template) (p : string) {struct t} : bool :=
  match t with
  | [] => String.eqb p ""
  | Lit l :: t' =>
      match strip_prefix l p with
      | Some rest => matches t' rest
      | None => false
      end
  | Hole :: t' => hole_then (matches t') false p
  | Rest :: t' => rest_then (matches t') p
  end.

Record Endpoint := {
  methods : list Method;
  path : Template
}.

Definition serves (e : Endpoint) (m : Method) (p : string) : bool :=
  bool_decide (m ∈ methods e) && matches (path e) p.

Definition listed (endpoints : list Endpoint) (m : Method) (p : string) : bool :=
  existsb (fun e => serves e m p) endpoints.

(** The list as the specification gives it, one group per line of the
    list.  [documents[/...]] and [interviews[/...]] are read as the
    collection path and anything below it, [pipeline[/start|/cancel]] as
    the three paths it spells, and [exports[/...]/download] as the
    collection path and a download path below it. *)
Definition spec_endpoints : list Endpoint :=
  [ {| methods := [GET; POST]; path := [Lit "/workspaces"] |};
    {| methods := [GET; PATCH; DELETE]; path := [Lit "/workspaces/"; Hole] |};
    {| methods := [GET; POST; DELETE]; path := [Lit "/workspaces/"; Hole; Lit "/documents"] |};
    {| methods := [GET; POST; DELETE];
       path := [Lit "/workspaces/"; Hole; Lit "/documents/"; Rest] |};
    {| methods := [GET; POST]; path := [Lit "/workspaces/"; Hole; Lit "/interviews"] |};
    {| methods := [GET; POST]; path := [Lit "/workspaces/"; Hole; Lit "/interviews/"; Rest] |};
    {| methods := [GET; POST]; path := [Lit "/workspaces/"; Hole; Lit "/pipeline"] |};
    {| methods := [GET; POST]; path := [Lit "/workspaces/"; Hole; Lit "/pipeline/start"] |};
    {| methods := [GET; POST]; path := [Lit "/workspaces/"; Hole; Lit "/pipeline/cancel"] |};
    {| methods := [GET; POST]; path := [Lit "/workspaces/"; Hole; Lit "/exports"] |};
    {| methods := [GET; POST];
       path := [Lit "/workspaces/"; Hole; Lit "/exports/"; Rest; Lit "/download"] |} ].

(** The three pipeline endpoints the client's [pipelineApi] is built on. *)
Definition pipeline_endpoints : list Endpoint :=
  [ {| methods := [GET]; path := [Lit "/workspaces/"; Hole; Lit "/pipeline"] |};
    {| methods := [POST]; path := [Lit "/workspaces/"; Hole; Lit "/pipeline/start"] |};
    {| methods := [POST]; path := [Lit "/workspaces/"; Hole; Lit "/pipeline/cancel"] |} ].

(** The endpoints the smoke test calls. *)
Definition script_endpoints : list Endpoint :=
  [ {| methods := [GET]; path := [Lit "/openapi.json"] |};
    {| methods := [POST]; path := [Lit "/workspaces"] |};
    {| methods := [POST]; path := [Lit "/workspaces/"; Hole; Lit "/pipeline/run"] |};
    {| methods := [GET]; path := [Lit "/workspaces/"; Hole; Lit "/pipeline/status"] |};
    {| methods := [GET];
       path := [Lit "/workspaces/"; Hole; Lit "/runs/"; Hole; Lit "/artifacts"] |};
    {| methods := [GET];
       path := [Lit "/workspaces/"; Hole; Lit "/runs/"; Hole; Lit "/artifacts/"; Hole;
                Lit "/download"] |};
    {| methods := [GET]; path := [Lit "/workspaces/"; Hole; Lit "/exports"] |};
    {| methods := [GET];
       path := [Lit "/workspaces/"; Hole; Lit "/exports/"; Hole; Lit "/download"] |} ].

(** ** A concrete run time, for the examples *)

(** Integers for the JSON numbers, with PowerShell's conversions on
    numbers and strings (every other value converts as an absent one). *)
Definition z_truthy (n : Z) : bool := negb (n =? 0).

(** [Number::toString] on the integers below 10^21 in size: the decimal
    numeral. *)
Definition z_text (n : Z) : string := pretty n.

Definition z_gt_zero (v : JsValue Z) : bool :=
  match v with
  | JNumber n => 0 <? n
  | _ => false
  end.

Definition z_ps_truthy (v : JsValue Z) : bool :=
  match v with
  | JNumber n => negb (n =? 0)
  | JString s => negb (String.eqb s "")
  | JBool b => b
  | JArray _ | JObject _ => true
  | JNull => false
  end.

Definition z_ps_text (v : JsValue Z) : string :=
  match v with
  | JString s => s
  | JNumber n => pretty n
  | _ => ""
  end.

(** A backend that answers every call with the same response. *)
Definition always (r : Response Z) : Backend := fun _ => Responds r.

(** A failed download whose body names the reason. *)
Definition expired : Response Z :=
  {| status := 404;
     content_type := Some "application/json";
     json := Some (JObject [("message", JString "Export expired")]);
     blob := "" |}.

(** A success whose body is cut short, so that it does not parse. *)
Definition truncated : Response Z :=
  {| status := 200;
     content_type := Some "application/json; charset=utf-8";
     json := None;
     blob := "" |}.

(** A validation failure as the backend words it. *)
Definition rejected : Response Z :=
  {| status := 422;
     content_type := Some "application/json";
     json := Some (JObject [("message", JString "name is required");
                            ("code", JString "VALIDATION")]);
     blob := "" |}.

(** A failed response whose [message] is an object with a [toString]
    member of its own. *)
Definition textless : Response Z :=
  {| status := 500;
     content_type := Some "application/json";
     json := Some (JObject [("message", JObject [("toString", JString "x")])]);
     blob := "" |}.

(** A pipeline that is running, in its envelope. *)
Definition running_pipeline : ApiResponse (Pipeline Z) :=
  {| data := {| pipeline_workspaceId := "ws-1"; pipeline_stages := [];
                pipeline_overallProgress := 40; pipeline_state := "running" |};
     message := None |}.

(** A backend for the smoke test: every request answers at once, the run
    reports the status [st] from the first poll on, each round takes one
    tick, and the two listings are [arts] and [exps]. *)
Definition smoke_world (st : string) (arts exps : JsValue Z) : World Z :=
  {| openapi := Some tt;
     created := Some "ws-1";
     started := Some "run-1";
     statuses := fun _ => {| runStatus := Some st; round_ticks := 1; overslept := 0 |};
     artifacts := Some arts;
     exports := Some exps;
     download := fun _ => Some tt |}.

(** A listing in the shape the script reads, and an empty page in the
    shape of [PaginatedResponse]. *)
Definition listing (rows : list (JsValue Z)) : JsValue Z :=
  JObject [("total", JNumber (Z.of_nat (length rows))); ("items", JArray rows)].

Definition empty_page : JsValue Z :=
  js_PaginatedResponse (fun _ : unit => JNull)
    {| page_data := []; total := 0; page := 1; pageSize := 20; totalPages := 0 |}.

(** The backend of a full run: one artifact and one export to download. *)
Definition full_world : World Z :=
  smoke_world "succeeded"
    (listing [JObject [("id", JString "a1"); ("name", JString "deck.pptx")]])
    (listing [JObject [("id", JNumber 7); ("kind", JString "csv")]]).

Definition smoke_run (st : string) (arts exps : JsValue Z) (fuel : nat)
  : option (list WebCall * ScriptResult unit) :=
  smoke_test z_gt_zero z_ps_truthy z_ps_text "http://127.0.0.1:18083" 60 1
             (smoke_world st arts exps) fuel.

(** The requests of a run, method and uri. *)
Definition requests_of (run : option (list WebCall * ScriptResult unit))
  : option (list (Method * string)) :=
  option_map (fun out => map (fun c => (web_method c, web_uri c)) out.1) run.

Definition result_of (run : option (list WebCall * ScriptResult unit))
  : option (ScriptResult unit) :=
  option_map snd run.

(** A page of workspaces as the backend would send it. *)
Definition page_response : Response Z :=
  {| status := 200;
     content_type := Some "application/json";
     json := Some empty_page;
     blob := "" |}.

(** The one call [workspacesApi.list] issues under the base [/api]. *)
Definition list_call : FetchCall (Num:=Z) :=
  {| call_url := "/api/workspaces";
     call_init := {| init_method := None;
                     init_headers := [("Content-Type", "application/json")];
                     init_body := None |} |}.

(** A cache holding the workspace list, one workspace and the documents
    of two workspaces. *)
Definition fresh (v : JsValue Z) : CacheEntry Z :=
  {| entry_data := Some v; isInvalidated := false |}.

Definition demo_cache : gmap QueryKey (CacheEntry Z) :=
  <[ ["workspaces"] := fresh (JString "list") ]>
  (<[ ["workspaces"; "ws-1"] := fresh (JString "one") ]>
  (<[ ["documents"; "ws-1"] := fresh (JString "docs of 1") ]>
  (<[ ["documents"; "ws-2"] := fresh (JString "docs of 2") ]> ∅))).

(** ** What the amended claims speak of *)

(** The [message] and [code] members of a response's JSON body, when it
    has one that is an object. *)
Definition body_member {Num} (r : Response Num) (k : string) : option (JsValue Num) :=
  match json r with
  | Some (JObject members) => assoc k members
  | _ => None
  end.

(** The response says it carries JSON. *)
Definition says_json {Num} (r : Response Num) : bool :=
  match content_type r with
  | Some ct => includes "application/json" ct
  | None => false
  end.

(** How each operation words a failed response: [request] reads the
    body's [message] and [code] when the response says it carries JSON
    and has a fixed text otherwise, upload reads [message] only, and
    download reads nothing.  What was read stands in the error as the text
    it converts to, and a value that has no text throws instead. *)
Definition failure_message {Num} (num_truthy : Num -> bool) (num_text : Num -> string)
  (c : ApiCall) (r : Response Num) : Result (Num:=Num) string :=
  match c with
  | ExportsDownload _ _ => Ok "Download failed"
  | DocumentsUpload _ _ =>
      ToString num_text (or_else num_truthy (body_member r "message") "Upload failed")
  | _ =>
      if says_json r
      then ToString num_text (or_else num_truthy (body_member r "message") "An error occurred")
      else Ok "API returned non-JSON response. Check VITE_API_BASE_URL configuration."
  end.

Definition failure_code {Num} (c : ApiCall) (r : Response Num) : option (JsValue Num) :=
  match c with
  | ExportsDownload _ _ | DocumentsUpload _ _ => None
  | _ => if says_json r then body_member r "code" else None
  end.

(** The operation gets through its reading of a failed response's body:
    [request] needs a body that parses, unless the content type already
    stopped it; upload falls back to an empty object on a body that does
    not parse; neither can read a member of [null]; download reads
    nothing. *)
Definition body_read {Num} (c : ApiCall) (r : Response Num) : bool :=
  match c with
  | ExportsDownload _ _ => true
  | DocumentsUpload _ _ =>
      match json r with
      | Some JNull => false
      | _ => true
      end
  | _ =>
      negb (says_json r) ||
      match json r with
      | Some JNull | None => false
      | Some _ => true
      end
  end.

(** The state of the pipeline query after a fetch resolved with the
    well-typed envelope [r]. *)
Definition fetched {Num} (r : ApiResponse (Pipeline Num)) : Query Num :=
  {| state_data := Some (js_ApiResponse js_Pipeline r) |}.

(** The state of a query that has not fetched anything yet. *)
Definition nothing_fetched {Num} : Query Num := {| state_data := None |}.

(** The resource a mutation hook changes, by the API object its mutation
    function calls, and the workspace that resource lives in; a workspace
    itself lives in none. *)
Definition resource_of (m : Mutation) : string :=
  match m with
  | CreateWorkspace _ | UpdateWorkspace _ _ | DeleteWorkspace _ => "workspaces"
  | UploadDocument _ _ | DeleteDocument _ _ => "documents"
  | CreateInterview _ | SubmitInterviewResponses _ _ _ => "interviews"
  | CreateExport _ | DownloadExport _ _ => "exports"
  | StartPipeline _ | CancelPipeline _ => "pipeline"
  end.

Definition workspace_of (m : Mutation) : option string :=
  match m with
  | CreateWorkspace _ | UpdateWorkspace _ _ | DeleteWorkspace _ => None
  | UploadDocument w _ | DeleteDocument w _ | SubmitInterviewResponses w _ _
  | DownloadExport w _ | StartPipeline w | CancelPipeline w => Some w
  | CreateInterview d => Some (ci_workspaceId d)
  | CreateExport d => Some (er_workspaceId d)
  end.

(** The query keys that belong to the mutated resource or to its parent
    workspace: the keys under the resource's name (and the workspace's id,
    when it lives in one), and the keys of that workspace. *)
Definition owned (m : Mutation) (k : QueryKey) : bool :=
  match workspace_of m with
  | None => partialMatchKey k [resource_of m]
  | Some w => partialMatchKey k [resource_of m; w] || partialMatchKey k ["workspaces"; w]
  end.

(** The key of the mutated resource: its name, and the id of the workspace
    it lives in when it lives in one. *)
Definition resource_key (m : Mutation) : QueryKey :=
  match workspace_of m with
  | None => [resource_of m]
  | Some w => [resource_of m; w]
  end.

(** The keys a successful mutation marks: the keys under the resource's
    key, and, for the document mutations and the creation of an interview,
    the keys of the workspace too; a download marks none. *)
Definition marks (m : Mutation) (k : QueryKey) : bool :=
  match m with
  | DownloadExport _ _ => false
  | UploadDocument w _ | DeleteDocument w _ =>
      partialMatchKey k (resource_key m) || partialMatchKey k ["workspaces"; w]
  | CreateInterview d =>
      partialMatchKey k (resource_key m) || partialMatchKey k ["workspaces"; ci_workspaceId d]
  | _ => partialMatchKey k (resource_key m)
  end.

(** The member [k] of a value parsed from JSON, for the member names
    [data] and [status]: an object answers with its own member, every
    other value has none. *)
Definition own_member {Num} (v : JsValue Num) (k : string) : JsOpt (Num:=Num) :=
  match v with
  | JObject members => assoc k members
  | _ => None
  end.

(** *** The smoke test's loop, round by round *)

Section Rounds.

Context {Num : Type}.
Variable ApiBase : string.
Variable TimeoutSeconds : Z.
Variable PollSeconds : Z.
Variable world : World Num.

(** The time since [$start] at the top of round [k], every earlier round
    having slept. *)
Fixpoint round_start (k : nat) : Z :=
  match k with
  | O => 0
  | S j => round_start j + Z.pos (round_ticks (statuses world j))
           + PollSeconds * ticks_per_second + Z.of_N (overslept (statuses world j))
  end.

(** The clock reading of round [k]'s timeout test. *)
Definition round_clock (k : nat) : Z :=
  round_start k + Z.pos (round_ticks (statuses world k)).

(** Round [k] goes on to the next: a status that is not terminal, within
    the time allowed, and a sleep that is accepted. *)
Definition round_continues (k : nat) : Prop :=
  exists st, runStatus (statuses world k) = Some st /\
             ps_in st terminal_statuses = false /\
             round_clock k <= TimeoutSeconds * ticks_per_second /\
             sleep_accepts PollSeconds = true.

(** Round [k] ends the loop in the way [e] says. *)
Definition round_ends (k : nat) (e : LoopEnd) : Prop :=
  match e with
  | Broke st =>
      runStatus (statuses world k) = Some st /\ ps_in st terminal_statuses = true
  | LoopRaised (TimeoutWaiting seconds) =>
      seconds = TimeoutSeconds /\
      exists st, runStatus (statuses world k) = Some st /\
                 ps_in st terminal_statuses = false /\
                 round_clock k > TimeoutSeconds * ticks_per_second
  | LoopRaised (RequestFailed _) => runStatus (statuses world k) = None
  | LoopRaised SleepOutOfRange =>
      sleep_accepts PollSeconds = false /\
      exists st, runStatus (statuses world k) = Some st /\
                 ps_in st terminal_statuses = false /\
                 round_clock k <= TimeoutSeconds * ticks_per_second
  | LoopRaised _ => False
  end.

(** The web calls of the script, by step. *)
Definition call_probe : WebCall :=
  {| web_method := GET; web_uri := Join_Url ApiBase "/openapi.json"; web_body := None |}.

Definition call_create (body : string) : WebCall :=
  {| web_method := POST; web_uri := Join_Url ApiBase "/workspaces"; web_body := Some body |}.

Definition call_run (wid body : string) : WebCall :=
  {| web_method := POST;
     web_uri := Join_Url ApiBase ("/workspaces/" +:+ wid +:+ "/pipeline/run");
     web_body := Some body |}.

Definition call_status (wid : string) : WebCall :=
  {| web_method := GET;
     web_uri := Join_Url ApiBase ("/workspaces/" +:+ wid +:+ "/pipeline/status");
     web_body := None |}.

Definition call_artifacts (wid runId : string) : WebCall :=
  {| web_method := GET;
     web_uri := Join_Url ApiBase ("/workspaces/" +:+ wid +:+ "/runs/" +:+ runId +:+ "/artifacts");
     web_body := None |}.

Definition call_artifact_download (wid runId id : string) : WebCall :=
  {| web_method := GET;
     web_uri := Join_Url ApiBase ("/workspaces/" +:+ wid +:+ "/runs/" +:+ runId
                                  +:+ "/artifacts/" +:+ id +:+ "/download");
     web_body := None |}.

Definition call_exports (wid : string) : WebCall :=
  {| web_method := GET;
     web_uri := Join_Url ApiBase ("/workspaces/" +:+ wid +:+ "/exports");
     web_body := None |}.

Definition call_export_download (wid id : string) : WebCall :=
  {| web_method := GET;
     web_uri := Join_Url ApiBase ("/workspaces/" +:+ wid +:+ "/exports/" +:+ id +:+ "/download");
     web_body := None |}.

(** A web call goes to [ApiBase] joined with a path of [endpoints], with
    a method they give for it. *)
Definition targets (endpoints : list Endpoint) (c : WebCall) : Prop :=
  exists p, web_uri c = Join_Url ApiBase p /\ listed endpoints (web_method c) p = true.

(** The calls of the smoke test: the probe, the creation of a workspace,
    and, for the workspace and the run the backend named in its replies,
    the start of the run, the status, the two listings and the downloads
    of an artifact or an export. *)
Definition script_call (c : WebCall) : Prop :=
  c = call_probe \/
  (exists body, c = call_create body) \/
  (exists wid,
     created world = Some wid /\
     ((exists body, c = call_run wid body) \/
      c = call_status wid \/
      c = call_exports wid \/
      (exists id, c = call_export_download wid id) \/
      (exists runId,
         started world = Some runId /\
         (c = call_artifacts wid runId \/
          exists id, c = call_artifact_download wid runId id)))).

End Rounds.

(** A step of the script only adds web calls to the log, each of them
    satisfying [P]. *)
Definition adds (P : WebCall -> Prop) {A} (m : Script A) : Prop :=
  forall log, exists more, (m log).1 = log ++ more /\ Forall P more.

(** The workspace whose id an operation puts in its path. *)
Definition call_workspace (c : ApiCall) : option string :=
  match c with
  | WorkspacesList | WorkspacesCreate _ => None
  | WorkspacesGet id | WorkspacesUpdate id _ | WorkspacesDelete id => Some id
  | DocumentsList w | DocumentsUpload w _ | DocumentsDelete w _
  | InterviewsList w | InterviewsGet w _ | InterviewsGetQuestions w _
  | InterviewsSubmitResponses w _ _
  | PipelineGet w | PipelineStart w | PipelineCancel w
  | ExportsList w | ExportsDownload w _ => Some w
  | InterviewsCreate data => Some (ci_workspaceId data)
  | ExportsCreate data => Some (er_workspaceId data)
  end.

Definition is_pipeline_operation (c : ApiCall) : bool :=
  match c with
  | PipelineGet _ | PipelineStart _ | PipelineCancel _ => true
  | _ => false
  end.

(** ** The development server's proxy (vite.config) *)

Record ProxyOptions := {
  target : string;
  changeOrigin : bool;
  rewrite_path : option (string -> string)
}.

(** [p.replace(/^\/api/, "")] *)
Definition strip_api (p : string) : string :=
  match strip_prefix "/api" p with
  | Some rest => rest
  | None => p
  end.

(** [server.proxy], in the order of its keys. *)
Definition proxy : list (string * ProxyOptions) :=
  [ ("/api", {| target := "http://127.0.0.1:18083"; changeOrigin := true;
                rewrite_path := Some strip_api |});
    ("/openapi.json", {| target := "http://127.0.0.1:18083"; changeOrigin := true;
                         rewrite_path := None |});
    ("/docs", {| target := "http://127.0.0.1:18083"; changeOrigin := true;
                 rewrite_path := None |}) ].

(** What the development server does with a request: the first key of the
    table that the request's URL starts with takes it, the URL is rewritten
    if the entry says so, and the request is handed to the proxy for the
    entry's target; a URL that no key takes is left to the server itself,
    which serves the application.  [Some (t, u)]: handed to the proxy for
    [t] with [u] as the request's URL.  How the proxy joins [u] to the path
    of [t] to make the URL it sends is the proxy library's matter, and not
    part of this. *)
Fixpoint forward (table : list (string * ProxyOptions)) (url : string)
  : option (string * string) :=
  match table with
  | [] => None
  | (context, opts) :: table' =>
      if StartsWith context url
      then Some (target opts, match rewrite_path opts with
                              | Some f => f url
                              | None => url
                              end)
      else forward table' url
  end.

(** ** components/layout/WorkspaceLayout *)

Definition tabs (id : string) : list (string * string) :=
  [ ("overview", "/workspaces/" +:+ id);
    ("upload", "/workspaces/" +:+ id +:+ "/upload");
    ("interview", "/workspaces/" +:+ id +:+ "/interview/new");
    ("pipeline", "/workspaces/" +:+ id +:+ "/pipeline");
    ("exports", "/workspaces/" +:+ id +:+ "/exports") ].

Definition getCurrentTab (pathname : string) : string :=
  if includes "/upload" pathname then "upload"
  else if includes "/interview" pathname then "interview"
  else if includes "/pipeline" pathname then "pipeline"
  else if includes "/exports" pathname then "exports"
  else "overview".

(** The words [getCurrentTab] looks for, without their slash. *)
Definition tab_words : list string := ["upload"; "interview"; "pipeline"; "exports"].

(** ** components/layout/AppLayout *)

(** The navigation items, each with its [href] and its [label]. *)
Definition navItems : list (string * string) :=
  [ ("/workspaces", "Workspaces");
    ("/dashboard", "Dashboard");
    ("/settings", "Settings");
    ("/help", "Help") ].

(** The labels of the items shown with the accent background:
    [location.pathname.startsWith(href) && 'bg-accent']. *)
Definition accented (pathname : string) : list string :=
  map snd (List.filter (fun item => StartsWith (fst item) pathname) navItems).

(** ** pages/workspaces/UploadPage: [formatFileSize] *)

(** The decimal numeral with one digit after the point whose value is
    [n / 10], for [n] not negative. *)
Definition tenths (n : Z) : string := pretty (n / 10) +:+ "." +:+ pretty (n mod 10).

(** [(num / den).toFixed(1)] for integers [0 <= num] and [0 < den] whose
    quotient the double holds exactly, as it does when [num] is below 2^53
    and [den] a power of two: the number of tenths nearest the quotient,
    the larger one on a tie. *)
Definition toFixed1 (num den : Z) : string := tenths ((20 * num + den) / (2 * den)).

(** [bytes] is a whole number, as a file's size is. *)
Definition formatFileSize (bytes : Z) : string :=
  if bytes <? 1024 then pretty bytes +:+ " B"
  else if bytes <? 1024 * 1024 then toFixed1 bytes 1024 +:+ " KB"
  else toFixed1 bytes (1024 * 1024) +:+ " MB".

(** ** The pages' event handlers *)

(** [toast({ title, description, variant })] *)
Record Toast := {
  toast_title : string;
  toast_description : string;
  toast_variant : option string
}.

(** The form of the workspace list's dialog and the state around it. *)
Record NewWorkspace := { nw_name : string; nw_description : string }.

Record WorkspacesListState := {
  isDialogOpen : bool;
  newWorkspace : NewWorkspace
}.

(** The interview page's form and the state around it. *)
Record FormData := {
  fd_title : string;
  fd_participantName : string;
  fd_participantRole : string
}.

Record InterviewPageState := {
  showForm : bool;
  formData : FormData
}.

Section Pages.

Context {Num : Type}.
Variable num_truthy : Num -> bool.
Variable num_text : Num -> string.

(** [String.prototype.trim].  The handlers only ask whether the trimmed
    text is empty, so the function is left open. *)
Variable trim : string -> string.

Variable VITE_API_BASE_URL : option string.

(** The backend may answer every call differently: [backends n] answers
    the call issued when [n] calls went out before. *)
Variable backends : nat -> Backend (Num:=Num).

(** What a handler acts on, outside the page's own state: the [fetch]
    calls issued so far, the toasts shown so far, the query cache, and the
    files the browser was told to save (the blob and the name given to
    it).  The refetches the library starts by itself for the queries it
    finds invalidated are not part of this. *)
Record Ui := {
  ui_calls : list (FetchCall (Num:=Num));
  ui_toasts : list Toast;
  ui_cache : gmap QueryKey (CacheEntry Num);
  ui_saved : list (Blob * string)
}.

Definition toast (t : Toast) (ui : Ui) : Ui :=
  {| ui_calls := ui_calls ui; ui_toasts := ui_toasts ui ++ [t];
     ui_cache := ui_cache ui; ui_saved := ui_saved ui |}.

Definition saved_by (effects : list (Effect (Num:=Num))) : list (Blob * string) :=
  omap (fun e => match e with
                 | ClickDownloadLink b name => Some (b, name)
                 | _ => None
                 end) effects.

(** [await hook.mutateAsync(variables)]: resolves once [onSuccess] ran,
    rejects with what the mutation function rejected with. *)
Definition mutateAsync (m : Mutation) (ui : Ui) : Result (Num:=Num) (Resolved (Num:=Num)) * Ui :=
  let '(o, effects, cache) :=
    mutate num_truthy num_text VITE_API_BASE_URL (backends (length (ui_calls ui))) m (ui_cache ui) in
  (settled o,
   {| ui_calls := ui_calls ui ++ issued o; ui_toasts := ui_toasts ui;
      ui_cache := cache; ui_saved := ui_saved ui ++ saved_by effects |}).

(** *** UploadPage *)

(** The loop of [handleDrop] and [handleFileSelect]. *)
Fixpoint upload_each (id : string) (files : list File) (ui : Ui) : Ui :=
  match files with
  | [] => ui
  | file :: rest =>
      let '(r, ui) := mutateAsync (UploadDocument id file) ui in
      let ui :=
        match r with
        | Ok _ =>
            toast {| toast_title := "Success";
                     toast_description := file_name file +:+ " uploaded successfully";
                     toast_variant := None |} ui
        | Throw _ =>
            toast {| toast_title := "Error";
                     toast_description := "Failed to upload " +:+ file_name file;
                     toast_variant := Some "destructive" |} ui
        end in
      upload_each id rest ui
  end.

(** [handleDrop]: the new value of [isDragging], and the uploads.
    [files] is [e.dataTransfer.files]. *)
Definition handleDrop (id : string) (files : list File) (ui : Ui) : bool * Ui :=
  (false, upload_each id files ui).

(** [handleFileSelect]: the uploads, and the new value of the input
    element.  [files] is [e.target.files], which may be [null]. *)
Definition handleFileSelect (id : string) (files : option (list File)) (ui : Ui)
  : string * Ui :=
  let ui := upload_each id (default [] files) ui in
  ("", ui).

Definition handleDelete (id documentId filename : string) (ui : Ui) : Ui :=
  let '(r, ui) := mutateAsync (DeleteDocument id documentId) ui in
  match r with
  | Ok _ =>
      toast {| toast_title := "Success"; toast_description := filename +:+ " deleted";
               toast_variant := None |} ui
  | Throw _ =>
      toast {| toast_title := "Error"; toast_description := "Failed to delete document";
               toast_variant := Some "destructive" |} ui
  end.

(** *** WorkspacesListPage *)

Definition handleCreateWorkspace (st : WorkspacesListState) (ui : Ui)
  : WorkspacesListState * Ui :=
  if String.eqb (trim (nw_name (newWorkspace st))) "" then
    (st, toast {| toast_title := "Error"; toast_description := "Workspace name is required";
                  toast_variant := Some "destructive" |} ui)
  else
    let '(r, ui) :=
      mutateAsync (CreateWorkspace {| cw_name := nw_name (newWorkspace st);
                                      cw_description := Some (nw_description (newWorkspace st)) |})
                  ui in
    match r with
    | Ok _ =>
        ({| isDialogOpen := false;
            newWorkspace := {| nw_name := ""; nw_description := "" |} |},
         toast {| toast_title := "Success";
                  toast_description := "Workspace created successfully";
                  toast_variant := None |} ui)
    | Throw _ =>
        (st, toast {| toast_title := "Error";
                      toast_description := "Failed to create workspace";
                      toast_variant := Some "destructive" |} ui)
    end.

(** *** InterviewPage *)

Definition handleSubmit (id : string) (st : InterviewPageState) (ui : Ui)
  : InterviewPageState * Ui :=
  if String.eqb (trim (fd_title (formData st))) "" then
    (st, toast {| toast_title := "Error"; toast_description := "Interview title is required";
                  toast_variant := Some "destructive" |} ui)
  else
    let '(r, ui) :=
      mutateAsync (CreateInterview
                     {| ci_workspaceId := id;
                        ci_title := fd_title (formData st);
                        ci_participantName := Some (fd_participantName (formData st));
                        ci_participantRole := Some (fd_participantRole (formData st)) |})
                  ui in
    match r with
    | Ok _ =>
        ({| showForm := false;
            formData := {| fd_title := ""; fd_participantName := "";
                           fd_participantRole := "" |} |},
         toast {| toast_title := "Success";
                  toast_description := "Interview created successfully";
                  toast_variant := None |} ui)
    | Throw _ =>
        (st, toast {| toast_title := "Error";
                      toast_description := "Failed to create interview";
                      toast_variant := Some "destructive" |} ui)
    end.

(** *** ExportsPage *)

(** [selectedFormat] is one of the ids of [EXPORT_FORMATS], the radio
    group offering no other. *)
Definition handleCreateExport (id : string) (selectedFormat : ExportFormat) (ui : Ui) : Ui :=
  let '(r, ui) :=
    mutateAsync (CreateExport {| er_workspaceId := id; er_format := selectedFormat;
                                 er_sections := None |}) ui in
  match r with
  | Ok _ =>
      toast {| toast_title := "Export Started";
               toast_description := "Your report is being generated.";
               toast_variant := None |} ui
  | Throw _ =>
      toast {| toast_title := "Error"; toast_description := "Failed to create export";
               toast_variant := Some "destructive" |} ui
  end.

Definition handleDownload (id exportId : string) (ui : Ui) : Ui :=
  let '(r, ui) := mutateAsync (DownloadExport id exportId) ui in
  match r with
  | Ok _ =>
      toast {| toast_title := "Download Started";
               toast_description := "Your file is being downloaded.";
               toast_variant := None |} ui
  | Throw _ =>
      toast {| toast_title := "Error"; toast_description := "Failed to download export";
               toast_variant := Some "destructive" |} ui
  end.

(** *** PipelinePage *)

Definition handleStart (id : string) (ui : Ui) : Ui :=
  let '(r, ui) := mutateAsync (StartPipeline id) ui in
  match r with
  | Ok _ =>
      toast {| toast_title := "Pipeline Started";
               toast_description := "The analysis pipeline has been initiated.";
               toast_variant := None |} ui
  | Throw _ =>
      toast {| toast_title := "Error"; toast_description := "Failed to start pipeline";
               toast_variant := Some "destructive" |} ui
  end.

Definition handleCancel (id : string) (ui : Ui) : Ui :=
  let '(r, ui) := mutateAsync (CancelPipeline id) ui in
  match r with
  | Ok _ =>
      toast {| toast_title := "Pipeline Cancelled";
               toast_description := "The analysis pipeline has been stopped.";
               toast_variant := None |} ui
  | Throw _ =>
      toast {| toast_title := "Error"; toast_description := "Failed to cancel pipeline";
               toast_variant := Some "destructive" |} ui
  end.

(** [v?.k], for the member names [data] and [status]. *)
Definition js_get_optional (v : JsOpt (Num:=Num)) (k : string) : JsOpt (Num:=Num) :=
  match v with
  | Some (JObject members) => assoc k members
  | _ => None
  end.

(** [pipeline] is the data of the pipeline query, [undefined] before the
    first fetch resolved. *)
Definition pipelineData (pipeline : JsOpt (Num:=Num)) : JsOpt (Num:=Num) :=
  js_get_optional pipeline "data".

Definition isRunning (pipeline : JsOpt (Num:=Num)) : bool :=
  is_string (js_get_optional (pipelineData pipeline) "status") "running".

Definition isCompleted (pipeline : JsOpt (Num:=Num)) : bool :=
  is_string (js_get_optional (pipelineData pipeline) "status") "completed".

Definition isFailed (pipeline : JsOpt (Num:=Num)) : bool :=
  is_string (js_get_optional (pipelineData pipeline) "status") "failed".

(** The one button of the pipeline card's header. *)
Inductive Handler := HandleStart | HandleCancel.

Record Button := {
  button_label : string;
  button_onClick : Handler;
  button_disabled : bool
}.

(** [startPending] and [cancelPending] are the [isPending] of the two
    mutations. *)
Definition pipeline_button (pipeline : JsOpt (Num:=Num)) (startPending cancelPending : bool)
  : Button :=
  if isRunning pipeline then
    {| button_label := "Cancel"; button_onClick := HandleCancel;
       button_disabled := cancelPending |}
  else
    {| button_label := if isCompleted pipeline then "Re-run Pipeline" else "Start Pipeline";
       button_onClick := HandleStart;
       button_disabled := startPending || isCompleted pipeline |}.

End Pages.

Arguments Ui : clear implicits.

(** ** pages/workspaces/WorkspaceDetailPage *)

(** A step of the audit, as the page lists it ([count] and [status] are
    members of some steps only). *)
Record Step := {
  step_title : string;
  step_href : string;
  step_count : option nat;
  step_status : option string;
  step_completed : bool
}.

Section WorkspaceDetail.

Context {Num : Type}.

(** The element types of the two listings, which the page does not look
    into. *)
Context {Document Interview : Type}.

(** What the page computes once the workspace query is neither loading
    nor failed.  The data of the other three queries, [None] while a query
    has none; what a query resolved with is taken to have its declared
    type. *)
Variable id : string.
Variable documents : option (PaginatedResponse (Num:=Num) Document).
Variable interviews : option (PaginatedResponse (Num:=Num) Interview).
Variable pipeline : option (ApiResponse (Pipeline Num)).

(** [documents?.data?.length || 0] *)
Definition documentCount : nat :=
  match documents with
  | Some p => length (page_data p)
  | None => 0%nat
  end.

Definition interviewCount : nat :=
  match interviews with
  | Some p => length (page_data p)
  | None => 0%nat
  end.

(** [pipeline?.data?.status || 'idle'] *)
Definition pipelineStatus : string :=
  match pipeline with
  | Some r => if String.eqb (pipeline_state (data r)) "" then "idle" else pipeline_state (data r)
  | None => "idle"
  end.

Definition steps : list Step :=
  [ {| step_title := "Upload Documents";
       step_href := "/workspaces/" +:+ id +:+ "/upload";
       step_count := Some documentCount; step_status := None;
       step_completed := (0 <? documentCount)%nat |};
    {| step_title := "Conduct Interviews";
       step_href := "/workspaces/" +:+ id +:+ "/interview/new";
       step_count := Some interviewCount; step_status := None;
       step_completed := (0 <? interviewCount)%nat |};
    {| step_title := "Run Analysis";
       step_href := "/workspaces/" +:+ id +:+ "/pipeline";
       step_count := None; step_status := Some pipelineStatus;
       step_completed := String.eqb pipelineStatus "completed" |};
    {| step_title := "Export Reports";
       step_href := "/workspaces/" +:+ id +:+ "/exports";
       step_count := None; step_status := None;
       step_completed := String.eqb pipelineStatus "completed" |} ].

Definition completedSteps : nat := length (filter (fun s => step_completed s = true) steps).

(** [(completedSteps / steps.length) * 100], a quotient and a product the
    doubles hold exactly, the steps being four. *)
Definition overallProgress : Q :=
  (inject_Z (Z.of_nat completedSteps) / inject_Z (Z.of_nat (length steps)) * inject_Z 100)%Q.

End WorkspaceDetail.

(** The handlers that run one mutation and report it, as one function of
    the button clicked.  [id] is the workspace of the page. *)
Inductive Action :=
| ClickDelete (documentId filename : string)      (* UploadPage, a document's delete button *)
| ClickCreateExport (selectedFormat : ExportFormat)
| ClickDownload (exportId : string)
| ClickStart
| ClickCancel.

Definition handle {Num} (num_truthy : Num -> bool) (num_text : Num -> string)
  (base : option string)
  (backends : nat -> Backend (Num:=Num)) (id : string) (a : Action) (ui : Ui Num) : Ui Num :=
  match a with
  | ClickDelete documentId filename =>
      handleDelete num_truthy num_text base backends id documentId filename ui
  | ClickCreateExport selectedFormat =>
      handleCreateExport num_truthy num_text base backends id selectedFormat ui
  | ClickDownload exportId => handleDownload num_truthy num_text base backends id exportId ui
  | ClickStart => handleStart num_truthy num_text base backends id ui
  | ClickCancel => handleCancel num_truthy num_text base backends id ui
  end.

(** ** What the further properties speak of *)

(** The operation resolved. *)
Definition resolves {Num A} (o : Outcome (Num:=Num) A) : bool :=
  match settled o with
  | Ok _ => true
  | Throw _ => false
  end.

(** The [fetch] call that uploads [file] to the workspace [id]. *)
Definition upload_call {Num} (base : option string) (id : string) (file : File)
  : FetchCall (Num:=Num) :=
  {| call_url := API_BASE_URL base +:+ "/workspaces/" +:+ id +:+ "/documents";
     call_init := {| init_method := Some POST; init_headers := [];
                     init_body := Some (FormBody file) |} |}.

(** The toast that tells how the upload of [file] went. *)
Definition upload_toast (file : File) (uploaded : bool) : Toast :=
  if uploaded
  then {| toast_title := "Success";
          toast_description := file_name file +:+ " uploaded successfully";
          toast_variant := None |}
  else {| toast_title := "Error";
          toast_description := "Failed to upload " +:+ file_name file;
          toast_variant := Some "destructive" |}.

(** The queries a mutation makes stale when it succeeds.  The three
    workspace mutations: the list and every workspace's entry.  The two
    document mutations and the creation of an interview: the workspace's
    own documents or interviews and the workspace's entry.  The submission
    of responses: the workspace's interviews.  The creation of an export:
    the workspace's exports.  Starting and cancelling the pipeline: the
    workspace's pipeline.  A download: none. *)
Definition refreshes (m : Mutation) (h : QueryHook) : bool :=
  match m, h with
  | (CreateWorkspace _ | UpdateWorkspace _ _ | DeleteWorkspace _),
    (UseWorkspaces | UseWorkspace _) => true
  | (UploadDocument w _ | DeleteDocument w _), (UseDocuments w' | UseWorkspace w') =>
      String.eqb w w'
  | CreateInterview d,
    (UseInterviews w' | UseInterview w' _ | UseInterviewQuestions w' _ | UseWorkspace w') =>
      String.eqb (ci_workspaceId d) w'
  | SubmitInterviewResponses w _ _,
    (UseInterviews w' | UseInterview w' _ | UseInterviewQuestions w' _) =>
      String.eqb w w'
  | CreateExport d, UseExports w' => String.eqb (er_workspaceId d) w'
  | (StartPipeline w | CancelPipeline w), UsePipeline w' => String.eqb w w'
  | _, _ => false
  end.

(** The download a row of the export listing asks for, when the row has
    the two members the loop reads. *)
Definition export_download {Num} (ps_text : JsValue Num -> string) (ApiBase wid : string)
  (row : JsValue Num) : option WebCall :=
  match ps_member row "id", ps_member row "kind" with
  | Done id, Done _ => Some (call_export_download ApiBase wid (ps_text id))
  | _, _ => None
  end.

(** The first row of the artifact listing. *)
Definition first_artifact {Num} (arts : JsValue Num) : ScriptResult (JsValue Num) :=
  match ps_member arts "items" with
  | Done items => ps_index0 items
  | Raised e => Raised e
  end.

(** The artifact to download: the [id] of the first row, when the
    listing's [total] is above zero and that [id] is true. *)
Definition artifact_wanted {Num} (ps_gt_zero ps_truthy : JsValue Num -> bool)
  (arts : JsValue Num) : option (JsValue Num) :=
  match ps_member arts "total", first_artifact arts with
  | Done total, Done first =>
      match ps_member first "id" with
      | Done id => if ps_gt_zero total && ps_truthy id then Some id else None
      | Raised _ => None
      end
  | _, _ => None
  end.

(** What each way of rejecting tells about the call and its response.
    A [TypeError] has three sources: [fetch] itself rejecting, a member
    read on a failed response's body that is [null], and a [message] that
    has no text. *)
Definition cause {Num} (num_truthy : Num -> bool) (num_text : Num -> string)
  (base : option string) (backend : Backend (Num:=Num)) (c : ApiCall)
  (calls : list (FetchCall (Num:=Num))) (x : Exn (Num:=Num)) : Prop :=
  match x with
  | ThrowSyntaxError =>
      exists call r, calls = [call] /\ backend call = Responds r /\ json r = None /\
                     (if uses_request c then says_json r = true else ok r = true)
  | ThrowTypeError =>
      exists call, calls = [call] /\
        (backend call = NetworkError \/
         exists r, backend call = Responds r /\ ok r = false /\
                   (uses_request c = true -> says_json r = true) /\
                   (json r = Some JNull \/
                    failure_message num_truthy num_text c r = Throw ThrowTypeError))
  | ThrowApiError e =>
      (calls = [] /\ uses_request c = true /\ API_BASE_URL base = "" /\ err_status e = 0) \/
      (exists call r, calls = [call] /\ backend call = Responds r /\ err_status e = status r /\
                      (ok r = false \/ (uses_request c = true /\ says_json r = false)))
  end.

(** The operation of the client behind each button. *)
Definition action_call (id : string) (a : Action) : ApiCall :=
  match a with
  | ClickDelete documentId _ => DocumentsDelete id documentId
  | ClickCreateExport selectedFormat =>
      ExportsCreate {| er_workspaceId := id; er_format := selectedFormat; er_sections := None |}
  | ClickDownload exportId => ExportsDownload id exportId
  | ClickStart => PipelineStart id
  | ClickCancel => PipelineCancel id
  end.

(** A POST of a JSON text through [request]. *)
Definition json_post {Num} (base : option string) (endpoint : string) (payload : JsValue Num)
  : FetchCall (Num:=Num) :=
  {| call_url := API_BASE_URL base +:+ endpoint;
     call_init := {| init_method := Some POST;
                     init_headers := [("Content-Type", "application/json")];
                     init_body := Some (JsonBody payload) |} |}.

(** ** More concrete values, for the examples *)

Definition a_pdf : File := {| file_name := "a.pdf"; file_bytes := "" |}.
Definition b_pdf : File := {| file_name := "b.pdf"; file_bytes := "" |}.

(** A backend that rejects the first call and accepts the later ones. *)
Definition first_fails : nat -> Backend (Num:=Z) :=
  fun n => if (n =? 0)%nat then always rejected else always page_response.

(** Nothing done yet, over the cache of the earlier examples. *)
Definition at_rest : Ui Z :=
  {| ui_calls := []; ui_toasts := []; ui_cache := demo_cache; ui_saved := [] |}.

(** [trim] on texts of ASCII characters: blanks, tabs and line ends are
    taken off both ends. *)
Definition is_space (c : ascii) : bool :=
  let n := nat_of_ascii c in
  ((n =? 32) || ((9 <=? n) && (n <=? 13)))%nat.

Fixpoint trim_start (s : string) : string :=
  match s with
  | EmptyString => EmptyString
  | String c rest => if is_space c then trim_start rest else s
  end.

Fixpoint trim_end (s : string) : string :=
  match s with
  | EmptyString => EmptyString
  | String c rest =>
      match trim_end rest with
      | EmptyString => if is_space c then EmptyString else String c EmptyString
      | rest' => String c rest'
      end
  end.

Definition trim_ascii (s : string) : string := trim_end (trim_start s).

Definition delete_call : FetchCall (Num:=Z) :=
  {| call_url := "/api/workspaces/ws-1";
     call_init := {| init_method := Some DELETE;
                     init_headers := [("Content-Type", "application/json")];
                     init_body := None |} |}.

(** * Properties *)

(** ** Path patterns *)

Lemma strip_prefix_app (l p : string) : strip_prefix l (l +:+ p) = Some p.
Proof.
  induction l as [|a l IH]; simpl; [destruct p; reflexivity|].
  rewrite Ascii.eqb_refl. exact IH.
Qed.

Lemma strip_prefix_inv (l p rest : string) : strip_prefix l p = Some rest -> p = l +:+ rest.
Proof.
  revert p. induction l as [|a l IH]; intros p H; simpl in *.
  - destruct p; injection H as <-; reflexivity.
  - destruct p as [|b p]; [discriminate|].
    destruct (Ascii.eqb_spec a b); [|discriminate]. subst.
    change (String b l +:+ rest) with (String b (l +:+ rest)). f_equal. apply IH. exact H.
Qed.

Lemma matches_lit_app (l : string) (t : Template) (p : string) :
  matches (Lit l :: t) (l +:+ p) = matches t p.
Proof. simpl. rewrite strip_prefix_app. reflexivity. Qed.

Lemma append_empty_r (l : string) : l +:+ "" = l.
Proof.
  induction l as [|a l IH]; [reflexivity|].
  change (String a l +:+ "") with (String a (l +:+ "")). congruence.
Qed.

Lemma append_assoc (a b c : string) : (a +:+ b) +:+ c = a +:+ (b +:+ c).
Proof.
  induction a as [|x a IH]; [reflexivity|].
  change (String x (a +:+ b) +:+ c = String x (a +:+ (b +:+ c))).
  change (String x ((a +:+ b) +:+ c) = String x (a +:+ (b +:+ c))). congruence.
Qed.

Lemma matches_lit_end (l : string) : matches [Lit l] l = true.
Proof.
  rewrite <- (append_empty_r l) at 2. rewrite matches_lit_app. reflexivity.
Qed.

Lemma hole_then_app (k : string -> bool) (x p : string) :
  forall taken : bool,
    slash_free x = true ->
    taken || negb (String.eqb x "") = true ->
    k p = true ->
    hole_then k taken (x +:+ p) = true.
Proof.
  induction x as [|a x IH]; intros taken Hfree Hsome Hk.
  - simpl in Hsome. rewrite orb_false_r in Hsome. subst taken.
    change ("" +:+ p) with p. destruct p; simpl; rewrite Hk; reflexivity.
  - change (String a x +:+ p) with (String a (x +:+ p)).
    simpl in Hfree. apply andb_true_iff in Hfree as [Ha Hfree].
    cbn [hole_then]. rewrite Ha, (IH true Hfree eq_refl Hk). apply orb_true_r.
Qed.

Lemma hole_then_sound (k : string -> bool) (p : string) :
  forall taken : bool,
    hole_then k taken p = true ->
    exists x q, p = x +:+ q /\ slash_free x = true /\
                taken || negb (String.eqb x "") = true /\ k q = true.
Proof.
  induction p as [|c p IH]; intros taken H.
  - simpl in H. rewrite orb_false_r in H. apply andb_true_iff in H as [-> Hk].
    exists "", "". auto.
  - cbn [hole_then] in H. apply orb_true_iff in H as [H|H].
    + apply andb_true_iff in H as [-> Hk]. exists "", (String c p). auto.
    + apply andb_true_iff in H as [Hc H].
      destruct (IH true H) as (x & q & -> & Hfree & _ & Hk).
      exists (String c x), q. split; [reflexivity|]. split; [simpl; rewrite Hc; exact Hfree|].
      split; [apply orb_true_r|exact Hk].
Qed.

Lemma rest_then_app (k : string -> bool) (x p : string) :
  k p = true -> rest_then k (x +:+ p) = true.
Proof.
  intros Hk. induction x as [|a x IH].
  - change ("" +:+ p) with p. destruct p; simpl; rewrite Hk; reflexivity.
  - change (String a x +:+ p) with (String a (x +:+ p)).
    cbn [rest_then]. rewrite IH. apply orb_true_r.
Qed.

Lemma rest_then_sound (k : string -> bool) (p : string) :
  rest_then k p = true -> exists x q, p = x +:+ q /\ k q = true.
Proof.
  induction p as [|c p IH]; intros H.
  - simpl in H. rewrite orb_false_r in H. exists "", "". auto.
  - cbn [rest_then] in H. apply orb_true_iff in H as [H|H].
    + exists "", (String c p). auto.
    + destruct (IH H) as (x & q & -> & Hk). exists (String c x), q. auto.
Qed.

Lemma matches_hole_app (x : string) (t : Template) (p : string) :
  segment x = true -> matches t p = true -> matches (Hole :: t) (x +:+ p) = true.
Proof.
  intros Hx H. unfold segment in Hx. apply andb_true_iff in Hx as [Hsome Hfree].
  cbn [matches]. apply hole_then_app; [exact Hfree|exact Hsome|exact H].
Qed.

Lemma matches_hole_end (x : string) : segment x = true -> matches [Hole] x = true.
Proof.
  intros Hx. rewrite <- (append_empty_r x). apply matches_hole_app; [exact Hx|reflexivity].
Qed.

Lemma matches_rest_app (x : string) (t : Template) (p : string) :
  matches t p = true -> matches (Rest :: t) (x +:+ p) = true.
Proof. intros H. cbn [matches]. apply rest_then_app. exact H. Qed.

Lemma matches_rest_end (x : string) : matches [Rest] x = true.
Proof. rewrite <- (append_empty_r x). apply matches_rest_app. reflexivity. Qed.

(** [matches] decides [instance_of]. *)
Lemma matches_complete (t : Template) (p : string) : instance_of t p -> matches t p = true.
Proof.
  induction 1.
  - reflexivity.
  - rewrite matches_lit_app. assumption.
  - apply matches_hole_app; assumption.
  - apply matches_rest_app. assumption.
Qed.

Lemma matches_sound (t : Template) (p : string) : matches t p = true -> instance_of t p.
Proof.
  revert p. induction t as [|[l| |] t IH]; intros p H.
  - simpl in H. apply String.eqb_eq in H. subst. constructor.
  - simpl in H. destruct (strip_prefix l p) as [rest|] eqn:E; [|discriminate].
    apply strip_prefix_inv in E. subst. constructor. auto.
  - cbn [matches] in H. apply hole_then_sound in H as (x & q & -> & Hfree & Hsome & Hk).
    constructor; [|auto]. unfold segment. rewrite Hfree. simpl in Hsome. rewrite Hsome.
    reflexivity.
  - cbn [matches] in H. apply rest_then_sound in H as (x & q & -> & Hk).
    constructor. auto.
Qed.

Ltac solve_matches :=
  repeat first
    [ reflexivity
    | apply matches_lit_end
    | apply matches_rest_end
    | apply matches_hole_end; assumption
    | rewrite matches_lit_app
    | apply matches_hole_app; [assumption|]
    | apply matches_rest_app ].

Ltac solve_serves :=
  apply andb_true_iff; split; [reflexivity | solve [solve_matches]].

(** Goes through the endpoints in order and settles on the first that
    serves the method and the path. *)
Ltac solve_listed :=
  unfold listed; simpl existsb; unfold serves; simpl methods; simpl path;
  repeat match goal with
         | |- _ || _ = true =>
             apply orb_true_iff; first [left; solve [solve_serves] | right]
         end;
  try reflexivity.

Ltac solve_targets :=
  eexists; split; [reflexivity|]; simpl web_method; solve_listed.

(** A listed request is one some endpoint of the list serves: its method
    is among the endpoint's and its path an instance of the endpoint's
    pattern. *)
Lemma listed_spec (endpoints : list Endpoint) (m : Method) (p : string) :
  listed endpoints m p = true <->
  exists e, e ∈ endpoints /\ m ∈ methods e /\ instance_of (path e) p.
Proof.
  unfold listed, serves. rewrite existsb_exists. split.
  - intros (e & He & H). apply andb_true_iff in H as [Hm Hp].
    exists e. split; [apply list_elem_of_In; exact He|].
    split; [apply bool_decide_eq_true in Hm; exact Hm | apply matches_sound; exact Hp].
  - intros (e & He & Hm & Hp). exists e. split; [apply list_elem_of_In; exact He|].
    apply andb_true_iff. split; [apply bool_decide_eq_true; exact Hm|].
    apply matches_complete. exact Hp.
Qed.

Section Facts.

Context {Num : Type}.
Variable num_truthy : Num -> bool.
Variable num_text : Num -> string.

(** ** The REST client *)

(** A [request]-based operation issues nothing when the base URL is empty
    and exactly one call otherwise; upload and download always issue one. *)
Lemma request_issued base backend endpoint options :
  issued (request num_truthy num_text base backend endpoint options) =
  if String.eqb (API_BASE_URL base) "" then []
  else [{| call_url := API_BASE_URL base +:+ endpoint;
           call_init := {| init_method := init_method options;
                           init_headers := ("Content-Type", "application/json")
                                           :: init_headers options;
                           init_body := init_body options |} |}].
Proof. unfold request. destruct (String.eqb (API_BASE_URL base) ""); reflexivity. Qed.

Ltac unfold_api :=
  unfold workspacesApi_list, workspacesApi_get, workspacesApi_create,
    workspacesApi_update, workspacesApi_delete, documentsApi_list, documentsApi_delete,
    interviewsApi_list, interviewsApi_get, interviewsApi_create, interviewsApi_getQuestions,
    interviewsApi_submitResponses, pipelineApi_get, pipelineApi_start, pipelineApi_cancel,
    exportsApi_list, exportsApi_create in *.

Lemma issued_independent_of_backend base backend backend' c :
  issued (perform num_truthy num_text base backend c) = issued (perform num_truthy num_text base backend' c).
Proof. destruct c; simpl; unfold_api; rewrite ?request_issued; reflexivity. Qed.

(** What [request] settles with once a response arrived. *)
Lemma request_failed base backend endpoint options call r :
  call ∈ issued (request num_truthy num_text base backend endpoint options) ->
  backend call = Responds r ->
  ok r = false ->
  negb (says_json r) || match json r with Some JNull | None => false | Some _ => true end = true ->
  settled (request num_truthy num_text base backend endpoint options) =
  match (if says_json r
         then ToString num_text (or_else num_truthy (body_member r "message") "An error occurred")
         else Ok "API returned non-JSON response. Check VITE_API_BASE_URL configuration.") with
  | Ok text =>
      Throw (ThrowApiError
        {| err_message := text;
           err_status := status r;
           err_code := if says_json r then body_member r "code" else None |})
  | Throw e => Throw e
  end.
Proof.
  unfold request, says_json, body_member, json_of.
  destruct (String.eqb (API_BASE_URL base) ""); simpl; intros Hin Hb Hok Hread.
  - inversion Hin.
  - apply list_elem_of_singleton in Hin. subst call. rewrite Hb.
    destruct (match content_type r with Some ct => includes "application/json" ct | None => false end);
      simpl in *; [|reflexivity].
    destruct (json r) as [[]|]; simpl in *; try discriminate; rewrite Hok; simpl;
      try reflexivity;
      match goal with
      | |- context [ToString ?f ?v] => destruct (ToString f v); reflexivity
      end.
Qed.

(** The text of an array, element by element. *)
Lemma ToString_array_cons (x : JsValue Num) (rest : list (JsValue Num)) :
  ToString num_text (JArray (x :: rest)) =
  bind (match x with JNull => Ok "" | _ => ToString num_text x end) (fun next =>
  match rest with
  | [] => Ok next
  | _ :: _ => bind (ToString num_text (JArray rest)) (fun more => Ok (next +:+ "," +:+ more))
  end).
Proof. reflexivity. Qed.

(** The conversion throws nothing but a [TypeError]. *)
Lemma ToString_throws :
  forall (v : JsValue Num) (e : Exn), ToString num_text v = Throw e -> e = ThrowTypeError.
Proof.
  fix IH 1. intros [| b | n | s | items | members] e H; try discriminate H.
  - revert items e H. fix IHl 1. intros [|x rest] e H; [discriminate H|].
    rewrite ToString_array_cons in H.
    destruct (match x with JNull => Ok "" | _ => ToString num_text x end) as [next|e'] eqn:Ex.
    + cbn [bind] in H. pose proof (IHl rest) as Hrest.
      destruct rest as [|y rest]; [discriminate H|].
      destruct (ToString num_text (JArray (y :: rest))) as [more|e''] eqn:Er;
        [discriminate H|].
      cbn [bind] in H. injection H as <-. apply Hrest. reflexivity.
    + cbn [bind] in H. injection H as <-. pose proof (IH x) as Hx.
      destruct x; try discriminate Ex; apply (Hx _ Ex).
  - simpl in H. destruct (assoc "toString" members); [|discriminate H]. congruence.
Qed.

(** C1, as amended.  Every operation reports a failed HTTP response
    whose body it gets through reading by throwing the one error type
    [ApiError] with the response's status, unless the message it read has
    no text, when the error's own constructor throws a [TypeError].  The
    message is the text of the body's [message] when [request] or upload
    finds a truthy one, and otherwise a fixed text, one per place:
    [request]'s two, upload's and download's; download never reads the
    body.  A message that is a string stands as it is; one that is an object
    reads [[object Object]], or has no text if it has a member named
    [toString].  Only [request] passes a code on. *)
Theorem failed_response_throws_ApiError base backend c call r :
  call ∈ issued (perform num_truthy num_text base backend c) ->
  backend call = Responds r ->
  ok r = false ->
  body_read c r = true ->
  settled (perform num_truthy num_text base backend c) =
  match failure_message num_truthy num_text c r with
  | Ok text => Throw (ThrowApiError {| err_message := text;
                                       err_status := status r;
                                       err_code := failure_code c r |})
  | Throw e => Throw e
  end /\
  (forall e, failure_message num_truthy num_text c r = Throw e -> e = ThrowTypeError) /\
  (forall fallback s,
     ToString num_text (or_else num_truthy (Some (JString s)) fallback) =
     Ok (if String.eqb s "" then fallback else s)) /\
  (forall fallback members,
     ToString num_text (or_else num_truthy (Some (JObject members)) fallback) =
     match assoc "toString" members with
     | Some _ => Throw ThrowTypeError
     | None => Ok "[object Object]"
     end).
Proof.
  intros Hin Hb Hok Hread. split; [|split; [|split]].
  - destruct c; simpl in *; unfold_api;
      try (erewrite request_failed by eassumption;
           destruct (says_json r); [|reflexivity];
           match goal with
           | |- context [ToString ?f ?v] => destruct (ToString f v); reflexivity
           end).
    + (* upload *)
      unfold documentsApi_upload in *; simpl in *.
      apply list_elem_of_singleton in Hin. subst call. rewrite Hb, Hok. simpl.
      unfold body_member.
      destruct (json r) as [[]|]; simpl in *; try discriminate; try reflexivity;
        match goal with
        | |- context [ToString ?f ?v] => destruct (ToString f v); reflexivity
        end.
    + (* download *)
      unfold exportsApi_download in *; simpl in *.
      apply list_elem_of_singleton in Hin. subst call. rewrite Hb, Hok. reflexivity.
  - intros e He. unfold failure_message in He.
    destruct c; try (destruct (says_json r); [|discriminate He]);
      try discriminate He; exact (ToString_throws _ _ He).
  - intros fallback s. unfold or_else, truthy. destruct (String.eqb s ""); reflexivity.
  - intros fallback members. reflexivity.
Qed.

(** The base URL is empty exactly when the variable is unset or empty. *)
Lemma API_BASE_URL_empty (env : option string) :
  API_BASE_URL env = "" <-> env = None \/ env = Some "".
Proof.
  unfold API_BASE_URL. destruct env as [s|]; [|tauto].
  destruct (String.eqb_spec s ""); subst; split; intros H; auto.
  - subst. tauto.
  - destruct H as [H|H]; [discriminate | congruence].
Qed.

Lemma request_unconfigured base backend endpoint options :
  API_BASE_URL base = "" ->
  request num_truthy num_text base backend endpoint options =
  {| issued := [];
     settled := Throw (ThrowApiError
       {| err_message := "API not configured. Set VITE_API_BASE_URL environment variable.";
          err_status := 0;
          err_code := None |}) |}.
Proof. intros H. unfold request. rewrite H. reflexivity. Qed.

(** C8.  With an empty base URL, every operation that goes through
    [request] throws an [ApiError] of status 0 and issues no [fetch] at
    all, while upload and download, which have no such test, each issue
    their [fetch] against the path alone. *)
Theorem unconfigured_base_fails_fast_only_in_request env backend c :
  API_BASE_URL env = "" ->
  (uses_request c = true ->
     issued (perform num_truthy num_text env backend c) = [] /\
     settled (perform num_truthy num_text env backend c) =
     Throw (ThrowApiError
       {| err_message := "API not configured. Set VITE_API_BASE_URL environment variable.";
          err_status := 0;
          err_code := None |})) /\
  (forall workspaceId file, c = DocumentsUpload workspaceId file ->
     issued (perform num_truthy num_text env backend c) =
     [{| call_url := "/workspaces/" +:+ workspaceId +:+ "/documents";
         call_init := {| init_method := Some POST; init_headers := [];
                         init_body := Some (FormBody file) |} |}]) /\
  (forall workspaceId exportId, c = ExportsDownload workspaceId exportId ->
     issued (perform num_truthy num_text env backend c) =
     [{| call_url := "/workspaces/" +:+ workspaceId +:+ "/exports/" +:+ exportId +:+ "/download";
         call_init := no_options |}]).
Proof.
  intros Hbase. split; [|split].
  - intros Huses. destruct c; simpl in *; try discriminate; unfold_api;
      rewrite request_unconfigured by assumption; simpl; auto.
  - intros w f ->. simpl. unfold documentsApi_upload. simpl. rewrite Hbase. reflexivity.
  - intros w e ->. simpl. unfold exportsApi_download. simpl. rewrite Hbase. reflexivity.
Qed.

(** What [request] resolves with, response in hand. *)
Lemma request_settled base backend endpoint options call r :
  call ∈ issued (request num_truthy num_text base backend endpoint options) ->
  backend call = Responds r ->
  settled (request num_truthy num_text base backend endpoint options) =
  if says_json r then
    match json r with
    | None => Throw ThrowSyntaxError
    | Some data =>
        if ok r then Ok data
        else bind (js_get (Some data) "message") (fun message =>
             bind (js_get (Some data) "code") (fun code =>
             bind (ToString num_text (or_else num_truthy message "An error occurred"))
                  (fun text =>
             Throw (ThrowApiError {| err_message := text;
                                     err_status := status r;
                                     err_code := code |}))))
    end
  else Throw (ThrowApiError
         {| err_message := "API returned non-JSON response. Check VITE_API_BASE_URL configuration.";
            err_status := status r;
            err_code := None |}).
Proof.
  unfold request, says_json, json_of.
  destruct (String.eqb (API_BASE_URL base) ""); simpl; intros Hin Hb.
  - inversion Hin.
  - apply list_elem_of_singleton in Hin. subst call. rewrite Hb.
    destruct (match content_type r with Some ct => includes "application/json" ct | None => false end);
      simpl; [|reflexivity].
    destruct (json r); simpl; [|reflexivity].
    destruct (ok r); reflexivity.
Qed.

(** An operation that goes through [request] is one call of it. *)
Lemma perform_is_request base backend c :
  uses_request c = true ->
  exists endpoint options,
    perform num_truthy num_text base backend c =
    resolve_with RJson (request num_truthy num_text base backend endpoint options).
Proof. intros Huses. destruct c; simpl in *; try discriminate; unfold_api; eauto. Qed.

Lemma bind_never_ok {A} (m1 m2 : Result (option (JsValue Num)))
  (m3 : _ -> _ -> Result string) (e : _ -> _ -> _ -> Exn) (v : A) :
  @bind Num _ A m1 (fun a => @bind Num _ A m2 (fun b =>
    @bind Num _ A (m3 a b) (fun t => Throw (e a b t)))) <> Ok v.
Proof.
  destruct m1 as [a|]; simpl; [destruct m2 as [b|]; simpl; [destruct (m3 a b); simpl|]|];
    discriminate.
Qed.

(** C9, as amended.  For an operation that goes through [request] and
    got a response: a content type that does not include
    [application/json] makes it throw an [ApiError] with the response's
    status, whatever that status is; and it resolves with a value exactly
    when the response is OK, says it carries JSON, and its body parses,
    the value then being the parsed body. *)
Theorem request_resolves_iff_ok_json_and_parsed base backend c call r :
  uses_request c = true ->
  call ∈ issued (perform num_truthy num_text base backend c) ->
  backend call = Responds r ->
  (says_json r = false ->
     settled (perform num_truthy num_text base backend c) =
     Throw (ThrowApiError
       {| err_message := "API returned non-JSON response. Check VITE_API_BASE_URL configuration.";
          err_status := status r;
          err_code := None |})) /\
  (forall v, settled (perform num_truthy num_text base backend c) = Ok v <->
             ok r = true /\ says_json r = true /\ exists data, json r = Some data /\ v = RJson data).
Proof.
  intros Huses Hin Hb.
  destruct (perform_is_request base backend c Huses) as (endpoint & options & Hs).
  rewrite Hs in *. simpl in Hin |- *.
  rewrite (request_settled _ _ _ _ _ _ Hin Hb).
  split.
  - intros ->. reflexivity.
  - intros v. destruct (says_json r); simpl.
    + destruct (json r) as [data|]; simpl.
      * destruct (ok r); simpl.
        -- split.
           ++ intros [= <-]. eauto.
           ++ intros (_ & _ & d & [= <-] & ->). reflexivity.
        -- split; [|intros (? & _); discriminate].
           intros H. exfalso.
           destruct (bind _ _) eqn:E in H; [|discriminate].
           eapply bind_never_ok. exact E.
      * split; [discriminate|]. intros (_ & _ & d & ? & _). discriminate.
    + split; [discriminate|]. intros (_ & ? & _). discriminate.
Qed.

(** ** The query hooks *)

Local Abbreviation options_of := (query_options (Num:=Num)).

Lemma pipeline_status_fetched (r : ApiResponse (Pipeline Num)) :
  pipeline_status (fetched r) = Ok (Some (JString (pipeline_state (data r)))).
Proof. reflexivity. Qed.

Lemma refetchInterval_cases (query : Query Num) :
  usePipeline_refetchInterval query =
  match state_data query with
  | None | Some JNull => Ok NoRefetch
  | Some d =>
      match own_member d "data" with
      | None | Some JNull => Throw ThrowTypeError
      | Some inner =>
          Ok (if is_string (own_member inner "status") "running" then Every 5000 else NoRefetch)
      end
  end.
Proof.
  unfold usePipeline_refetchInterval, pipeline_status.
  destruct (state_data query) as [[| | | | |members]|]; try reflexivity.
  cbn [js_get bind own_member].
  destruct (assoc "data" members) as [[| | | | |inner]|]; reflexivity.
Qed.

(** C2, as amended.  The pipeline query's [refetchInterval] answers 5000
    when the status last fetched is [running] and [false] for every other
    status, and also [false] while nothing has been fetched.  It does not
    answer on every state: it throws a [TypeError], and nothing else,
    exactly when what was fetched is there and not [null] and has no [data]
    member, or a [data] that is [null].  It answers 5000 exactly when what
    was fetched has a [data] whose [status] is the string [running], and
    any other answer is [false].  It is the function [usePipeline]
    installs, for every workspace. *)
Theorem refetch_interval_follows_running_status :
  (forall r : ApiResponse (Pipeline Num),
     pipeline_state (data r) = "running" ->
     usePipeline_refetchInterval (fetched r) = Ok (Every 5000)) /\
  (forall r : ApiResponse (Pipeline Num),
     pipeline_state (data r) <> "running" ->
     usePipeline_refetchInterval (fetched r) = Ok NoRefetch) /\
  usePipeline_refetchInterval (Num:=Num) nothing_fetched = Ok NoRefetch /\
  (forall query : Query Num,
     usePipeline_refetchInterval query = Throw ThrowTypeError <->
     exists d, state_data query = Some d /\ d <> JNull /\
               (own_member d "data" = None \/ own_member d "data" = Some JNull)) /\
  (forall (query : Query Num) (e : Exn),
     usePipeline_refetchInterval query = Throw e -> e = ThrowTypeError) /\
  (forall query : Query Num,
     usePipeline_refetchInterval query = Ok (Every 5000) <->
     exists d inner, state_data query = Some d /\ own_member d "data" = Some inner /\
                     own_member inner "status" = Some (JString "running")) /\
  (forall (query : Query Num) (answer : Interval),
     usePipeline_refetchInterval query = Ok answer ->
     (answer = Every 5000 <-> pipeline_status query = Ok (Some (JString "running"))) /\
     (answer = Every 5000 \/ answer = NoRefetch)) /\
  (forall workspaceId,
     refetchInterval (usePipeline workspaceId) = Some (usePipeline_refetchInterval (Num:=Num))).
Proof.
  split; [|split; [|split; [|split; [|split; [|split; [|split]]]]]].
  - intros r Hr. unfold usePipeline_refetchInterval.
    rewrite pipeline_status_fetched. simpl. rewrite Hr. reflexivity.
  - intros r Hr. unfold usePipeline_refetchInterval.
    rewrite pipeline_status_fetched. simpl.
    destruct (String.eqb_spec (pipeline_state (data r)) "running"); [contradiction | reflexivity].
  - reflexivity.
  - intros query. rewrite refetchInterval_cases. split.
    + destruct (state_data query) as [d|]; [|discriminate].
      intros H. exists d. split; [reflexivity|].
      destruct d; try discriminate;
        (split; [discriminate|]); cbn [own_member] in *; auto.
      destruct (assoc "data" members) as [[]|]; try discriminate; auto.
    + intros (d & -> & Hd & [H|H]); rewrite H; destruct d; congruence.
  - intros query e. rewrite refetchInterval_cases.
    destruct (state_data query) as [d|]; [|discriminate].
    destruct d; try discriminate;
      destruct (own_member _ "data") as [[]|]; try discriminate; congruence.
  - intros query. rewrite refetchInterval_cases. split.
    + destruct (state_data query) as [d|]; [|discriminate].
      destruct d; try discriminate;
        destruct (own_member _ "data") as [inner|] eqn:Ed; try discriminate;
        (destruct inner; try discriminate);
        (destruct (own_member _ "status") as [[| | |st| |]|] eqn:Es; try discriminate);
        cbn [is_string];
        (destruct (String.eqb_spec st "running") as [->|]; [|discriminate]);
        intros _; eexists _, _; eauto.
    + intros (d & inner & -> & Hd & Hs). rewrite Hd, Hs.
      destruct d; try discriminate; destruct inner; try discriminate; reflexivity.
  - intros query answer. unfold usePipeline_refetchInterval.
    destruct (pipeline_status query) as [st|e]; simpl; [|discriminate].
    intros [= <-]. split; [|destruct (is_string st "running"); auto].
    destruct st as [[| | |s| |]|]; simpl; try (split; intros; discriminate).
    destruct (String.eqb_spec s "running") as [->|Hne]; split; intros H;
      try reflexivity; try discriminate.
    injection H as H. contradiction.
  - reflexivity.
Qed.

Lemma nonempty_false (s : string) : nonempty s = false <-> s = "".
Proof.
  unfold nonempty. destruct (String.eqb_spec s ""); simpl; split; intros; congruence.
Qed.

Lemma forallb_nonempty_false (ids : list string) :
  forallb nonempty ids = false <-> "" ∈ ids.
Proof.
  induction ids as [|id ids IH]; simpl.
  - split; [discriminate | intros H; inversion H].
  - rewrite andb_false_iff, nonempty_false, IH, elem_of_cons.
    split; intros [H|H]; auto.
Qed.

(** C10.  Each query hook that takes ids is enabled exactly when all of
    them are non-empty: the query stays idle exactly when one of its ids is
    the empty string, and then it issues no [fetch]. *)
Theorem queries_with_an_empty_id_issue_nothing (h : QueryHook) :
  (h <> UseWorkspaces ->
     enabled (options_of h) = Some (forallb nonempty (hook_ids h))) /\
  (forall client base backends,
     observe num_truthy num_text client base backends (options_of h) = None <-> "" ∈ hook_ids h) /\
  (forall client base backends,
     "" ∈ hook_ids h ->
     observed_calls num_truthy num_text client base backends (options_of h) = []).
Proof.
  assert (He : default true (enabled (options_of h)) = forallb nonempty (hook_ids h)).
  { destruct h; simpl; rewrite ?andb_true_r; reflexivity. }
  assert (Hobs : forall client base backends,
             observe num_truthy num_text client base backends (options_of h) = None <->
             "" ∈ hook_ids h).
  { intros client base backends. rewrite <- forallb_nonempty_false, <- He.
    unfold observe. destruct (default true (enabled (options_of h)));
      split; intros; congruence. }
  split; [|split].
  - intros Hh. destruct h; simpl; try reflexivity; try (now destruct Hh);
      rewrite ?andb_true_r; reflexivity.
  - exact Hobs.
  - intros client base backends Hin. unfold observed_calls.
    apply (Hobs client base backends) in Hin. rewrite Hin. reflexivity.
Qed.

(** ** Retries *)

Lemma attempt_at_most base backends fn retries n :
  (fst (attempt num_truthy num_text base backends fn retries n) <= S retries)%nat.
Proof.
  revert n. induction retries as [|r IH]; intros n; simpl.
  - destruct (settled _); simpl; lia.
  - destruct (settled _); simpl; [lia|].
    specialize (IH (S n)). destruct (attempt _ _ _ _ _ _) as [count o']. simpl in *. lia.
Qed.

(** C6.  No query hook sets a retry count of its own, so the client's
    default of 1 is in force for every query: a fetch calls the query
    function at most twice; when the first call fails it is called exactly
    once more and the query settles as that second call did; when the
    first call succeeds it is not called again. *)
Theorem queries_retry_once (h : QueryHook) base backends :
  retry (options_of h) = None /\
  resolved_retry queryClient (options_of h) = 1%nat /\
  (fst (fetch_query num_truthy num_text queryClient base backends (options_of h)) <= 2)%nat /\
  (forall e,
     settled (perform num_truthy num_text base (backends 0%nat) (queryFn (options_of h))) = Throw e ->
     fst (fetch_query num_truthy num_text queryClient base backends (options_of h)) = 2%nat /\
     settled (snd (fetch_query num_truthy num_text queryClient base backends (options_of h))) =
     settled (perform num_truthy num_text base (backends 1%nat) (queryFn (options_of h))) /\
     issued (snd (fetch_query num_truthy num_text queryClient base backends (options_of h))) =
     issued (perform num_truthy num_text base (backends 0%nat) (queryFn (options_of h))) ++
     issued (perform num_truthy num_text base (backends 1%nat) (queryFn (options_of h)))) /\
  (forall v,
     settled (perform num_truthy num_text base (backends 0%nat) (queryFn (options_of h))) = Ok v ->
     fetch_query num_truthy num_text queryClient base backends (options_of h) =
     (1%nat, perform num_truthy num_text base (backends 0%nat) (queryFn (options_of h)))).
Proof.
  assert (Hr : retry (options_of h) = None) by (destruct h; reflexivity).
  assert (Hd : resolved_retry queryClient (options_of h) = 1%nat).
  { unfold resolved_retry. rewrite Hr. reflexivity. }
  split; [exact Hr|]. split; [exact Hd|].
  unfold fetch_query. rewrite Hd. split; [apply attempt_at_most|]. split.
  - intros e He. simpl. rewrite He.
    destruct (settled (perform num_truthy num_text base (backends 1%nat) _)) eqn:E1; simpl; rewrite ?E1; auto.
  - intros v Hv. simpl. rewrite Hv. reflexivity.
Qed.

(** ** Mutations and the cache *)

Lemma lookup_invalidateQueries (filter k : QueryKey) (cache : gmap QueryKey (CacheEntry Num)) :
  invalidateQueries filter cache !! k =
  (fun e => if partialMatchKey k filter then invalidate e else e) <$> (cache !! k).
Proof.
  unfold invalidateQueries. rewrite map_lookup_imap.
  destruct (cache !! k); reflexivity.
Qed.

Lemma partialMatchKey_shorter (k f g : QueryKey) :
  partialMatchKey k (f ++ g) = true -> partialMatchKey k f = true.
Proof.
  revert k. induction f as [|a f IH]; intros k H; [destruct k; reflexivity|].
  destruct k as [|b k]; simpl in *; [discriminate|].
  apply andb_true_iff in H as [-> H]. simpl. eauto.
Qed.

(** One or two invalidations leave an entry alone or mark it, and mark it
    only under one of the filters. *)
Lemma invalidated_once (f k : QueryKey) (cache : gmap QueryKey (CacheEntry Num)) :
  invalidateQueries f cache !! k = cache !! k \/
  (partialMatchKey k f = true /\
   exists e, cache !! k = Some e /\ invalidateQueries f cache !! k = Some (invalidate e)).
Proof.
  rewrite lookup_invalidateQueries.
  destruct (cache !! k) as [e|]; simpl; [|auto].
  destruct (partialMatchKey k f); eauto.
Qed.

Lemma invalidated_twice (f g k : QueryKey) (cache : gmap QueryKey (CacheEntry Num)) :
  invalidateQueries g (invalidateQueries f cache) !! k = cache !! k \/
  (partialMatchKey k f || partialMatchKey k g = true /\
   exists e, cache !! k = Some e /\
             invalidateQueries g (invalidateQueries f cache) !! k = Some (invalidate e)).
Proof.
  rewrite !lookup_invalidateQueries.
  destruct (cache !! k) as [e|]; simpl; [|auto].
  destruct (partialMatchKey k f), (partialMatchKey k g); simpl; eauto.
Qed.

(** Invalidations one after the other mark an entry when one of the
    filters is the front of its key, and leave it alone when none is. *)
Lemma lookup_invalidations (filters : list QueryKey) (k : QueryKey) :
  forall cache : gmap QueryKey (CacheEntry Num),
    foldl apply_effect cache (map InvalidateQueries filters) !! k =
    (fun e => if existsb (partialMatchKey k) filters then invalidate e else e) <$> (cache !! k).
Proof.
  induction filters as [|f filters IH]; intros cache.
  - simpl. destruct (cache !! k); reflexivity.
  - cbn [map foldl apply_effect existsb]. rewrite IH, lookup_invalidateQueries.
    destruct (cache !! k) as [e|]; [|reflexivity]. cbn.
    destruct (partialMatchKey k f), (existsb (partialMatchKey k) filters); reflexivity.
Qed.

(** What a successful mutation leaves in the cache. *)
Lemma mutated_lookup (m : Mutation) (resolved : Resolved (Num:=Num)) (k : QueryKey)
  (cache : gmap QueryKey (CacheEntry Num)) :
  foldl apply_effect cache (mutation_onSuccess m resolved) !! k =
  (fun e => if marks m k then invalidate e else e) <$> (cache !! k).
Proof.
  destruct m;
    try (match goal with
         | |- context [mutation_onSuccess ?m _] =>
             let effects := eval cbn in (mutation_onSuccess m resolved) in
             match effects with
             | [InvalidateQueries ?f] =>
                 change (mutation_onSuccess m resolved) with (map (InvalidateQueries (Num:=Num)) [f])
             | [InvalidateQueries ?f; InvalidateQueries ?g] =>
                 change (mutation_onSuccess m resolved)
                   with (map (InvalidateQueries (Num:=Num)) [f; g])
             end
         end;
         rewrite lookup_invalidations; cbn [existsb marks resource_key workspace_of resource_of];
         rewrite ?orb_false_r).
  - reflexivity.
  - destruct (partialMatchKey k ["workspaces"; id]) eqn:E; [|rewrite orb_false_r; reflexivity].
    apply (partialMatchKey_shorter k ["workspaces"] [id]) in E. rewrite E. reflexivity.
  - reflexivity.
  - reflexivity.
  - reflexivity.
  - reflexivity.
  - destruct (partialMatchKey k ["interviews"; workspaceId; interviewId]) eqn:E;
      [|reflexivity].
    apply (partialMatchKey_shorter k ["interviews"; workspaceId] [interviewId]) in E.
    rewrite E. reflexivity.
  - reflexivity.
  - destruct resolved; cbn; destruct (cache !! k); reflexivity.
  - reflexivity.
  - reflexivity.
Qed.

(** A mutation writes no entry, touches only entries it owns, and does
    nothing when it fails. *)
Lemma mutate_frame (base : option string) (backend : Backend (Num:=Num)) (m : Mutation)
  (cache : gmap QueryKey (CacheEntry Num)) :
  let after := mutate num_truthy num_text base backend m cache in
  (forall key d, SetQueryData key d ∉ after.1.2) /\
  (forall k,
     after.2 !! k = cache !! k \/
     (owned m k = true /\
      exists e, cache !! k = Some e /\ after.2 !! k = Some (invalidate e))) /\
  (forall e, settled after.1.1 = Throw e -> after.1.2 = [] /\ after.2 = cache).
Proof.
  unfold mutate.
  destruct (settled (perform num_truthy num_text base backend (mutation_call m))) as [resolved|e] eqn:E;
    simpl.
  - split; [|split].
    + intros key d Hin. destruct m; simpl in Hin;
        try destruct resolved; simpl in Hin;
        repeat (apply elem_of_cons in Hin as [Hin|Hin]; [discriminate|]);
        inversion Hin.
    + intros k. unfold owned.
      destruct m; simpl;
        try (destruct (invalidated_once ["workspaces"] k cache) as [H|(H & e & He & He')];
             [left; exact H | right; split; [exact H | eauto]]).
      * (* update workspace *)
        destruct (invalidated_twice ["workspaces"] ["workspaces"; id] k cache)
          as [H|(H & e & He & He')]; [auto|]. right. split; [|eauto].
        apply orb_true_iff in H as [H|H]; [exact H|].
        apply (partialMatchKey_shorter k ["workspaces"] [id]). exact H.
      * destruct (invalidated_twice ["documents"; workspaceId] ["workspaces"; workspaceId] k cache)
          as [H|(H & e & He & He')]; [auto|]. right. split; [exact H|eauto].
      * destruct (invalidated_twice ["documents"; workspaceId] ["workspaces"; workspaceId] k cache)
          as [H|(H & e & He & He')]; [auto|]. right. split; [exact H|eauto].
      * destruct (invalidated_twice ["interviews"; ci_workspaceId data0]
                    ["workspaces"; ci_workspaceId data0] k cache)
          as [H|(H & e & He & He')]; [auto|]. right. split; [exact H|eauto].
      * destruct (invalidated_twice ["interviews"; workspaceId; interviewId]
                    ["interviews"; workspaceId] k cache)
          as [H|(H & e & He & He')]; [auto|]. right. split; [|eauto].
        apply orb_true_iff. left.
        apply orb_true_iff in H as [H|H]; [|exact H].
        apply (partialMatchKey_shorter k ["interviews"; workspaceId] [interviewId]). exact H.
      * destruct (invalidated_once ["exports"; er_workspaceId data0] k cache)
          as [H|(H & e & He & He')]; [auto|]. right. split; [|eauto].
        apply orb_true_iff. auto.
      * left. destruct resolved; reflexivity.
      * destruct (invalidated_once ["pipeline"; workspaceId] k cache)
          as [H|(H & e & He & He')]; [auto|]. right. split; [|eauto].
        apply orb_true_iff. auto.
      * destruct (invalidated_once ["pipeline"; workspaceId] k cache)
          as [H|(H & e & He & He')]; [auto|]. right. split; [|eauto].
        apply orb_true_iff. auto.
    + intros e He. congruence.
  - split; [|split].
    + intros key d Hin. inversion Hin.
    + auto.
    + auto.
Qed.

(** C7.  Whatever a mutation hook does to the query cache, it does on
    success and by invalidation only: no effect writes an entry; every
    entry of the cache afterwards is the entry before, either untouched or
    marked invalidated with its data kept, and it is marked only if its key
    belongs to the mutated resource or to that resource's workspace; when
    the mutation fails there is no effect and the cache is the same.  When
    it succeeds, the entries it marks are exactly those of [marks]: every
    entry under the key of the mutated resource, and, for an upload, the
    deletion of a document and the creation of an interview, every entry of
    the workspace; a download marks none.  A marked entry is invalidated
    and has the data it had. *)
Theorem mutations_only_invalidate_their_own_keys
  (base : option string) (backend : Backend (Num:=Num)) (m : Mutation)
  (cache : gmap QueryKey (CacheEntry Num)) :
  let after := mutate num_truthy num_text base backend m cache in
  (forall key d, SetQueryData key d ∉ after.1.2) /\
  (forall k,
     after.2 !! k = cache !! k \/
     (owned m k = true /\
      exists e, cache !! k = Some e /\ after.2 !! k = Some (invalidate e))) /\
  (forall e, settled after.1.1 = Throw e -> after.1.2 = [] /\ after.2 = cache) /\
  (forall r k,
     settled after.1.1 = Ok r ->
     after.2 !! k = (fun e => if marks m k then invalidate e else e) <$> (cache !! k)) /\
  (forall k,
     (forall w e, m <> DownloadExport w e) ->
     partialMatchKey k (resource_key m) = true -> marks m k = true) /\
  (forall k, marks m k = true -> owned m k = true) /\
  (forall e : CacheEntry Num,
     isInvalidated (invalidate e) = true /\ entry_data (invalidate e) = entry_data e).
Proof.
  cbv zeta. destruct (mutate_frame base backend m cache) as (Hnone & Hframe & Hfail).
  split; [exact Hnone|]. split; [exact Hframe|]. split; [exact Hfail|].
  split; [|split; [|split]].
  - intros r k. unfold mutate.
    destruct (settled (perform num_truthy num_text base backend (mutation_call m)))
      as [resolved|e] eqn:E; cbn [fst snd]; rewrite E; [|discriminate].
    intros _. apply mutated_lookup.
  - intros k Hm Hk. destruct m; cbn [marks]; rewrite ?Hk; try reflexivity.
    exfalso. exact (Hm _ _ eq_refl).
  - intros k. unfold owned, marks, resource_key.
    destruct m; cbn [workspace_of resource_of]; intros H; rewrite ?H; auto using orb_true_r;
      discriminate.
  - intros e. split; reflexivity.
Qed.

(** ** The endpoints the client calls *)

Lemma request_call base backend endpoint options call :
  call ∈ issued (request num_truthy num_text base backend endpoint options) ->
  call_url call = API_BASE_URL base +:+ endpoint /\
  method_of call = default GET (init_method options).
Proof.
  rewrite request_issued. destruct (String.eqb (API_BASE_URL base) ""); intros Hin.
  - inversion Hin.
  - apply list_elem_of_singleton in Hin. subst call. split; reflexivity.
Qed.

(** Every [fetch] the client issues goes to the base URL followed by a
    path of the specification's list, with a method the list gives for it,
    the workspace's id being one segment of a path; and the three pipeline
    operations go to GET [/workspaces/{id}/pipeline], POST
    [/workspaces/{id}/pipeline/start] and POST
    [/workspaces/{id}/pipeline/cancel]. *)
Lemma client_calls_are_listed base backend c call :
  call ∈ issued (perform num_truthy num_text base backend c) ->
  (forall w, call_workspace c = Some w -> segment w = true) ->
  exists p,
    call_url call = API_BASE_URL base +:+ p /\
    listed spec_endpoints (method_of call) p = true /\
    (is_pipeline_operation c = true ->
     listed pipeline_endpoints (method_of call) p = true).
Proof.
  intros Hin Hseg.
  destruct c; simpl in Hin; simpl in Hseg; try specialize (Hseg _ eq_refl); unfold_api;
    try (apply request_call in Hin as [Hu Hm]; simpl in Hm;
         eexists; split; [exact Hu|]; rewrite Hm; split;
         [solve_listed | try discriminate; intros _; solve_listed]).
  - unfold documentsApi_upload in Hin. simpl in Hin.
    apply list_elem_of_singleton in Hin. subst call.
    eexists; split; [reflexivity|]. split; [|discriminate].
    change (method_of _) with POST. solve_listed.
  - unfold exportsApi_download in Hin. simpl in Hin.
    apply list_elem_of_singleton in Hin. subst call.
    eexists; split; [reflexivity|]. split; [|discriminate].
    change (method_of _) with GET. solve_listed.
Qed.

(** Whatever the ids are, the path begins with [/workspaces]. *)
Lemma client_calls_go_under_workspaces base backend c call :
  call ∈ issued (perform num_truthy num_text base backend c) ->
  exists rest, call_url call = API_BASE_URL base +:+ "/workspaces" +:+ rest.
Proof.
  intros Hin.
  destruct c; simpl in Hin; unfold_api;
    try (apply request_call in Hin as [Hu _]; rewrite Hu;
         first [exists ""; reflexivity | eexists; f_equal;
                change ("/workspaces/" +:+ ?x) with ("/workspaces" +:+ ("/" +:+ x));
                reflexivity]).
  - unfold documentsApi_upload in Hin. simpl in Hin.
    apply list_elem_of_singleton in Hin. subst call. eexists. cbn [call_url].
    change ("/workspaces/" +:+ ?x) with ("/workspaces" +:+ ("/" +:+ x)). reflexivity.
  - unfold exportsApi_download in Hin. simpl in Hin.
    apply list_elem_of_singleton in Hin. subst call. eexists. cbn [call_url].
    change ("/workspaces/" +:+ ?x) with ("/workspaces" +:+ ("/" +:+ x)). reflexivity.
Qed.

End Facts.

(** ** The smoke-test script *)

Section ScriptFacts.

Context {Num : Type}.
Variable ps_gt_zero : JsValue Num -> bool.
Variable ps_truthy : JsValue Num -> bool.
Variable ps_text : JsValue Num -> string.
Variable ApiBase : string.
Variable TimeoutSeconds : Z.
Variable PollSeconds : Z.
Variable world : World Num.

Local Abbreviation loop := (poll ApiBase TimeoutSeconds PollSeconds world).
Local Abbreviation script :=
  (smoke_test ps_gt_zero ps_truthy ps_text ApiBase TimeoutSeconds PollSeconds world).
Local Abbreviation starts := (round_start PollSeconds world).
Local Abbreviation continues := (round_continues TimeoutSeconds PollSeconds world).
Local Abbreviation ends := (round_ends TimeoutSeconds PollSeconds world).
Local Abbreviation limit := (TimeoutSeconds * ticks_per_second).

(** One round of the loop. *)
Lemma poll_round (wid : string) (fuel n : nat) (elapsed : Z) (log : list WebCall) :
  loop (S fuel) wid n elapsed log =
  match runStatus (statuses world n) with
  | None => Some (log ++ [call_status ApiBase wid],
                  LoopRaised (RequestFailed (web_uri (call_status ApiBase wid))))
  | Some st =>
      if ps_in st terminal_statuses
      then Some (log ++ [call_status ApiBase wid], Broke st)
      else if elapsed + Z.pos (round_ticks (statuses world n)) >? limit
      then Some (log ++ [call_status ApiBase wid], LoopRaised (TimeoutWaiting TimeoutSeconds))
      else if sleep_accepts PollSeconds
      then loop fuel wid (S n)
             (elapsed + Z.pos (round_ticks (statuses world n)) + PollSeconds * ticks_per_second
              + Z.of_N (overslept (statuses world n)))
             (log ++ [call_status ApiBase wid])
      else Some (log ++ [call_status ApiBase wid], LoopRaised SleepOutOfRange)
  end.
Proof. reflexivity. Qed.

(** *** The loop ends *)

(** Every round that goes on moves the clock by a tick at least, so the
    rounds left are bounded by the ticks left. *)
Lemma poll_terminates (wid : string) (fuel : nat) :
  forall (n : nat) (elapsed : Z) (log : list WebCall),
    (Z.to_nat (limit - elapsed) < fuel)%nat ->
    is_Some (loop fuel wid n elapsed log).
Proof.
  induction fuel as [|fuel IH]; intros n elapsed log Hfuel; [lia|].
  rewrite poll_round. destruct (runStatus (statuses world n)) as [st|]; [|eauto].
  destruct (ps_in st terminal_statuses); [eauto|].
  destruct (Z.gtb_spec (elapsed + Z.pos (round_ticks (statuses world n))) limit) as [Hlate|Hin];
    [eauto|].
  destruct (sleep_accepts PollSeconds) eqn:Hsleep; [|eauto].
  apply IH. unfold sleep_accepts in Hsleep.
  apply andb_true_iff in Hsleep as [Hlo _]. apply Z.leb_le in Hlo.
  unfold ticks_per_second in *. lia.
Qed.

Lemma poll_more_fuel (wid : string) (fuel : nat) :
  forall n elapsed log out,
    loop fuel wid n elapsed log = Some out ->
    loop (S fuel) wid n elapsed log = Some out.
Proof.
  induction fuel as [|fuel IH]; intros n elapsed log out H; [discriminate|].
  rewrite poll_round in H. rewrite poll_round.
  destruct (runStatus (statuses world n)) as [st|]; [|exact H].
  destruct (ps_in st terminal_statuses); [exact H|].
  destruct (_ >? _); [exact H|].
  destruct (sleep_accepts PollSeconds); [|exact H].
  apply IH. exact H.
Qed.

(** *** What the loop did when it ended *)

Lemma poll_runs (wid : string) (fuel : nat) :
  forall n log log' e,
    loop fuel wid n (starts n) log = Some (log', e) ->
    exists k, (n <= k)%nat /\
              log' = log ++ replicate (S k - n) (call_status ApiBase wid) /\
              (forall j, (n <= j < k)%nat -> continues j) /\
              ends k e.
Proof.
  induction fuel as [|fuel IH]; intros n log log' e H; [discriminate|].
  rewrite poll_round in H.
  destruct (runStatus (statuses world n)) as [st|] eqn:Est.
  - destruct (ps_in st terminal_statuses) eqn:Eterm.
    + injection H as <- <-. exists n. replace (S n - n)%nat with 1%nat by lia.
      repeat split; auto. intros j Hj. lia.
    + destruct (Z.gtb_spec (starts n + Z.pos (round_ticks (statuses world n))) limit)
        as [Hlate|Hin].
      * injection H as <- <-. exists n. replace (S n - n)%nat with 1%nat by lia.
        repeat split; auto; [intros j Hj; lia|].
        exists st. unfold round_clock. repeat split; auto. lia.
      * destruct (sleep_accepts PollSeconds) eqn:Hsleep.
        -- apply (IH (S n)) in H as (k & Hk & Hlog & Hcont & Hend).
           exists k. split; [lia|]. split; [|split; [|exact Hend]].
           ++ rewrite Hlog, <- app_assoc. f_equal.
              replace (S k - n)%nat with (S (S k - S n)) by lia. reflexivity.
           ++ intros j Hj. destruct (decide (j = n)) as [->|Hne].
              ** exists st. unfold round_clock. auto.
              ** apply Hcont. lia.
        -- injection H as <- <-. exists n. replace (S n - n)%nat with 1%nat by lia.
           repeat split; auto; [intros j Hj; lia|].
           exists st. unfold round_clock. auto.
  - injection H as <- <-. exists n. replace (S n - n)%nat with 1%nat by lia.
    repeat split; auto. intros j Hj. lia.
Qed.

(** *** The calls the script adds to its log *)

Lemma adds_ret P {A} (a : A) : adds P (ret a).
Proof. intros log. exists []. rewrite app_nil_r. auto. Qed.

Lemma adds_raise P {A} (e : ScriptError) : adds P (raise (A:=A) e).
Proof. intros log. exists []. rewrite app_nil_r. auto. Qed.

Lemma adds_lift P {A} (r : ScriptResult A) : adds P (lift r).
Proof. intros log. exists []. rewrite app_nil_r. auto. Qed.

Lemma adds_invoke (P : WebCall -> Prop) {A} m uri body (answer : option A) :
  P {| web_method := m; web_uri := uri; web_body := body |} ->
  adds P (invoke m uri body answer).
Proof. intros HP log. eexists. split; [reflexivity|]. auto. Qed.

Lemma adds_and_then P {A B} (m : Script A) (k : A -> Script B) :
  adds P m -> (forall a, adds P (k a)) -> adds P (and_then m k).
Proof.
  intros Hm Hk log. unfold and_then.
  destruct (Hm log) as (more & Hlog & Hmore).
  destruct (m log) as [log1 [a|e]]; simpl in *; subst log1.
  - destruct (Hk a (log ++ more)) as (more' & Hlog' & Hmore').
    exists (more ++ more'). rewrite Hlog', app_assoc. split; [reflexivity|].
    apply Forall_app. auto.
  - exists more. auto.
Qed.

Ltac adds_steps :=
  repeat first
    [ apply adds_ret
    | apply adds_raise
    | apply adds_lift
    | apply adds_and_then; [|intros ?]
    | match goal with
      | |- adds _ (if ?b then _ else _) => destruct b
      end ].

Lemma download_exports_adds (wid : string) (rows : list (JsValue Num)) :
  adds (fun c => exists id, c = call_export_download ApiBase wid id)
       (download_exports ps_text ApiBase world wid rows).
Proof.
  induction rows as [|ex rows IH]; simpl; adds_steps.
  - apply adds_invoke. eexists. reflexivity.
  - exact IH.
Qed.

Lemma download_first_artifact_adds (wid runId : string) (arts : JsValue Num) :
  adds (fun c => exists id, c = call_artifact_download ApiBase wid runId id)
       (download_first_artifact ps_gt_zero ps_truthy ps_text ApiBase world wid runId arts).
Proof.
  unfold download_first_artifact. adds_steps.
  apply adds_invoke. eexists. reflexivity.
Qed.

Lemma weaken_adds (P Q : WebCall -> Prop) {A} (m : Script A) :
  (forall c, P c -> Q c) -> adds P m -> adds Q m.
Proof.
  intros HPQ Hm log. destruct (Hm log) as (more & Hlog & Hmore).
  exists more. split; [exact Hlog|]. eapply Forall_impl; eauto.
Qed.

Lemma targets_calls (wid runId id body : string) :
  segment wid = true -> segment runId = true -> segment id = true ->
  let T := targets ApiBase script_endpoints in
  T (call_probe ApiBase) /\ T (call_create ApiBase body) /\ T (call_run ApiBase wid body) /\
  T (call_status ApiBase wid) /\ T (call_artifacts ApiBase wid runId) /\
  T (call_artifact_download ApiBase wid runId id) /\
  T (call_exports ApiBase wid) /\ T (call_export_download ApiBase wid id).
Proof.
  intros Hwid Hrun Hid. cbv zeta. repeat split; solve_targets.
Qed.

(** The export loop that got to its end asked for every row's download,
    in order, and got it. *)
Lemma download_exports_done (wid : string) (rows : list (JsValue Num)) :
  forall log log',
    download_exports ps_text ApiBase world wid rows log = (log', Done tt) ->
    exists e,
      log' = log ++ e /\
      Forall2 (fun row c => export_download ps_text ApiBase wid row = Some c) rows e /\
      Forall (fun c => download world (web_uri c) = Some tt) e.
Proof.
  induction rows as [|ex rows IH]; intros log log' H.
  - injection H as <-. exists []. rewrite app_nil_r. auto.
  - cbn [download_exports] in H. unfold and_then, lift, invoke in H.
    unfold export_download.
    destruct (ps_member ex "id") as [id|] eqn:Eid; [|discriminate].
    destruct (ps_member ex "kind") as [kind|] eqn:Ekind; [|discriminate].
    fold (call_export_download ApiBase wid (ps_text id)) in H.
    destruct (download world (Join_Url ApiBase _)) as [[]|] eqn:Ed; [|discriminate].
    apply IH in H as (e & -> & Hall & Hok).
    exists (call_export_download ApiBase wid (ps_text id) :: e).
    rewrite <- app_assoc. split; [reflexivity|]. split.
    + constructor; [rewrite Eid, Ekind; reflexivity|exact Hall].
    + constructor; [exact Ed|exact Hok].
Qed.

(** The artifact step that got to its end downloaded the artifact wanted,
    if there is one, and nothing else. *)
Lemma download_first_artifact_done (wid runId : string) (arts : JsValue Num)
  (log log' : list WebCall) :
  download_first_artifact ps_gt_zero ps_truthy ps_text ApiBase world wid runId arts log
  = (log', Done tt) ->
  exists a,
    log' = log ++ a /\
    a = match artifact_wanted ps_gt_zero ps_truthy arts with
        | Some id => [call_artifact_download ApiBase wid runId (ps_text id)]
        | None => []
        end /\
    Forall (fun c => download world (web_uri c) = Some tt) a.
Proof.
  unfold download_first_artifact, artifact_wanted, first_artifact, and_then, lift, ret, invoke.
  destruct (ps_member arts "total") as [total|]; [|discriminate].
  destruct (ps_gt_zero total); cbn [andb].
  - destruct (ps_member arts "items") as [items|]; [|discriminate].
    destruct (ps_index0 items) as [first|]; [|discriminate].
    destruct (ps_member first "id") as [id|]; [|discriminate].
    destruct (ps_truthy id).
    + destruct (ps_member first "name") as [name|]; [|discriminate].
      fold (call_artifact_download ApiBase wid runId (ps_text id)).
      destruct (download world (Join_Url ApiBase _)) as [[]|] eqn:Ed; [|discriminate].
      intros [= <-]. eexists. split; [reflexivity|]. split; [reflexivity|].
      constructor; [exact Ed|constructor].
    + intros [= <-]. exists []. rewrite app_nil_r. auto.
  - intros [= <-]. exists []. rewrite app_nil_r. split; [reflexivity|]. split; [|constructor].
    destruct (ps_member arts "items") as [items|]; [|reflexivity].
    destruct (ps_index0 items) as [first|]; [|reflexivity].
    destruct (ps_member first "id"); reflexivity.
Qed.

(** A run of steps 4 and 5 that gets to its end read [total] from the
    artifact listing and [total] and [items] from the export listing, and
    made its calls in this order: the artifact listing, the download of
    the artifact wanted, the export listing, the download of every export
    row in the listing's order; and every download went through. *)
Lemma list_and_download_done (wid runId : string) (log log' : list WebCall) :
  list_and_download ps_gt_zero ps_truthy ps_text ApiBase world wid runId log = (log', Done tt) ->
  exists a e,
    log' = log ++ [call_artifacts ApiBase wid runId] ++ a ++ [call_exports ApiBase wid] ++ e /\
    Forall (fun c => download world (web_uri c) = Some tt) (a ++ e) /\
    (exists arts total,
       artifacts world = Some arts /\ ps_member arts "total" = Done total /\
       a = match artifact_wanted ps_gt_zero ps_truthy arts with
           | Some id => [call_artifact_download ApiBase wid runId (ps_text id)]
           | None => []
           end) /\
    (exists exps total rows,
       exports world = Some exps /\ ps_member exps "total" = Done total /\
       ps_member exps "items" = Done rows /\
       Forall2 (fun row c => export_download ps_text ApiBase wid row = Some c)
               (ps_enumerate rows) e).
Proof.
  unfold list_and_download. unfold and_then at 1. unfold invoke at 1.
  destruct (artifacts world) as [arts|]; [|discriminate].
  unfold and_then at 1. unfold lift at 1.
  destruct (ps_member arts "total") as [total|] eqn:Eat; [|discriminate].
  unfold and_then at 1.
  fold (call_artifacts ApiBase wid runId).
  destruct (download_first_artifact _ _ _ _ _ _ _ _ _) as [log1 [[]|e1]] eqn:Ea;
    [|discriminate].
  apply download_first_artifact_done in Ea as (a & -> & Ha & Haok).
  unfold and_then at 1. unfold invoke at 1.
  destruct (exports world) as [exps|]; [|discriminate].
  unfold and_then at 1. unfold lift at 1.
  destruct (ps_member exps "total") as [total'|] eqn:Eet; [|discriminate].
  unfold and_then at 1. unfold lift at 1.
  destruct (ps_member exps "items") as [rows|] eqn:Eei; [|discriminate].
  fold (call_exports ApiBase wid).
  intros H. apply download_exports_done in H as (e & -> & He & Heok).
  exists a, e. split; [rewrite <- !app_assoc; reflexivity|].
  split; [apply Forall_app; auto|]. split.
  - exists arts, total. auto.
  - exists exps, total', rows. auto.
Qed.

Lemma create_and_start_done (log : list WebCall) (wid runId : string) :
  create_and_start ApiBase world [] = (log, Done (wid, runId)) ->
  created world = Some wid /\ started world = Some runId /\
  exists body1 body2,
    log = [call_probe ApiBase; call_create ApiBase body1; call_run ApiBase wid body2].
Proof.
  unfold create_and_start, and_then, invoke, ret.
  destruct (openapi world); [|discriminate].
  destruct (created world); [|discriminate].
  destruct (started world); [|discriminate].
  intros [= <- <- <-]. split; [reflexivity|]. split; [reflexivity|]. eexists _, _. reflexivity.
Qed.

Local Abbreviation script_call' := (script_call ApiBase world).

(** The first three steps call the probe, the creation and the start of
    the run, as far as they get. *)
Lemma create_and_start_calls : Forall script_call' (create_and_start ApiBase world []).1.
Proof.
  assert (script_call' (call_probe ApiBase)) as Hprobe by (left; reflexivity).
  assert (forall body, script_call' (call_create ApiBase body)) as Hcreate.
  { intros body. right. left. eauto. }
  assert (forall wid body, created world = Some wid ->
                           script_call' (call_run ApiBase wid body)) as Hrun.
  { intros wid body Ew. right. right. exists wid. split; [exact Ew|]. left. eauto. }
  unfold create_and_start, and_then, invoke, ret.
  destruct (openapi world); cbn; [|repeat first [apply Forall_nil_2|apply Forall_cons_2]; exact Hprobe].
  destruct (created world) as [wid|] eqn:Ew; cbn.
  - specialize (Hrun wid).
    destruct (started world); cbn; repeat first [apply Forall_nil_2|apply Forall_cons_2];
      first [exact Hprobe|apply Hcreate|apply Hrun; reflexivity].
  - repeat first [apply Forall_nil_2|apply Forall_cons_2]; first [exact Hprobe|apply Hcreate].
Qed.

Lemma list_and_download_adds (wid runId : string) :
  created world = Some wid -> started world = Some runId ->
  adds script_call' (list_and_download ps_gt_zero ps_truthy ps_text ApiBase world wid runId).
Proof.
  intros Hw Hr.
  assert (forall c, (exists id, c = call_export_download ApiBase wid id) -> script_call' c) as He.
  { intros c Hc. right. right. exists wid. split; [exact Hw|]. auto. }
  assert (forall c, (exists id, c = call_artifact_download ApiBase wid runId id) ->
                    script_call' c) as Ha.
  { intros c Hc. right. right. exists wid. split; [exact Hw|].
    right. right. right. right. exists runId. auto. }
  unfold list_and_download. apply adds_and_then.
  - apply adds_invoke. right. right. exists wid. split; [exact Hw|].
    right. right. right. right. exists runId. auto.
  - intros arts. apply adds_and_then; [apply adds_lift|]. intros total.
    apply adds_and_then.
    + eapply weaken_adds; [exact Ha|apply download_first_artifact_adds].
    + intros _. apply adds_and_then.
      * apply adds_invoke. right. right. exists wid. split; [exact Hw|]. auto.
      * intros exps. apply adds_and_then; [apply adds_lift|]. intros total'.
        apply adds_and_then; [apply adds_lift|]. intros rows.
        eapply weaken_adds; [exact He|apply download_exports_adds].
Qed.

(** *** The script as a whole *)

Lemma script_unfold (fuel : nat) :
  script fuel =
  match create_and_start ApiBase world [] with
  | (log, Raised e) => Some (log, Raised e)
  | (log, Done (wid, runId)) =>
      match loop fuel wid 0%nat 0 log with
      | None => None
      | Some (log, LoopRaised e) => Some (log, Raised e)
      | Some (log, Broke st) =>
          if negb (ps_eq st "succeeded") then Some (log, Raised (RunEnded st))
          else Some (list_and_download ps_gt_zero ps_truthy ps_text ApiBase world wid runId log)
      end
  end.
Proof. reflexivity. Qed.

Lemma script_terminates : is_Some (script (S (Z.to_nat limit))).
Proof.
  rewrite script_unfold.
  destruct (create_and_start ApiBase world []) as [log [[wid runId]|e]]; [|eauto].
  destruct (poll_terminates wid (S (Z.to_nat limit)) 0%nat 0 log) as [[log' out] Hout].
  { rewrite Z.sub_0_r. lia. }
  rewrite Hout. destruct out as [st|e]; [|eauto].
  destruct (negb (ps_eq st "succeeded")); eauto.
Qed.

Lemma script_more_fuel (fuel : nat) (out : list WebCall * ScriptResult unit) :
  script fuel = Some out -> script (S fuel) = Some out.
Proof.
  rewrite !script_unfold.
  destruct (create_and_start ApiBase world []) as [log [[wid runId]|e]]; [|auto].
  destruct (loop fuel wid 0%nat 0 log) as [o|] eqn:Eloop; [|discriminate].
  rewrite (poll_more_fuel _ _ _ _ _ _ Eloop). auto.
Qed.

(** Every call of the script is one of the script's calls, for the
    workspace and the run the backend named. *)
Lemma script_calls (fuel : nat) (calls : list WebCall) (r : ScriptResult unit) :
  script fuel = Some (calls, r) -> Forall script_call' calls.
Proof.
  rewrite script_unfold.
  pose proof create_and_start_calls as Hstart.
  destruct (create_and_start ApiBase world []) as [log [[wid runId]|e]] eqn:Ecs;
    cbn [fst] in Hstart; [|intros [= <- <-]; exact Hstart].
  apply create_and_start_done in Ecs as (Hw & Hr & _).
  destruct (loop fuel wid 0%nat 0 log) as [[log' out]|] eqn:Eloop; [|discriminate].
  apply (poll_runs wid fuel 0%nat) in Eloop as (k & _ & Hlog' & _ & _).
  assert (Hloop : Forall script_call' log').
  { subst log'. apply Forall_app. split; [exact Hstart|].
    apply Forall_replicate. right. right. exists wid. split; [exact Hw|]. auto. }
  destruct out as [st|e]; [|intros [= <- <-]; exact Hloop].
  destruct (negb (ps_eq st "succeeded")); [intros [= <- <-]; exact Hloop|].
  destruct (list_and_download_adds wid runId Hw Hr log') as (more' & Hl & Hm).
  intros [= H]. rewrite H in Hl. simpl in Hl. subst calls.
  apply Forall_app. auto.
Qed.

(** Each of the script's calls goes to one of [script_endpoints], the ids
    in its path being segments. *)
Lemma script_call_targets (c : WebCall) :
  script_call' c ->
  (forall wid, created world = Some wid -> segment wid = true) ->
  (forall runId, started world = Some runId -> segment runId = true) ->
  (forall wid runId id,
     c = call_export_download ApiBase wid id \/ c = call_artifact_download ApiBase wid runId id ->
     segment id = true) ->
  targets ApiBase script_endpoints c.
Proof.
  intros Hc Hw Hr Hid.
  assert (segment "x" = true) as Hx by reflexivity.
  destruct Hc as [->|[[body ->]|(wid & Ew & Hc)]].
  - apply (targets_calls "x" "x" "x" "" Hx Hx Hx).
  - apply (targets_calls "x" "x" "x" body Hx Hx Hx).
  - specialize (Hw wid Ew).
    destruct Hc as [[body ->]|[->|[->|[[id ->]|(runId & Er & Hc)]]]].
    + apply (targets_calls wid "x" "x" body Hw Hx Hx).
    + apply (targets_calls wid "x" "x" "" Hw Hx Hx).
    + apply (targets_calls wid "x" "x" "" Hw Hx Hx).
    + apply (targets_calls wid "x" id "" Hw Hx). apply (Hid wid "x" id). auto.
    + specialize (Hr runId Er). destruct Hc as [->|[id ->]].
      * apply (targets_calls wid runId "x" "" Hw Hr Hx).
      * apply (targets_calls wid runId id "" Hw Hr). apply (Hid wid runId id). auto.
Qed.

(** C4, as amended.  The script ends, whatever the status replies are,
    and more fuel does not change how; its loop makes one status request per round, goes on only from a round
    whose status is not terminal and whose clock is within the timeout,
    breaks on the first status that is one of [succeeded], [failed],
    [cancelled] without regard to letter case, and throws on the first
    round that is late; after a break it throws unless the status is
    [succeeded], again without regard to letter case; and a run that gets
    to its end made exactly these calls, in this order: the probe, the
    creation of the workspace, the start of the run, the status polls, the
    artifact listing, the download of the first artifact when the listing's
    [total] is above zero and the artifact's [id] is true, the export
    listing, and the download of every export of that listing, in the
    listing's order; and every one of these downloads went through. *)
Theorem smoke_test_polls_to_an_end_and_runs_in_order :
  (exists fuel, is_Some (script fuel)) /\
  (forall fuel out, script fuel = Some out -> script (S fuel) = Some out) /\
  (forall fuel wid log log' e,
     loop fuel wid 0%nat 0 log = Some (log', e) ->
     exists k, log' = log ++ replicate (S k) (call_status ApiBase wid) /\
               (forall j, (j < k)%nat -> continues j) /\
               ends k e) /\
  (forall fuel wid runId log log' st,
     create_and_start ApiBase world [] = (log, Done (wid, runId)) ->
     loop fuel wid 0%nat 0 log = Some (log', Broke st) ->
     script fuel =
     Some (if ps_eq st "succeeded"
           then list_and_download ps_gt_zero ps_truthy ps_text ApiBase world wid runId log'
           else (log', Raised (RunEnded st)))) /\
  (forall fuel calls,
     script fuel = Some (calls, Done tt) ->
     exists wid runId body1 body2 k a e arts exps rows,
       created world = Some wid /\ started world = Some runId /\
       artifacts world = Some arts /\ exports world = Some exps /\
       ps_member exps "items" = Done rows /\
       calls = [call_probe ApiBase; call_create ApiBase body1; call_run ApiBase wid body2]
               ++ replicate (S k) (call_status ApiBase wid)
               ++ [call_artifacts ApiBase wid runId] ++ a
               ++ [call_exports ApiBase wid] ++ e /\
       a = match artifact_wanted ps_gt_zero ps_truthy arts with
           | Some id => [call_artifact_download ApiBase wid runId (ps_text id)]
           | None => []
           end /\
       Forall2 (fun row c => export_download ps_text ApiBase wid row = Some c)
               (ps_enumerate rows) e /\
       Forall (fun c => download world (web_uri c) = Some tt) (a ++ e)).
Proof.
  split; [|split; [|split; [|split]]].
  - eexists. apply script_terminates.
  - apply script_more_fuel.
  - intros fuel wid log log' e H.
    apply (poll_runs wid fuel 0%nat) in H as (k & _ & Hlog & Hcont & Hend).
    exists k. rewrite Nat.sub_0_r in Hlog. split; [exact Hlog|]. split; [|exact Hend].
    intros j Hj. apply Hcont. lia.
  - intros fuel wid runId log log' st Hstart Hloop.
    rewrite script_unfold, Hstart, Hloop.
    destruct (ps_eq st "succeeded"); reflexivity.
  - intros fuel calls. rewrite script_unfold.
    destruct (create_and_start ApiBase world []) as [log [[wid runId]|e]] eqn:Hstart;
      [|discriminate].
    apply create_and_start_done in Hstart as (Hw & Hr & body1 & body2 & ->).
    destruct (loop fuel wid 0%nat 0 _) as [[log' [st|e]]|] eqn:Hloop; try discriminate.
    apply (poll_runs wid fuel 0%nat) in Hloop as (k & _ & Hlog & _ & _).
    rewrite Nat.sub_0_r in Hlog.
    destruct (negb (ps_eq st "succeeded")); [discriminate|].
    intros [= H]. apply list_and_download_done in H as (a & e & Hcalls & Hok & Ha & He).
    destruct Ha as (arts & total & Harts & _ & Ha).
    destruct He as (exps & total' & rows & Hexps & _ & Hrows & He).
    exists wid, runId, body1, body2, k, a, e, arts, exps, rows.
    rewrite Hcalls, Hlog, <- !app_assoc. auto 10.
Qed.

(** The script cannot get to its end on an export listing without an
    [items] member. *)
Lemma script_needs_items (fuel : nat) (calls : list WebCall) (exps : JsValue Num) :
  exports world = Some exps ->
  ps_member exps "items" = Raised (PropertyNotFound "items") ->
  script fuel <> Some (calls, Done tt).
Proof.
  intros Hexps Hitems. rewrite script_unfold.
  destruct (create_and_start ApiBase world []) as [log [[wid runId]|e]]; [|discriminate].
  destruct (loop fuel wid 0%nat 0 log) as [[log' [st|e]]|]; try discriminate.
  destruct (negb (ps_eq st "succeeded")); [discriminate|].
  intros [= H]. apply list_and_download_done in H as (a & e & _ & _ & _ & H).
  destruct H as (exps' & total & rows & Hexps' & _ & Hrows & _). congruence.
Qed.

End ScriptFacts.

(** ** The endpoints, client and scripts together *)


(** ** The envelopes *)

Lemma paginated_members {Num T} (js : T -> JsValue Num) (p : PaginatedResponse T) :
  js_get (Some (js_PaginatedResponse js p)) "data" = Ok (Some (JArray (map js (page_data p)))) /\
  js_get (Some (js_PaginatedResponse js p)) "total" = Ok (Some (JNumber (total p))) /\
  js_get (Some (js_PaginatedResponse js p)) "page" = Ok (Some (JNumber (page p))) /\
  js_get (Some (js_PaginatedResponse js p)) "pageSize" = Ok (Some (JNumber (pageSize p))) /\
  js_get (Some (js_PaginatedResponse js p)) "totalPages" = Ok (Some (JNumber (totalPages p))).
Proof. repeat split; reflexivity. Qed.

Lemma script_reads_of_a_page {Num T} (js : T -> JsValue Num) (p : PaginatedResponse T) :
  ps_member (js_PaginatedResponse js p) "total" = Done (JNumber (total p)) /\
  ps_member (js_PaginatedResponse js p) "items" = Raised (PropertyNotFound "items").
Proof. split; reflexivity. Qed.

(** C5, as amended.  Each list operation is declared to resolve with the
    paginated envelope and every other operation with the envelope
    [{ data, message? }], download apart, which resolves with a blob; a list
    operation resolves with the very envelope the backend sent, whose
    members are [data], [total], [page], [pageSize] and [totalPages].  The
    smoke test reads [total] and [items] from a listing: [total] is a member
    of the paginated envelope, [items] is not, so the script's read of it
    raises and the script does not get to its end on such a listing. *)
Theorem list_operations_pass_pages_on_and_the_script_reads_items :
  (forall c : ApiCall,
     (is_list_operation c = true -> declared_envelope c = PaginatedEnvelope) /\
     (is_list_operation c = false ->
      declared_envelope c = SingleEnvelope \/
      exists workspaceId exportId,
        c = ExportsDownload workspaceId exportId /\ declared_envelope c = BlobResult)) /\
  (forall (Num T : Type) (num_truthy : Num -> bool) (num_text : Num -> string)
          (js : T -> JsValue Num)
          (p : PaginatedResponse T) (base : option string) (backend : Backend)
          (c : ApiCall) (call : FetchCall) (r : Response Num),
     is_list_operation c = true ->
     call ∈ issued (perform num_truthy num_text base backend c) ->
     backend call = Responds r ->
     ok r = true -> says_json r = true -> json r = Some (js_PaginatedResponse js p) ->
     settled (perform num_truthy num_text base backend c) = Ok (RJson (js_PaginatedResponse js p))) /\
  (forall (Num T : Type) (js : T -> JsValue Num) (p : PaginatedResponse T),
     js_get (Some (js_PaginatedResponse js p)) "data" = Ok (Some (JArray (map js (page_data p)))) /\
     js_get (Some (js_PaginatedResponse js p)) "total" = Ok (Some (JNumber (total p))) /\
     js_get (Some (js_PaginatedResponse js p)) "page" = Ok (Some (JNumber (page p))) /\
     js_get (Some (js_PaginatedResponse js p)) "pageSize" = Ok (Some (JNumber (pageSize p))) /\
     js_get (Some (js_PaginatedResponse js p)) "totalPages" = Ok (Some (JNumber (totalPages p))) /\
     ps_member (js_PaginatedResponse js p) "total" = Done (JNumber (total p)) /\
     ps_member (js_PaginatedResponse js p) "items" = Raised (PropertyNotFound "items")) /\
  (forall (Num T : Type) (js : T -> JsValue Num) (p : PaginatedResponse T)
          (ps_gt_zero ps_truthy : JsValue Num -> bool) (ps_text : JsValue Num -> string)
          (ApiBase : string) (TimeoutSeconds PollSeconds : Z) (world : World Num)
          (fuel : nat) (calls : list WebCall),
     exports world = Some (js_PaginatedResponse js p) ->
     smoke_test ps_gt_zero ps_truthy ps_text ApiBase TimeoutSeconds PollSeconds world fuel
     <> Some (calls, Done tt)).
Proof.
  split; [|split; [|split]].
  - intros c. split.
    + destruct c; simpl; intros; congruence.
    + destruct c; simpl; intros; try discriminate; eauto.
  - intros Num T num_truthy num_text js p base backend c call r Hlist Hin Hb Hok Hjson Hbody.
    assert (Huses : uses_request c = true) by (destruct c; simpl in *; congruence).
    destruct (perform_is_request num_truthy num_text base backend c Huses) as (endpoint & options & Hs).
    rewrite Hs in *. simpl in Hin |- *.
    rewrite (request_settled _ _ _ _ _ _ _ _ Hin Hb), Hjson, Hbody, Hok. reflexivity.
  - intros Num T js p.
    destruct (paginated_members js p) as (H1 & H2 & H3 & H4 & H5).
    destruct (script_reads_of_a_page js p) as (H6 & H7). auto 10.
  - intros. eapply script_needs_items; [eassumption|]. apply script_reads_of_a_page.
Qed.

(** * The properties at work *)

(** ** C1 *)

(** A validation failure of [workspacesApi.create] carries the backend's
    message, status and code. *)
Lemma failed_response_throws_ApiError_witness :
  settled (perform z_truthy z_text (Some "/api") (always rejected)
             (WorkspacesCreate {| cw_name := ""; cw_description := None |})) =
  Throw (ThrowApiError {| err_message := "name is required";
                          err_status := 422;
                          err_code := Some (JString "VALIDATION") |}).
Proof.
  destruct (failed_response_throws_ApiError z_truthy z_text (Some "/api") (always rejected)
           (WorkspacesCreate {| cw_name := ""; cw_description := None |})
           {| call_url := "/api/workspaces";
              call_init := {| init_method := Some POST;
                              init_headers := [("Content-Type", "application/json")];
                              init_body := Some (JsonBody (JObject [("name", JString "")])) |} |}
           rejected) as [H _].
  - apply list_elem_of_singleton. reflexivity.
  - reflexivity.
  - reflexivity.
  - reflexivity.
  - exact H.
Defined.

(** A [message] that is a number comes out as its text, one that is an
    array as its items' texts between commas. *)
Example a_message_is_carried_as_its_text :
  settled (perform z_truthy z_text (Some "/api")
             (always {| status := 500; content_type := Some "application/json";
                        json := Some (JObject [("message", JNumber 42)]); blob := "" |})
             WorkspacesList) =
  Throw (ThrowApiError {| err_message := "42"; err_status := 500; err_code := None |}) /\
  settled (perform z_truthy z_text (Some "/api")
             (always {| status := 500; content_type := Some "application/json";
                        json := Some (JObject [("message",
                                                JArray [JString "a"; JNull; JNumber 7])]);
                        blob := "" |})
             WorkspacesList) =
  Throw (ThrowApiError {| err_message := "a,,7"; err_status := 500; err_code := None |}).
Proof. split; vm_compute; reflexivity. Qed.

(** A [message] that is an object with a [toString] member of its own has
    no text: the failed response comes out as a [TypeError]. *)
Example a_message_without_text_is_a_TypeError :
  settled (perform z_truthy z_text (Some "/api") (always textless) WorkspacesList) =
  Throw ThrowTypeError.
Proof. vm_compute. reflexivity. Qed.

(** A failed download whose body has a [message]: the error does not
    carry it. *)
Lemma download_drops_the_server_message :
  ok expired = false /\
  body_member expired "message" = Some (JString "Export expired") /\
  settled (perform z_truthy z_text (Some "/api") (always expired) (ExportsDownload "ws-1" "ex-1")) =
  Throw (ThrowApiError {| err_message := "Download failed";
                          err_status := 404;
                          err_code := None |}).
Proof. repeat split. Qed.

(** A failed response that says it carries JSON and does not parse is
    outside what the theorem above speaks of. *)
Example failed_response_that_does_not_parse :
  settled (perform z_truthy z_text (Some "/api")
             (always {| status := 502; content_type := Some "application/json";
                        json := None; blob := "" |})
             WorkspacesList) =
  Throw ThrowSyntaxError.
Proof. reflexivity. Qed.

(** ** C8 *)

Lemma unconfigured_base_witness :
  issued (perform z_truthy z_text None (always rejected) WorkspacesList) = [] /\
  settled (perform z_truthy z_text None (always rejected) WorkspacesList) =
  Throw (ThrowApiError
    {| err_message := "API not configured. Set VITE_API_BASE_URL environment variable.";
       err_status := 0;
       err_code := None |}).
Proof.
  destruct (unconfigured_base_fails_fast_only_in_request z_truthy z_text None (always rejected)
              WorkspacesList eq_refl) as (H & _ & _).
  apply H. reflexivity.
Defined.

Example upload_goes_out_without_a_base :
  map call_url (issued (perform z_truthy z_text None (always rejected)
                          (DocumentsUpload "ws-1" {| file_name := "a.pdf"; file_bytes := "" |})))
  = ["/workspaces/ws-1/documents"].
Proof. reflexivity. Qed.

(** ** C9 *)

Lemma request_resolves_witness :
  settled (perform z_truthy z_text (Some "/api") (always page_response) WorkspacesList) =
  Ok (RJson empty_page).
Proof.
  destruct (request_resolves_iff_ok_json_and_parsed z_truthy z_text (Some "/api")
              (always page_response) WorkspacesList list_call page_response eq_refl)
    as [_ H].
  - apply list_elem_of_singleton. reflexivity.
  - reflexivity.
  - apply H. repeat split. eexists. split; reflexivity.
Defined.

(** An OK response that says it carries JSON and whose body does not
    parse: no value comes back. *)
Lemma ok_json_response_that_does_not_parse :
  ok truncated = true /\
  says_json truncated = true /\
  settled (perform z_truthy z_text (Some "/api") (always truncated) WorkspacesList) =
  Throw ThrowSyntaxError.
Proof. repeat split. Qed.

(** ** C2 *)

Lemma refetch_interval_witness :
  usePipeline_refetchInterval (fetched running_pipeline) = Ok (Every 5000).
Proof.
  destruct (refetch_interval_follows_running_status (Num:=Z)) as (H & _).
  apply H. reflexivity.
Defined.

(** An OK response of the backend that is an object without [data], or
    one whose [data] is [null]: it becomes the query's data, and the
    function answers neither 5000 nor [false]. *)
Lemma refetch_interval_throws_without_data :
  settled (perform z_truthy z_text (Some "/api")
             (always {| status := 200; content_type := Some "application/json";
                        json := Some (JObject []); blob := "" |})
             (PipelineGet "ws-1")) = Ok (RJson (JObject [])) /\
  usePipeline_refetchInterval (Num:=Z) {| state_data := Some (JObject []) |} =
  Throw ThrowTypeError /\
  usePipeline_refetchInterval (Num:=Z) {| state_data := Some (JObject [("data", JNull)]) |} =
  Throw ThrowTypeError.
Proof. repeat split. Qed.

(** ** C10 *)

Lemma empty_interview_id_witness :
  observed_calls z_truthy z_text queryClient (Some "/api") (fun _ => always page_response)
    (useInterview "ws-1" "") = [].
Proof.
  destruct (queries_with_an_empty_id_issue_nothing z_truthy z_text (UseInterview "ws-1" ""))
    as (_ & _ & H).
  apply H. apply elem_of_cons. right. apply list_elem_of_singleton. reflexivity.
Defined.

Example enabled_query_fetches :
  map call_url (observed_calls z_truthy z_text queryClient (Some "/api") (fun _ => always page_response)
                  (useInterview "ws-1" "iv-1"))
  = ["/api/workspaces/ws-1/interviews/iv-1"].
Proof. reflexivity. Qed.

(** ** C6 *)

(** A backend that fails every attempt: two attempts, no more. *)
Lemma retry_once_witness :
  fst (fetch_query z_truthy z_text queryClient (Some "/api") (fun _ => always rejected)
         (useDocuments "ws-1")) = 2%nat.
Proof.
  destruct (queries_retry_once z_truthy z_text (UseDocuments "ws-1") (Some "/api")
              (fun _ => always rejected)) as (_ & _ & _ & H & _).
  destruct (H (ThrowApiError {| err_message := "name is required";
                                 err_status := 422;
                                 err_code := Some (JString "VALIDATION") |}) eq_refl)
    as (H2 & _).
  exact H2.
Defined.

(** ** C7 *)

(** An upload into workspace ws-1 marks its documents and the workspace,
    and leaves the workspace list and the documents of ws-2 alone. *)
Example upload_invalidates_two_keys :
  let after := (mutate z_truthy z_text (Some "/api") (always page_response)
                  (UploadDocument "ws-1" {| file_name := "a.pdf"; file_bytes := "" |})
                  demo_cache).2 in
  isInvalidated <$> after !! ["documents"; "ws-1"] = Some true /\
  isInvalidated <$> after !! ["workspaces"; "ws-1"] = Some true /\
  isInvalidated <$> after !! ["workspaces"] = Some false /\
  isInvalidated <$> after !! ["documents"; "ws-2"] = Some false.
Proof. vm_compute. auto. Qed.

(** A deletion that fails leaves the cache as it was, and an upload that
    succeeds marks the documents of its workspace. *)
Lemma mutation_frame_witness :
  (mutate z_truthy z_text (Some "/api") (always rejected) (DeleteWorkspace "ws-1") demo_cache).2
  = demo_cache /\
  (mutate z_truthy z_text (Some "/api") (always page_response)
     (UploadDocument "ws-1" {| file_name := "a.pdf"; file_bytes := "" |}) demo_cache).2
    !! ["documents"; "ws-1"]
  = invalidate <$> demo_cache !! ["documents"; "ws-1"].
Proof.
  split.
  - destruct (mutations_only_invalidate_their_own_keys z_truthy z_text (Some "/api")
                (always rejected) (DeleteWorkspace "ws-1") demo_cache) as (_ & _ & H & _).
    destruct (H (ThrowApiError {| err_message := "name is required";
                                   err_status := 422;
                                   err_code := Some (JString "VALIDATION") |}) eq_refl)
      as (_ & H2).
    exact H2.
  - destruct (mutations_only_invalidate_their_own_keys z_truthy z_text (Some "/api")
                (always page_response)
                (UploadDocument "ws-1" {| file_name := "a.pdf"; file_bytes := "" |}) demo_cache)
      as (_ & _ & _ & H & _).
    exact (H (RJson empty_page) ["documents"; "ws-1"] eq_refl).
Defined.

(** ** C3 *)



(** ** C4 *)

(** A status in capitals is none of the three words, yet the loop breaks
    on it and the script goes on to its end. *)
Lemma upper_case_status_ends_the_run_well :
  existsb (String.eqb "SUCCEEDED") terminal_statuses = false /\
  String.eqb "SUCCEEDED" "succeeded" = false /\
  poll "http://127.0.0.1:18083" 60 1 (smoke_world "SUCCEEDED" (listing []) (listing []))
       1 "ws-1" 0 0 [] =
  Some ([call_status "http://127.0.0.1:18083" "ws-1"], Broke "SUCCEEDED") /\
  result_of (smoke_run "SUCCEEDED" (listing []) (listing []) 1) = Some (Done tt).
Proof. vm_compute. repeat split. Qed.

Lemma failed_run_witness :
  smoke_run "Failed" (listing []) (listing []) 1 =
  Some ([call_probe "http://127.0.0.1:18083";
         call_create "http://127.0.0.1:18083"
           ("{" +:+ dq +:+ "name" +:+ dq +:+ ":" +:+ dq +:+ "SmokeDemo" +:+ dq +:+ ","
            +:+ dq +:+ "retention_days" +:+ dq +:+ ":30}");
         call_run "http://127.0.0.1:18083" "ws-1"
           ("{" +:+ dq +:+ "mode" +:+ dq +:+ ":" +:+ dq +:+ "draft" +:+ dq +:+ "}");
         call_status "http://127.0.0.1:18083" "ws-1"],
        Raised (RunEnded "Failed")).
Proof.
  destruct (smoke_test_polls_to_an_end_and_runs_in_order z_gt_zero z_ps_truthy z_ps_text
              "http://127.0.0.1:18083" 60 1 (smoke_world "Failed" (listing []) (listing [])))
    as (_ & _ & _ & H & _).
  exact (H 1%nat "ws-1" "run-1" _ _ "Failed" eq_refl eq_refl).
Defined.

Example a_run_that_never_ends_times_out :
  result_of (smoke_run "running" (listing []) (listing []) 61) = Some (Raised (TimeoutWaiting 60)) /\
  result_of (smoke_run "running" (listing []) (listing []) 60) = None.
Proof. vm_compute. auto. Qed.

Example a_full_run :
  requests_of
    (smoke_run "succeeded"
       (listing [JObject [("id", JString "a1"); ("name", JString "deck.pptx")]])
       (listing [JObject [("id", JNumber 7); ("kind", JString "csv")]]) 1) =
  Some [ (GET, "http://127.0.0.1:18083/openapi.json");
         (POST, "http://127.0.0.1:18083/workspaces");
         (POST, "http://127.0.0.1:18083/workspaces/ws-1/pipeline/run");
         (GET, "http://127.0.0.1:18083/workspaces/ws-1/pipeline/status");
         (GET, "http://127.0.0.1:18083/workspaces/ws-1/runs/run-1/artifacts");
         (GET, "http://127.0.0.1:18083/workspaces/ws-1/runs/run-1/artifacts/a1/download");
         (GET, "http://127.0.0.1:18083/workspaces/ws-1/exports");
         (GET, "http://127.0.0.1:18083/workspaces/ws-1/exports/7/download") ].
Proof. vm_compute. reflexivity. Qed.

(** ** C5 *)

(** On an export listing that is a paginated envelope the script stops at
    its read of [items]. *)
Lemma script_fails_on_a_paginated_listing :
  result_of (smoke_run "succeeded" (listing []) empty_page 1) =
  Some (Raised (PropertyNotFound "items")).
Proof. vm_compute. reflexivity. Qed.

Lemma page_passes_through_witness :
  settled (perform z_truthy z_text (Some "/api") (always page_response) WorkspacesList) =
  Ok (RJson (js_PaginatedResponse (fun _ : unit => JNull)
               {| page_data := []; total := 0; page := 1; pageSize := 20; totalPages := 0 |})).
Proof.
  destruct list_operations_pass_pages_on_and_the_script_reads_items as (_ & H & _).
  apply (H Z unit z_truthy z_text (fun _ => JNull)
           {| page_data := []; total := 0; page := 1; pageSize := 20; totalPages := 0 |}
           (Some "/api") (always page_response) WorkspacesList list_call page_response);
    try reflexivity.
  apply list_elem_of_singleton. reflexivity.
Defined.

(** * Further properties of the code *)

(** ** Strings *)

Lemma prefix_cons (a b : ascii) (p s : string) :
  String.prefix (String a p) (String b s) = Ascii.eqb a b && String.prefix p s.
Proof.
  simpl. destruct (ascii_dec a b) as [->|H].
  - rewrite Ascii.eqb_refl. reflexivity.
  - apply Ascii.eqb_neq in H. rewrite H. reflexivity.
Qed.

Lemma prefix_empty_l (s : string) : String.prefix "" s = true.
Proof. destruct s; reflexivity. Qed.

Lemma StartsWith_slash_cons (c : ascii) (s : string) :
  StartsWith "/" (String c s) = Ascii.eqb "/" c.
Proof. unfold StartsWith. rewrite prefix_cons, prefix_empty_l. apply andb_true_r. Qed.

(** ** Join-Url *)

Lemma TrimEnd_slash_app_slash (s : string) : TrimEnd_slash (s +:+ "/") = TrimEnd_slash s.
Proof.
  induction s as [|c s IH]; [reflexivity|].
  change (String c s +:+ "/") with (String c (s +:+ "/")).
  simpl. rewrite IH. reflexivity.
Qed.

Lemma EndsWith_slash_TrimEnd (s : string) : EndsWith_slash (TrimEnd_slash s) = false.
Proof.
  induction s as [|c s IH]; [reflexivity|]. simpl.
  destruct (TrimEnd_slash s) as [|d r] eqn:E.
  - destruct (Ascii.eqb c "/") eqn:Ec; simpl; [reflexivity|exact Ec].
  - exact IH.
Qed.

Lemma TrimEnd_slash_id (s : string) : EndsWith_slash s = false -> TrimEnd_slash s = s.
Proof.
  induction s as [|c s IH]; [reflexivity|]. intros H. simpl in *.
  destruct s as [|d r].
  - simpl. rewrite H. reflexivity.
  - rewrite (IH H). reflexivity.
Qed.

Lemma Join_Url_trimmed (base path : string) :
  Join_Url base path =
  TrimEnd_slash base +:+ (if StartsWith "/" path then path else "/" +:+ path).
Proof.
  unfold Join_Url. destruct (EndsWith_slash base) eqn:E.
  - destruct (StartsWith "/" path); reflexivity.
  - rewrite (TrimEnd_slash_id base E). destruct (StartsWith "/" path); reflexivity.
Qed.

(** X1.  [Join-Url] puts exactly one slash of its own between the base
    and the path: a base gives the same URL with or without slashes at its
    end, a path gives the same URL with or without one slash at its front,
    and the URL is the base without the slashes at its end, a slash, and
    the path without that slash. *)
Theorem Join_Url_joins_with_one_slash (base path : string) :
  Join_Url (base +:+ "/") path = Join_Url base path /\
  (StartsWith "/" path = false -> Join_Url base ("/" +:+ path) = Join_Url base path) /\
  EndsWith_slash (TrimEnd_slash base) = false /\
  exists rest, Join_Url base path = TrimEnd_slash base +:+ "/" +:+ rest /\
               (path = rest \/ path = "/" +:+ rest).
Proof.
  split; [|split; [|split]].
  - rewrite !Join_Url_trimmed, TrimEnd_slash_app_slash. reflexivity.
  - intros H. rewrite !Join_Url_trimmed, H.
    change ("/" +:+ path) with (String "/" path).
    rewrite StartsWith_slash_cons. reflexivity.
  - apply EndsWith_slash_TrimEnd.
  - rewrite Join_Url_trimmed. destruct path as [|c rest].
    + exists "". split; [reflexivity|]. left. reflexivity.
    + rewrite StartsWith_slash_cons. destruct (Ascii.eqb_spec "/" c) as [<-|Hne].
      * exists rest. split; [reflexivity|]. right. reflexivity.
      * exists (String c rest). split; [reflexivity|]. left. reflexivity.
Qed.

(** ** The smoke test's polling loop: requests and time *)

Section LoopBound.

Context {Num : Type}.
Variable ApiBase : string.
Variable TimeoutSeconds : Z.
Variable PollSeconds : Z.
Variable world : World Num.

(** Every finished round took a tick at least and slept [PollSeconds] or
    longer. *)
Lemma round_start_lower (k : nat) :
  0 <= PollSeconds ->
  Z.of_nat k * (PollSeconds * ticks_per_second) + Z.of_nat k <= round_start PollSeconds world k.
Proof.
  intros HP. induction k as [|k IH]; [simpl; lia|].
  change (round_start PollSeconds world (S k))
    with (round_start PollSeconds world k + Z.pos (round_ticks (statuses world k))
          + PollSeconds * ticks_per_second + Z.of_N (overslept (statuses world k))).
  unfold ticks_per_second in *. lia.
Qed.

(** X2.  With a poll interval of a second or more, every sleep lasting
    the interval or longer, the loop asks for the status once at least and
    at most [(TimeoutSeconds - 1) / PollSeconds + 2] times, whatever the
    timeout is: once when that number is below one. *)
Theorem poll_requests_are_bounded (wid : string) (fuel : nat) (log log' : list WebCall)
  (e : LoopEnd) :
  1 <= PollSeconds ->
  poll ApiBase TimeoutSeconds PollSeconds world fuel wid 0 0 log = Some (log', e) ->
  exists k : nat,
    log' = log ++ replicate (S k) (call_status ApiBase wid) /\
    Z.of_nat (S k) <= Z.max 1 ((TimeoutSeconds - 1) / PollSeconds + 2).
Proof.
  intros HP H.
  apply (poll_runs ApiBase TimeoutSeconds PollSeconds world wid fuel 0%nat) in H
    as (k & _ & Hlog & Hcont & _).
  exists k. split; [rewrite Hlog; f_equal; f_equal; lia|].
  destruct k as [|k]; [lia|].
  destruct (Hcont k ltac:(lia)) as (st & _ & _ & Hclock & _).
  unfold round_clock in Hclock.
  pose proof (round_start_lower k ltac:(lia)) as Hlow.
  pose proof (Z.div_mod (TimeoutSeconds - 1) PollSeconds ltac:(lia)) as Hd.
  pose proof (Z.mod_pos_bound (TimeoutSeconds - 1) PollSeconds ltac:(lia)) as Hm.
  unfold ticks_per_second in *.
  assert (Z.of_nat k * PollSeconds <= TimeoutSeconds - 1) by nia.
  assert (Z.of_nat k <= (TimeoutSeconds - 1) / PollSeconds) by nia.
  lia.
Qed.

End LoopBound.

(** Three requests under a timeout of three seconds and an interval of
    two; one request under a timeout below zero. *)
Lemma poll_requests_are_bounded_witness :
  (exists k : nat,
     replicate 3 (call_status "http://127.0.0.1:18083" "ws-1") =
     [] ++ replicate (S k) (call_status "http://127.0.0.1:18083" "ws-1") /\
     Z.of_nat (S k) <= Z.max 1 ((3 - 1) / 2 + 2)) /\
  (exists k : nat,
     [call_status "http://127.0.0.1:18083" "ws-1"] =
     [] ++ replicate (S k) (call_status "http://127.0.0.1:18083" "ws-1") /\
     Z.of_nat (S k) <= Z.max 1 ((-5 - 1) / 2 + 2)).
Proof.
  split.
  - apply (poll_requests_are_bounded "http://127.0.0.1:18083" 3 2
             (smoke_world "running" (listing []) (listing [])) "ws-1" 5 []
             (replicate 3 (call_status "http://127.0.0.1:18083" "ws-1"))
             (LoopRaised (TimeoutWaiting 3))).
    + lia.
    + vm_compute. reflexivity.
  - apply (poll_requests_are_bounded "http://127.0.0.1:18083" (-5) 2
             (smoke_world "running" (listing []) (listing [])) "ws-1" 5 []
             [call_status "http://127.0.0.1:18083" "ws-1"]
             (LoopRaised (TimeoutWaiting (-5)))).
    + lia.
    + vm_compute. reflexivity.
Defined.

(** ** The shape of the client's calls *)

Section ClientShape.

Context {Num : Type}.
Variable num_truthy : Num -> bool.
Variable num_text : Num -> string.

Ltac unfold_client :=
  unfold workspacesApi_list, workspacesApi_get, workspacesApi_create,
    workspacesApi_update, workspacesApi_delete, documentsApi_list, documentsApi_delete,
    documentsApi_upload, interviewsApi_list, interviewsApi_get, interviewsApi_create,
    interviewsApi_getQuestions, interviewsApi_submitResponses, pipelineApi_get,
    pipelineApi_start, pipelineApi_cancel, exportsApi_list, exportsApi_create,
    exportsApi_download in *.

(** X3.  An operation of the client issues one [fetch] at most.  The
    call of an operation built on [request] names JSON as its content
    type, the upload and the download name none.  A GET or a DELETE carries
    no body, and form data is carried by the upload only. *)
Theorem client_calls_have_one_shape (base : option string) (backend : Backend (Num:=Num))
  (c : ApiCall) (call : FetchCall) :
  call ∈ issued (perform num_truthy num_text base backend c) ->
  issued (perform num_truthy num_text base backend c) = [call] /\
  init_headers (call_init call) =
    (if uses_request c then [("Content-Type", "application/json")] else []) /\
  (method_of call = GET \/ method_of call = DELETE -> init_body (call_init call) = None) /\
  (forall file, init_body (call_init call) = Some (FormBody file) ->
                exists w, c = DocumentsUpload w file).
Proof.
  intros Hin.
  destruct c; simpl in *; unfold_client; rewrite ?request_issued in *; simpl in *;
    try (match type of Hin with
         | _ ∈ (if ?b then _ else _) => destruct b; [solve [inversion Hin]|]
         end);
    apply list_elem_of_singleton in Hin; subst call;
    (split; [reflexivity|]); (split; [reflexivity|]);
    (split; [intros [Hmeth|Hmeth]; solve [reflexivity | discriminate Hmeth] |]);
    intros f Hf; try discriminate Hf.
  injection Hf as ->. eauto.
Qed.

End ClientShape.

Lemma client_calls_have_one_shape_witness :
  issued (perform z_truthy z_text (Some "/api") (always page_response) (WorkspacesDelete "ws-1")) =
    [delete_call] /\
  init_body (call_init delete_call) = None.
Proof.
  destruct (client_calls_have_one_shape z_truthy z_text (Some "/api") (always page_response)
              (WorkspacesDelete "ws-1") delete_call)
    as (H1 & _ & H3 & _).
  - vm_compute. apply list_elem_of_singleton. reflexivity.
  - split; [exact H1|]. apply H3. right. reflexivity.
Defined.

(** ** The development server's proxy *)

Lemma prefix_app (l p : string) : String.prefix l (l +:+ p) = true.
Proof.
  induction l as [|a l IH]; [apply prefix_empty_l|].
  change (String a l +:+ p) with (String a (l +:+ p)).
  rewrite prefix_cons, Ascii.eqb_refl. exact IH.
Qed.

Lemma forward_api (rest : string) :
  forward proxy ("/api" +:+ rest) = Some ("http://127.0.0.1:18083", rest).
Proof.
  unfold proxy, forward, StartsWith. rewrite prefix_app. simpl rewrite_path.
  unfold strip_api. rewrite strip_prefix_app. reflexivity.
Qed.

Lemma forward_workspaces (rest : string) : forward proxy ("/workspaces" +:+ rest) = None.
Proof.
  change ("/workspaces" +:+ rest) with (String "/" (String "w" ("orkspaces" +:+ rest))).
  unfold proxy, forward, StartsWith. rewrite !prefix_cons. reflexivity.
Qed.

Section ProxyFacts.

Context {Num : Type}.
Variable num_truthy : Num -> bool.
Variable num_text : Num -> string.



End ProxyFacts.


(** ** The workspace tabs *)

Ltac solve_elem :=
  unfold tabs, tab_words; rewrite ?elem_of_cons; auto 10.

Lemma includes_cons (needle : string) (c : ascii) (s : string) :
  includes needle (String c s) = String.prefix needle (String c s) || includes needle s.
Proof. reflexivity. Qed.

Lemma includes_app_r (needle s t : string) :
  includes needle t = true -> includes needle (s +:+ t) = true.
Proof.
  intros H. induction s as [|c s IH]; [exact H|].
  change (String c s +:+ t) with (String c (s +:+ t)).
  rewrite includes_cons, IH. apply orb_true_r.
Qed.

(** A text without slashes holds no occurrence of a word that starts
    with one, and none begins in it. *)
Lemma prefix_slash_free (w s t : string) :
  slash_free w = true ->
  String.prefix w (s +:+ String "/" t) = String.prefix w s.
Proof.
  revert w. induction s as [|b s IH]; intros w Hw.
  - destruct w as [|a w]; [reflexivity|].
    change ("" +:+ String "/" t) with (String "/" t).
    rewrite prefix_cons. simpl in Hw. apply andb_true_iff in Hw as [Ha _].
    apply negb_true_iff in Ha. rewrite Ha. reflexivity.
  - destruct w as [|a w]; [reflexivity|].
    change (String b s +:+ String "/" t) with (String b (s +:+ String "/" t)).
    rewrite !prefix_cons. simpl in Hw. apply andb_true_iff in Hw as [_ Hw].
    rewrite (IH w Hw). reflexivity.
Qed.

Lemma includes_slash_free (w s t : string) :
  slash_free s = true ->
  includes (String "/" w) (s +:+ t) = includes (String "/" w) t.
Proof.
  intros Hs. induction s as [|c s IH]; [reflexivity|].
  change (String c s +:+ t) with (String c (s +:+ t)).
  simpl in Hs. apply andb_true_iff in Hs as [Hc Hs].
  rewrite includes_cons, prefix_cons, (IH Hs).
  apply negb_true_iff in Hc. rewrite Ascii.eqb_sym in Hc. rewrite Hc. reflexivity.
Qed.

Lemma includes_tab_path (w id t : string) :
  slash_free w = true ->
  slash_free id = true ->
  t = "" \/ (exists t', t = String "/" t') ->
  includes (String "/" w) ("/workspaces/" +:+ id +:+ t) =
  String.prefix w "workspaces" || String.prefix w id || includes (String "/" w) t.
Proof.
  intros Hw Hid Ht.
  change ("/workspaces/" +:+ id +:+ t)
    with (String "/" ("workspaces" +:+ String "/" (id +:+ t))).
  rewrite includes_cons, prefix_cons, (prefix_slash_free w "workspaces" _ Hw).
  rewrite (includes_slash_free w "workspaces") by reflexivity.
  rewrite includes_cons, prefix_cons, (includes_slash_free w id t Hid).
  change (Ascii.eqb "/" "/") with true. cbn [andb].
  assert (String.prefix w (id +:+ t) = String.prefix w id) as ->.
  { destruct Ht as [->|[t' ->]].
    - rewrite append_empty_r. reflexivity.
    - apply prefix_slash_free. exact Hw. }
  rewrite orb_assoc. reflexivity.
Qed.

(** X6.  [getCurrentTab] names the tab whose link was followed: for a
    workspace id without a slash that does not begin with one of the words
    upload, interview, pipeline and exports, every tab's [href] is mapped
    back to that tab's [value]. *)
Theorem getCurrentTab_names_the_tab_followed (id v href : string) :
  slash_free id = true ->
  (forall w, w ∈ tab_words -> StartsWith w id = false) ->
  (v, href) ∈ tabs id ->
  getCurrentTab href = v.
Proof.
  intros Hid Hwords Hin.
  assert (String.prefix "upload" id = false) as Hu
    by (apply Hwords; solve_elem).
  assert (String.prefix "interview" id = false) as Hi
    by (apply Hwords; solve_elem).
  assert (String.prefix "pipeline" id = false) as Hp
    by (apply Hwords; solve_elem).
  assert (String.prefix "exports" id = false) as He
    by (apply Hwords; solve_elem).
  unfold tabs in Hin.
  replace ("/workspaces/" +:+ id) with ("/workspaces/" +:+ id +:+ "") in Hin
    by (rewrite append_empty_r; reflexivity).
  repeat (apply elem_of_cons in Hin as [Hin|Hin];
          [injection Hin as -> ->; unfold getCurrentTab;
           rewrite !includes_tab_path by (first [reflexivity | exact Hid | left; reflexivity
                                                | right; eexists; reflexivity]);
           rewrite Hu, Hi, Hp, He; reflexivity |]).
  inversion Hin.
Qed.

(** X7.  The words are looked for anywhere in the path, so a workspace
    whose id begins with upload, interview, pipeline or exports has its
    Overview page shown under one of the other four tabs. *)
Theorem getCurrentTab_misled_by_the_workspace_id (id w : string) :
  w ∈ tab_words ->
  StartsWith w id = true ->
  getCurrentTab ("/workspaces/" +:+ id) ∈ tab_words /\
  getCurrentTab ("/workspaces/" +:+ id) <> "overview".
Proof.
  intros Hw Hid.
  assert (includes (String "/" w) ("/workspaces/" +:+ id) = true) as Hinc.
  { change ("/workspaces/" +:+ id) with ("/workspaces" +:+ String "/" id).
    apply includes_app_r. rewrite includes_cons, prefix_cons.
    unfold StartsWith in Hid. rewrite Hid. reflexivity. }
  assert (getCurrentTab ("/workspaces/" +:+ id) ∈ tab_words) as Hres.
  { unfold getCurrentTab, tab_words in *.
    destruct (includes "/upload" _) eqn:E1; [solve_elem|].
    destruct (includes "/interview" _) eqn:E2; [solve_elem|].
    destruct (includes "/pipeline" _) eqn:E3; [solve_elem|].
    destruct (includes "/exports" _) eqn:E4; [solve_elem|].
    exfalso.
    repeat (apply elem_of_cons in Hw as [->|Hw]; [congruence|]).
    inversion Hw. }
  split; [exact Hres|].
  intros Heq. rewrite Heq in Hres. unfold tab_words in Hres.
  repeat (apply elem_of_cons in Hres as [Hres|Hres]; [discriminate|]).
  inversion Hres.
Qed.

Lemma getCurrentTab_names_the_tab_followed_witness :
  getCurrentTab "/workspaces/ws-1/interview/new" = "interview".
Proof.
  apply (getCurrentTab_names_the_tab_followed "ws-1" "interview"
           "/workspaces/ws-1/interview/new").
  - reflexivity.
  - intros w Hw. unfold tab_words in Hw.
    repeat (apply elem_of_cons in Hw as [->|Hw]; [vm_compute; reflexivity|]).
    inversion Hw.
  - solve_elem.
Defined.

Lemma getCurrentTab_misled_by_the_workspace_id_witness :
  getCurrentTab ("/workspaces/" +:+ "exports-2024") ∈ tab_words /\
  getCurrentTab ("/workspaces/" +:+ "exports-2024") <> "overview".
Proof.
  apply (getCurrentTab_misled_by_the_workspace_id "exports-2024" "exports").
  - solve_elem.
  - vm_compute. reflexivity.
Defined.

(** ** File sizes *)

(** X8.  [formatFileSize] shows a size in bytes as it is below 1024, in
    KB with one decimal below 1024 * 1024, and in MB with one decimal from
    there on, and the figure shown differs from the size in that unit by
    0.05 at most.  The KB figure runs from 1.0 up to 1024.0, which is what
    the last 51 sizes below 1024 * 1024 are shown as. *)
Theorem formatFileSize_is_within_a_twentieth (bytes : Z) :
  0 <= bytes < 2 ^ 53 ->
  (bytes < 1024 -> formatFileSize bytes = pretty bytes +:+ " B") /\
  (1024 <= bytes < 1048576 ->
   exists n, formatFileSize bytes = tenths n +:+ " KB" /\
             10 <= n <= 10240 /\
             -512 <= 10 * bytes - 1024 * n < 512) /\
  (1048576 <= bytes ->
   exists n, formatFileSize bytes = tenths n +:+ " MB" /\
             10 <= n /\
             -524288 <= 10 * bytes - 1048576 * n < 524288) /\
  (1048525 <= bytes < 1048576 -> formatFileSize bytes = "1024.0 KB").
Proof.
  intros Hdom. unfold formatFileSize, toFixed1.
  change (1024 * 1024) with 1048576. change (2 * 1024) with 2048.
  change (2 * 1048576) with 2097152.
  destruct (Z.ltb_spec bytes 1024) as [Hb|Hb].
  - split; [reflexivity|]. repeat split; intros; lia.
  - split; [intros; lia|].
    destruct (Z.ltb_spec bytes 1048576) as [Hk|Hk].
    + split; [|split; [intros; lia|]].
      * intros _. exists ((20 * bytes + 1024) / 2048). split; [reflexivity|].
        pose proof (Z.div_mod (20 * bytes + 1024) 2048 ltac:(lia)) as Hd.
        pose proof (Z.mod_pos_bound (20 * bytes + 1024) 2048 ltac:(lia)) as Hm.
        lia.
      * intros Hlast.
        assert ((20 * bytes + 1024) / 2048 = 10240) as ->.
        { symmetry. apply Z.div_unique with (r := 20 * bytes + 1024 - 2048 * 10240); lia. }
        vm_compute. reflexivity.
    + split; [intros; lia|]. split; [|intros; lia].
      intros _. exists ((20 * bytes + 1048576) / 2097152). split; [reflexivity|].
      pose proof (Z.div_mod (20 * bytes + 1048576) 2097152 ltac:(lia)) as Hd.
      pose proof (Z.mod_pos_bound (20 * bytes + 1048576) 2097152 ltac:(lia)) as Hm.
      lia.
Qed.

Lemma formatFileSize_is_within_a_twentieth_witness :
  formatFileSize 1048575 = "1024.0 KB".
Proof.
  apply (formatFileSize_is_within_a_twentieth 1048575); lia.
Defined.

Example formatFileSize_at_work :
  formatFileSize 0 = "0 B" /\
  formatFileSize 1023 = "1023 B" /\
  formatFileSize 1024 = "1.0 KB" /\
  formatFileSize 1587 = "1.5 KB" /\
  formatFileSize 1588 = "1.6 KB" /\
  formatFileSize 1048576 = "1.0 MB" /\
  formatFileSize 5767168 = "5.5 MB".
Proof. vm_compute. repeat split. Qed.

(** ** The pages' event handlers *)

Section PageFacts.

Context {Num : Type}.
Variable num_truthy : Num -> bool.
Variable num_text : Num -> string.
Variable trim : string -> string.
Variable base : option string.
Variable backends : nat -> Backend (Num:=Num).

Local Abbreviation mutateAsync' := (mutateAsync num_truthy num_text base backends).
Local Abbreviation upload_each' := (upload_each num_truthy num_text base backends).

(** [mutateAsync], with the hook's mutation function and [onSuccess]
    spelled out. *)
Lemma mutateAsync_unfold (m : Mutation) (ui : Ui Num) :
  mutateAsync' m ui =
  let o := perform num_truthy num_text base (backends (length (ui_calls ui))) (mutation_call (Num:=Num) m) in
  (settled o,
   {| ui_calls := ui_calls ui ++ issued o;
      ui_toasts := ui_toasts ui;
      ui_cache := match settled o with
                  | Ok r => foldl apply_effect (ui_cache ui) (mutation_onSuccess m r)
                  | Throw _ => ui_cache ui
                  end;
      ui_saved := ui_saved ui ++ match settled o with
                                 | Ok r => saved_by (mutation_onSuccess m r)
                                 | Throw _ => []
                                 end |}).
Proof.
  unfold mutateAsync, mutate. cbv zeta.
  destruct (settled (perform num_truthy num_text base (backends (length (ui_calls ui)))
                       (mutation_call (Num:=Num) m))) eqn:E;
    cbn; rewrite ?E; reflexivity.
Qed.

(** One round of the upload loop. *)
Lemma upload_each_cons (id : string) (file : File) (rest : list File) (ui : Ui Num) :
  let o := perform num_truthy num_text base (backends (length (ui_calls ui))) (DocumentsUpload id file) in
  upload_each' id (file :: rest) ui =
  upload_each' id rest
    {| ui_calls := ui_calls ui ++ [upload_call base id file];
       ui_toasts := ui_toasts ui ++ [upload_toast file (resolves o)];
       ui_cache := if resolves o
                   then invalidateQueries ["workspaces"; id]
                          (invalidateQueries ["documents"; id] (ui_cache ui))
                   else ui_cache ui;
       ui_saved := ui_saved ui |}.
Proof.
  cbn zeta. cbn [upload_each]. rewrite mutateAsync_unfold. cbn zeta.
  unfold resolves.
  change (mutation_call (Num:=Num) (UploadDocument id file)) with (DocumentsUpload id file).
  destruct (settled (perform num_truthy num_text base (backends (length (ui_calls ui)))
                       (DocumentsUpload id file))) as [r|e] eqn:E;
    unfold toast, upload_toast; simpl; rewrite app_nil_r; reflexivity.
Qed.

Lemma upload_each_spec (id : string) (files : list File) :
  forall ui : Ui Num,
    let n := length (ui_calls ui) in
    let uploaded k file :=
      resolves (perform num_truthy num_text base (backends (n + k)) (DocumentsUpload id file)) in
    let ui' := upload_each' id files ui in
    ui_calls ui' = ui_calls ui ++ map (upload_call base id) files /\
    ui_toasts ui' = ui_toasts ui ++ imap (fun k file => upload_toast file (uploaded k file)) files /\
    ui_saved ui' = ui_saved ui /\
    ((forall k file, files !! k = Some file -> uploaded k file = false) ->
     ui_cache ui' = ui_cache ui).
Proof.
  induction files as [|file rest IH]; intros ui; cbn zeta.
  - simpl. rewrite !app_nil_r. auto.
  - rewrite upload_each_cons. cbn zeta.
    specialize (IH {| ui_calls := ui_calls ui ++ [upload_call base id file];
                      ui_toasts := ui_toasts ui ++
                        [upload_toast file
                           (resolves (perform num_truthy num_text base (backends (length (ui_calls ui)))
                                        (DocumentsUpload id file)))];
                      ui_cache := if resolves (perform num_truthy num_text base
                                                 (backends (length (ui_calls ui)))
                                                 (DocumentsUpload id file))
                                  then invalidateQueries ["workspaces"; id]
                                         (invalidateQueries ["documents"; id] (ui_cache ui))
                                  else ui_cache ui;
                      ui_saved := ui_saved ui |}).
    cbn zeta in IH. cbn [ui_calls ui_toasts ui_cache ui_saved] in IH.
    destruct IH as (Hc & Ht & Hs & Hk).
    rewrite Hc, Ht, Hs. rewrite <- !app_assoc.
    split; [reflexivity|]. split; [|split; [reflexivity|]].
    + f_equal. cbn [imap app]. rewrite Nat.add_0_r. f_equal.
      apply imap_ext. intros k f _. simpl. rewrite length_app. simpl.
      replace (length (ui_calls ui) + 1 + k)%nat with (length (ui_calls ui) + S k)%nat by lia.
      reflexivity.
    + intros Hall. rewrite Hk.
      * pose proof (Hall 0%nat file eq_refl) as H0. rewrite Nat.add_0_r in H0.
        rewrite H0. reflexivity.
      * intros k f Hf. rewrite length_app. simpl.
        replace (length (ui_calls ui) + 1 + k)%nat with (length (ui_calls ui) + S k)%nat by lia.
        apply (Hall (S k) f). exact Hf.
Qed.

(** X9.  Dropping or selecting files uploads every one of them, in
    order, whatever happened to the ones before: each file gets its own
    POST to the workspace's documents and its own toast, a success or a
    failure as that upload resolved or not; nothing is saved to disk; and
    when no upload resolved the query cache is as it was.  Selecting
    files does the same as dropping them and empties the input, and
    dropping sets [isDragging] to false. *)
Theorem every_dropped_file_is_uploaded_and_reported (id : string) (files : list File)
  (ui : Ui Num) :
  let dropped := handleDrop num_truthy num_text base backends id files ui in
  let n := length (ui_calls ui) in
  let uploaded k file :=
    resolves (perform num_truthy num_text base (backends (n + k)) (DocumentsUpload id file)) in
  dropped.1 = false /\
  handleFileSelect num_truthy num_text base backends id (Some files) ui = ("", dropped.2) /\
  handleFileSelect num_truthy num_text base backends id None ui = ("", ui) /\
  ui_calls dropped.2 = ui_calls ui ++ map (upload_call base id) files /\
  ui_toasts dropped.2 =
    ui_toasts ui ++ imap (fun k file => upload_toast file (uploaded k file)) files /\
  ui_saved dropped.2 = ui_saved ui /\
  ((forall k file, files !! k = Some file -> uploaded k file = false) ->
   ui_cache dropped.2 = ui_cache ui).
Proof.
  cbn zeta. unfold handleDrop, handleFileSelect. simpl fst. simpl snd.
  split; [reflexivity|]. split; [reflexivity|]. split; [reflexivity|].
  apply upload_each_spec.
Qed.

(** *** The two forms *)

Lemma request_post_issued (endpoint : string) (payload : JsValue Num) (backend : Backend) :
  exists more,
    issued (request num_truthy num_text base backend endpoint (with_json POST payload)) = more /\
    (length more <= 1)%nat /\
    forall call, call ∈ more -> call = json_post base endpoint payload.
Proof.
  eexists. split; [reflexivity|]. rewrite request_issued.
  destruct (String.eqb (API_BASE_URL base) ""); simpl.
  - split; [lia|]. intros call Hin. inversion Hin.
  - split; [lia|]. intros call Hin. apply list_elem_of_singleton in Hin. exact Hin.
Qed.

(** X10.  The dialog that creates a workspace.  It shows one toast.  A
    name that trims to nothing issues no request and changes neither the
    form nor the cache.  Any other name is sent as it was typed, untrimmed,
    with the description, in one POST to [/workspaces] at most.  Under a
    success toast the request resolved, the dialog is closed, the form is
    empty again and the workspace queries are marked stale; under a
    failure toast the dialog and the form are as they were and so is the
    cache. *)
Theorem handleCreateWorkspace_keeps_the_form_unless_created (st : WorkspacesListState)
  (ui : Ui Num) :
  let done := handleCreateWorkspace num_truthy num_text trim base backends st ui in
  let name := nw_name (newWorkspace st) in
  let description := nw_description (newWorkspace st) in
  let o := perform num_truthy num_text base (backends (length (ui_calls ui)))
             (WorkspacesCreate {| cw_name := name; cw_description := Some description |}) in
  exists t more,
    ui_toasts done.2 = ui_toasts ui ++ [t] /\
    ui_saved done.2 = ui_saved ui /\
    ui_calls done.2 = ui_calls ui ++ more /\
    (length more <= 1)%nat /\
    (trim name = "" -> more = []) /\
    (forall call, call ∈ more ->
       call = json_post base "/workspaces"
                (JObject [("name", JString name); ("description", JString description)])) /\
    match toast_variant t with
    | None =>
        trim name <> "" /\ resolves o = true /\
        done.1 = {| isDialogOpen := false;
                    newWorkspace := {| nw_name := ""; nw_description := "" |} |} /\
        ui_cache done.2 = invalidateQueries ["workspaces"] (ui_cache ui)
    | Some _ => done.1 = st /\ ui_cache done.2 = ui_cache ui
    end.
Proof.
  cbv zeta. unfold handleCreateWorkspace.
  destruct (String.eqb_spec (trim (nw_name (newWorkspace st))) "") as [Hblank|Hname].
  - eexists. exists []. simpl. rewrite app_nil_r.
    repeat split; try reflexivity; try lia.
    intros call Hin. inversion Hin.
  - rewrite mutateAsync_unfold. cbv zeta.
    change (mutation_call (Num:=Num) (CreateWorkspace ?d)) with (WorkspacesCreate d).
    destruct (request_post_issued "/workspaces"
                (JObject [("name", JString (nw_name (newWorkspace st)));
                          ("description", JString (nw_description (newWorkspace st)))])
                (backends (length (ui_calls ui)))) as (more & Hmore & Hlen & Hcall).
    unfold resolves.
    destruct (settled (perform num_truthy num_text base (backends (length (ui_calls ui)))
                         (WorkspacesCreate _))) as [r|e] eqn:E;
      eexists; exists more; simpl; rewrite ?app_nil_r;
      (split; [reflexivity|]); (split; [reflexivity|]);
      (split; [f_equal; exact Hmore|]); (split; [exact Hlen|]);
      (split; [intros; contradiction|]); (split; [exact Hcall|]).
    + repeat split; auto.
    + split; reflexivity.
Qed.

(** X11.  The form that creates an interview.  It shows one toast.  A
    title that trims to nothing issues no request and changes neither the
    form nor the cache.  Any other title is sent as it was typed, with the
    workspace's id and the participant's name and role (empty texts
    included), in one POST to the workspace's interviews at most.  Under a
    success toast the request resolved, the form is hidden and empty again
    and the workspace's interview queries and its own entry are marked
    stale; under a failure toast the form is as it was and so is the
    cache. *)
Theorem handleSubmit_keeps_the_form_unless_created (id : string) (st : InterviewPageState)
  (ui : Ui Num) :
  let done := handleSubmit num_truthy num_text trim base backends id st ui in
  let data := {| ci_workspaceId := id;
                 ci_title := fd_title (formData st);
                 ci_participantName := Some (fd_participantName (formData st));
                 ci_participantRole := Some (fd_participantRole (formData st)) |} in
  let o := perform num_truthy num_text base (backends (length (ui_calls ui))) (InterviewsCreate data) in
  exists t more,
    ui_toasts done.2 = ui_toasts ui ++ [t] /\
    ui_saved done.2 = ui_saved ui /\
    ui_calls done.2 = ui_calls ui ++ more /\
    (length more <= 1)%nat /\
    (trim (fd_title (formData st)) = "" -> more = []) /\
    (forall call, call ∈ more ->
       call = json_post base ("/workspaces/" +:+ id +:+ "/interviews")
                (JObject [("workspaceId", JString id);
                          ("title", JString (fd_title (formData st)));
                          ("participantName", JString (fd_participantName (formData st)));
                          ("participantRole", JString (fd_participantRole (formData st)))])) /\
    match toast_variant t with
    | None =>
        trim (fd_title (formData st)) <> "" /\ resolves o = true /\
        done.1 = {| showForm := false;
                    formData := {| fd_title := ""; fd_participantName := "";
                                   fd_participantRole := "" |} |} /\
        ui_cache done.2 =
          invalidateQueries ["workspaces"; id] (invalidateQueries ["interviews"; id] (ui_cache ui))
    | Some _ => done.1 = st /\ ui_cache done.2 = ui_cache ui
    end.
Proof.
  cbv zeta. unfold handleSubmit.
  destruct (String.eqb_spec (trim (fd_title (formData st))) "") as [Hblank|Htitle].
  - eexists. exists []. simpl. rewrite app_nil_r.
    repeat split; try reflexivity; try lia.
    intros call Hin. inversion Hin.
  - rewrite mutateAsync_unfold. cbv zeta.
    change (mutation_call (Num:=Num) (CreateInterview ?d)) with (InterviewsCreate d).
    destruct (request_post_issued ("/workspaces/" +:+ id +:+ "/interviews")
                (JObject [("workspaceId", JString id);
                          ("title", JString (fd_title (formData st)));
                          ("participantName", JString (fd_participantName (formData st)));
                          ("participantRole", JString (fd_participantRole (formData st)))])
                (backends (length (ui_calls ui)))) as (more & Hmore & Hlen & Hcall).
    unfold resolves.
    destruct (settled (perform num_truthy num_text base (backends (length (ui_calls ui)))
                         (InterviewsCreate _))) as [r|e] eqn:E;
      eexists; exists more; simpl; rewrite ?app_nil_r;
      (split; [reflexivity|]); (split; [reflexivity|]);
      (split; [f_equal; exact Hmore|]); (split; [exact Hlen|]);
      (split; [intros; contradiction|]); (split; [exact Hcall|]).
    + repeat split; auto.
    + split; reflexivity.
Qed.

(** *** The buttons *)

(** X12.  Deleting a document, creating an export, downloading one,
    starting and cancelling the pipeline: each click runs its operation of
    the client once and shows one toast, a plain one exactly when the
    operation resolved and a destructive one exactly when it was rejected.
    After a rejection the cache and the saved files are as before.  A
    download never touches the cache and saves the blob it resolved with
    as [export-] followed by the export's id; no other click saves a
    file. *)
Theorem clicks_report_what_their_request_did (id : string) (a : Action) (ui : Ui Num) :
  let ui' := handle num_truthy num_text base backends id a ui in
  let o := perform num_truthy num_text base (backends (length (ui_calls ui))) (action_call id a) in
  exists t,
    ui_toasts ui' = ui_toasts ui ++ [t] /\
    ui_calls ui' = ui_calls ui ++ issued o /\
    toast_variant t = (if resolves o then None else Some "destructive") /\
    (resolves o = false -> ui_cache ui' = ui_cache ui /\ ui_saved ui' = ui_saved ui) /\
    match a with
    | ClickDownload exportId =>
        ui_cache ui' = ui_cache ui /\
        forall b, settled o = Ok (RBlob b) ->
                  ui_saved ui' = ui_saved ui ++ [(b, "export-" +:+ exportId)]
    | _ => ui_saved ui' = ui_saved ui
    end.
Proof.
  cbv zeta. unfold resolves.
  destruct a; unfold handle, handleDelete, handleCreateExport, handleDownload, handleStart,
    handleCancel; rewrite mutateAsync_unfold; cbv zeta;
    cbn [mutation_call mutationFn useDeleteDocument useCreateExport useDownloadExport
         useStartPipeline useCancelPipeline action_call];
    match goal with
    | |- context [settled (perform ?f ?g ?b ?k ?c)] =>
        destruct (settled (perform f g b k c)) as [r|e] eqn:E
    end;
    eexists; simpl; rewrite ?app_nil_r;
    (split; [reflexivity|]); (split; [reflexivity|]); (split; [reflexivity|]);
    (split; [intros; first [discriminate | split; reflexivity]|]);
    try reflexivity.
  - (* a download that resolved *)
    split; [destruct r; reflexivity|].
    intros b Hb. injection Hb as ->. reflexivity.
  - split; [reflexivity|]. intros b Hb. discriminate Hb.
Qed.

End PageFacts.

(** *** The pipeline card's button *)

Section PipelineButton.

Context {Num : Type}.

(** X13.  The pipeline page offers Cancel exactly when the pipeline
    query is polling, that is when its [refetchInterval] answers 5000;
    otherwise it offers the start button.  That button is disabled
    whenever it reads [Re-run Pipeline], so a completed pipeline cannot be
    run again from this page; of running, completed and failed at most
    one holds; and on the data of a well-typed response each of the three
    says what the pipeline's [status] is. *)
Theorem cancel_is_offered_while_polling_and_rerun_is_disabled
  (pipeline : JsOpt (Num:=Num)) (startPending cancelPending : bool) :
  let b := pipeline_button pipeline startPending cancelPending in
  (forall r : ApiResponse (Pipeline Num),
     isRunning (state_data (fetched r)) = String.eqb (pipeline_state (data r)) "running" /\
     isCompleted (state_data (fetched r)) = String.eqb (pipeline_state (data r)) "completed" /\
     isFailed (state_data (fetched r)) = String.eqb (pipeline_state (data r)) "failed") /\
  (button_onClick b = HandleCancel <->
   usePipeline_refetchInterval {| state_data := pipeline |} = Ok (Every 5000)) /\
  (button_onClick b = HandleCancel <-> button_label b = "Cancel") /\
  (button_label b = "Re-run Pipeline" -> button_disabled b = true) /\
  (button_onClick b = HandleStart -> button_disabled b = false ->
   startPending = false /\ isCompleted pipeline = false) /\
  (isRunning pipeline && isCompleted pipeline = false) /\
  (isRunning pipeline && isFailed pipeline = false) /\
  (isCompleted pipeline && isFailed pipeline = false).
Proof.
  cbv zeta. split; [intros r; repeat split; reflexivity|].
  unfold pipeline_button, isRunning, isCompleted, isFailed, pipelineData,
    usePipeline_refetchInterval, pipeline_status.
  cbn [state_data].
  destruct pipeline as [[| | | | |ms]|]; cbn;
    try (repeat split; intros; try congruence;
         destruct startPending; simpl in *; congruence).
  destruct (assoc "data" ms) as [[| | | | |ms']|]; cbn;
    try (repeat split; intros; try congruence;
         destruct startPending; simpl in *; congruence).
  destruct (assoc "status" ms') as [[| | |s| |]|]; cbn;
    try (repeat split; intros; try congruence;
         destruct startPending; simpl in *; congruence).
  destruct (String.eqb_spec s "running") as [->|Hr]; cbn.
  - repeat split; intros; congruence.
  - destruct (String.eqb_spec s "completed") as [->|Hc]; cbn.
    + rewrite orb_true_r. repeat split; intros; congruence.
    + rewrite orb_false_r.
      destruct (String.eqb s "failed"); repeat split; intros; congruence.
Qed.

End PipelineButton.

(** ** The workspace's overview *)

Section DetailFacts.

Context {Num : Type} {Document Interview : Type}.
Variable id : string.
Variable documents : option (PaginatedResponse (Num:=Num) Document).
Variable interviews : option (PaginatedResponse (Num:=Num) Interview).
Variable pipeline : option (ApiResponse (Pipeline Num)).

Local Abbreviation steps' := (steps id documents interviews pipeline).
Local Abbreviation completed' := (completedSteps id documents interviews pipeline).
Local Abbreviation progress' := (overallProgress id documents interviews pipeline).
Local Abbreviation status' := (pipelineStatus pipeline).

(** X14.  The overview's progress is 25 for each completed step of
    four.  It reads 100 exactly when the page of documents and the page of
    interviews fetched are not empty and the pipeline's status is
    [completed].  The last two steps are completed together, so the
    progress is 50 at least with a completed pipeline and 50 at most
    without.  The steps link to the four tabs after Overview, in the
    tabs' order. *)
Theorem overview_progress_counts_the_pipeline_twice :
  (progress' == inject_Z (25 * Z.of_nat completed'))%Q /\
  ((progress' == 100)%Q <->
   (0 < documentCount documents)%nat /\ (0 < interviewCount interviews)%nat /\
   status' = "completed") /\
  (step_completed <$> steps' !! 2%nat) = (step_completed <$> steps' !! 3%nat) /\
  (status' = "completed" -> (50 <= progress')%Q) /\
  (status' <> "completed" -> (progress' <= 50)%Q) /\
  map step_href steps' = map snd (tail (tabs id)).
Proof.
  unfold overallProgress, completedSteps, steps. cbn [length].
  destruct (Nat.ltb_spec 0 (documentCount documents)) as [Hd|Hd];
    destruct (Nat.ltb_spec 0 (interviewCount interviews)) as [Hi|Hi];
    destruct (String.eqb_spec status' "completed") as [Hs|Hs];
    cbn;
    repeat split; intros; try reflexivity; try lia; try congruence;
    try (exfalso; vm_compute in *; congruence);
    try match goal with
        | H : _ /\ _ /\ _ |- _ => destruct H as (? & ? & ?); try lia; congruence
        end;
    try (vm_compute; congruence).
Qed.

End DetailFacts.

(** ** The queries a mutation refreshes *)

Section Refresh.

Context {Num : Type}.
Variable num_truthy : Num -> bool.
Variable num_text : Num -> string.

(** X15.  When a mutation succeeds, a cached query of one of the query
    hooks is marked stale, its data kept, if the mutation refreshes it, and
    is left as it was if not.  So an upload or an interview marks the
    workspace's entry but not the list of workspaces, and deleting a
    workspace marks no documents, interviews, pipeline or exports query. *)
Theorem a_successful_mutation_marks_exactly_what_it_refreshes
  (base : option string) (backend : Backend (Num:=Num)) (m : Mutation) (h : QueryHook)
  (cache : gmap QueryKey (CacheEntry Num)) (r : Resolved) (e : CacheEntry Num) :
  settled (perform num_truthy num_text base backend (mutation_call (Num:=Num) m)) = Ok r ->
  cache !! queryKey (query_options (Num:=Num) h) = Some e ->
  (mutate num_truthy num_text base backend m cache).2 !! queryKey (query_options (Num:=Num) h) =
  Some (if refreshes m h then invalidate e else e).
Proof.
  intros Hr He. unfold mutate. rewrite Hr. cbn [snd].
  destruct m, h; try destruct r; cbn in He |- *;
    rewrite ?lookup_invalidateQueries, He; cbn;
    repeat match goal with
           | |- context [String.eqb ?a ?b] => destruct (String.eqb a b); cbn
           end;
    reflexivity.
Qed.

End Refresh.

(** ** The smoke test's downloads *)

Section Downloads.

Context {Num : Type}.
Variable ps_gt_zero : JsValue Num -> bool.
Variable ps_truthy : JsValue Num -> bool.
Variable ps_text : JsValue Num -> string.
Variable ApiBase : string.
Variable world : World Num.

Local Abbreviation fetched_ok := (fun c : WebCall => download world (web_uri c) = Some tt).
Local Abbreviation wanted := (export_download ps_text ApiBase).

(** X16.  The loop over the export listing asks for the rows' downloads
    in the listing's order, one request a row.  It gets to the end when
    every row could be read and every download went through.  Otherwise
    it stops at the first row that fails, the rows before it downloaded:
    either the row lacks [id] or [kind], and nothing is requested for it,
    or its download is requested and fails, and the error names that URL.
    No later row is asked for. *)
Theorem export_downloads_stop_at_the_first_failure (wid : string)
  (rows : list (JsValue Num)) (log : list WebCall) :
  let out := download_exports ps_text ApiBase world wid rows log in
  exists more,
    out.1 = log ++ more /\
    ((out.2 = Done tt /\ Forall2 (fun row c => wanted wid row = Some c) rows more /\
      Forall fetched_ok more) \/
     (exists n row e before,
        out.2 = Raised e /\ rows !! n = Some row /\
        Forall2 (fun row c => wanted wid row = Some c) (take n rows) before /\
        Forall fetched_ok before /\
        ((wanted wid row = None /\ more = before) \/
         (exists c, wanted wid row = Some c /\ more = before ++ [c] /\
                    download world (web_uri c) = None /\ e = RequestFailed (web_uri c))))).
Proof.
  cbv zeta. revert log. induction rows as [|ex rows IH]; intros log.
  - exists []. simpl. rewrite app_nil_r. split; [reflexivity|]. left. auto.
  - cbn [download_exports]. unfold and_then, lift, invoke, wanted, export_download in *.
    destruct (ps_member ex "id") as [id|e1] eqn:Eid.
    + destruct (ps_member ex "kind") as [kind|e2] eqn:Ekind.
      * set (c := call_export_download ApiBase wid (ps_text id)).
        change {| web_method := GET;
                  web_uri := Join_Url ApiBase ("/workspaces/" +:+ wid +:+ "/exports/"
                                               +:+ ps_text id +:+ "/download");
                  web_body := None |} with c.
        change (Join_Url ApiBase ("/workspaces/" +:+ wid +:+ "/exports/"
                                  +:+ ps_text id +:+ "/download")) with (web_uri c).
        destruct (download world (web_uri c)) as [[]|] eqn:Ed.
        -- destruct (IH (log ++ [c])) as (more & Hlog & Hcases).
           exists (c :: more). rewrite Hlog, <- app_assoc. split; [reflexivity|].
           destruct Hcases as [(Hdone & Hall & Hok)|(n & row & e & before & He & Hrow & Hbefore
                                                      & Hok & Hlast)].
           ++ left. split; [exact Hdone|]. split.
              ** constructor; [rewrite Eid, Ekind; reflexivity|exact Hall].
              ** constructor; [exact Ed|exact Hok].
           ++ right. exists (S n), row, e, (c :: before).
              split; [exact He|]. split; [exact Hrow|]. split.
              ** cbn [take]. constructor; [rewrite Eid, Ekind; reflexivity|exact Hbefore].
              ** split; [constructor; [exact Ed|exact Hok]|].
                 destruct Hlast as [[Hnone ->]|(c' & Hc' & -> & Hfail & ->)].
                 --- left. auto.
                 --- right. exists c'. auto.
        -- exists [c]. split; [reflexivity|]. right.
           exists 0%nat, ex, (RequestFailed (web_uri c)), [].
           split; [reflexivity|]. split; [reflexivity|]. split; [constructor|].
           split; [constructor|]. right. exists c. rewrite Eid, Ekind. auto.
      * exists []. rewrite app_nil_r. split; [reflexivity|]. right.
        exists 0%nat, ex, e2, []. split; [reflexivity|]. split; [reflexivity|].
        split; [constructor|]. split; [constructor|]. left. rewrite Eid, Ekind. auto.
    + exists []. rewrite app_nil_r. split; [reflexivity|]. right.
      exists 0%nat, ex, e1, []. split; [reflexivity|]. split; [reflexivity|].
      split; [constructor|]. split; [constructor|]. left. rewrite Eid. auto.
Qed.

(** X17.  Of the artifacts the script downloads the first one at most,
    and asks for nothing when the listing's [total] is not above zero or
    the first row's [id] is not true.  When [total] is above zero and the
    listing has no first row, the script stops with an error instead of
    going on to the exports. *)
Theorem only_the_first_artifact_is_downloaded (wid runId : string) (arts : JsValue Num)
  (log : list WebCall) :
  let out :=
    download_first_artifact ps_gt_zero ps_truthy ps_text ApiBase world wid runId arts log in
  (out.1 = log \/
   exists total first id,
     ps_member arts "total" = Done total /\ ps_gt_zero total = true /\
     first_artifact arts = Done first /\
     ps_member first "id" = Done id /\ ps_truthy id = true /\
     out.1 = log ++ [call_artifact_download ApiBase wid runId (ps_text id)]) /\
  (forall total,
     ps_member arts "total" = Done total -> ps_gt_zero total = false ->
     out = (log, Done tt)) /\
  (forall total first id,
     ps_member arts "total" = Done total -> first_artifact arts = Done first ->
     ps_member first "id" = Done id -> ps_truthy id = false ->
     out = (log, Done tt)) /\
  (forall total e,
     ps_member arts "total" = Done total -> ps_gt_zero total = true ->
     first_artifact arts = Raised e ->
     out = (log, Raised e)).
Proof.
  cbv zeta. unfold download_first_artifact, first_artifact, and_then, lift, ret, invoke.
  destruct (ps_member arts "total") as [total|e0] eqn:Et.
  - destruct (ps_gt_zero total) eqn:Eg.
    + destruct (ps_member arts "items") as [items|e1] eqn:Ei.
      * destruct (ps_index0 items) as [first|e2] eqn:Ef.
        -- destruct (ps_member first "id") as [id|e3] eqn:Eid.
           ++ destruct (ps_truthy id) eqn:Etr.
              ** destruct (ps_member first "name") as [name|e4]; cbn.
                 --- split; [|repeat split; intros; congruence].
                     right. exists total, first, id. repeat split; auto.
                 --- split; [left; reflexivity|]. repeat split; intros; congruence.
              ** cbn. split; [left; reflexivity|]. repeat split; intros; congruence.
           ++ cbn. split; [left; reflexivity|]. repeat split; intros; congruence.
        -- cbn. split; [left; reflexivity|]. repeat split; intros; congruence.
      * cbn. split; [left; reflexivity|]. repeat split; intros; congruence.
    + cbn. split; [left; reflexivity|].
      repeat split; intros; congruence.
  - cbn. split; [left; reflexivity|]. repeat split; intros; congruence.
Qed.

End Downloads.

(** ** Query keys *)

Section Keys.

Context {Num : Type}.

(** X18.  No two queries share a cache entry: two query hooks, with
    their arguments, have the same query key only if they are the same
    hook with the same arguments, and then they fetch with the same
    operation. *)
Theorem query_keys_are_unique (h1 h2 : QueryHook) :
  (queryKey (query_options (Num:=Num) h1) = queryKey (query_options (Num:=Num) h2) <->
   h1 = h2) /\
  (queryKey (query_options (Num:=Num) h1) = queryKey (query_options (Num:=Num) h2) ->
   queryFn (query_options (Num:=Num) h1) = queryFn (query_options (Num:=Num) h2)).
Proof.
  assert (queryKey (query_options (Num:=Num) h1) = queryKey (query_options (Num:=Num) h2) ->
          h1 = h2) as Hinj.
  { destruct h1, h2; cbn; intros H; try discriminate H; try reflexivity;
      injection H as ->; subst; reflexivity. }
  split.
  - split; [exact Hinj|]. intros ->. reflexivity.
  - intros H. rewrite (Hinj H). reflexivity.
Qed.

End Keys.

(** ** The navigation bar *)

(** X19.  On every path under [/workspaces], so on each of a
    workspace's five tabs, the navigation bar accents the Workspaces item
    and no other. *)
Theorem workspace_pages_accent_the_workspaces_item :
  (forall rest, accented ("/workspaces" +:+ rest) = ["Workspaces"]) /\
  (forall id v href, (v, href) ∈ tabs id -> accented href = ["Workspaces"]).
Proof.
  assert (forall rest, accented ("/workspaces" +:+ rest) = ["Workspaces"]) as Hunder.
  { intros rest. unfold accented, navItems. cbn [List.filter fst].
    unfold StartsWith at 1. rewrite prefix_app.
    change ("/workspaces" +:+ rest) with (String "/" (String "w" ("orkspaces" +:+ rest))).
    unfold StartsWith. rewrite !prefix_cons. reflexivity. }
  split; [exact Hunder|].
  intros id v href Hin. unfold tabs in Hin.
  repeat (apply elem_of_cons in Hin as [Hin|Hin];
          [injection Hin as -> ->;
           change ("/workspaces/" +:+ ?x) with ("/workspaces" +:+ ("/" +:+ x));
           apply Hunder |]).
  inversion Hin.
Qed.

(** * The further properties at work *)

Lemma a_successful_mutation_marks_exactly_what_it_refreshes_witness :
  (mutate z_truthy z_text (Some "/api") (always page_response) (UploadDocument "ws-1" a_pdf)
     demo_cache).2 !! ["workspaces"] = Some (fresh (JString "list")) /\
  (mutate z_truthy z_text (Some "/api") (always page_response) (UploadDocument "ws-1" a_pdf)
     demo_cache).2 !! ["workspaces"; "ws-1"] = Some (invalidate (fresh (JString "one"))).
Proof.
  split.
  - apply (a_successful_mutation_marks_exactly_what_it_refreshes z_truthy z_text (Some "/api")
             (always page_response) (UploadDocument "ws-1" a_pdf) UseWorkspaces demo_cache
             (RJson empty_page) (fresh (JString "list"))).
    + vm_compute. reflexivity.
    + vm_compute. reflexivity.
  - apply (a_successful_mutation_marks_exactly_what_it_refreshes z_truthy z_text (Some "/api")
             (always page_response) (UploadDocument "ws-1" a_pdf) (UseWorkspace "ws-1")
             demo_cache (RJson empty_page) (fresh (JString "one"))).
    + vm_compute. reflexivity.
    + vm_compute. reflexivity.
Defined.

(** Two files dropped, the first upload rejected: both are sent, the
    second one's success marks the documents stale. *)
Example a_failed_upload_does_not_stop_the_next :
  let after := (handleDrop z_truthy z_text (Some "/api") first_fails "ws-1" [a_pdf; b_pdf] at_rest).2 in
  map call_url (ui_calls after) = ["/api/workspaces/ws-1/documents"; "/api/workspaces/ws-1/documents"] /\
  map toast_description (ui_toasts after) =
    ["Failed to upload a.pdf"; "b.pdf uploaded successfully"] /\
  isInvalidated <$> ui_cache after !! ["documents"; "ws-1"] = Some true.
Proof. vm_compute. auto. Qed.

(** A name of blanks only stays in the dialog; a name with blanks around
    it is sent with them. *)
Example a_blank_name_is_not_sent :
  let st := {| isDialogOpen := true;
               newWorkspace := {| nw_name := "   "; nw_description := "d" |} |} in
  let done := handleCreateWorkspace z_truthy z_text trim_ascii (Some "/api") first_fails st at_rest in
  done.1 = st /\ ui_calls done.2 = [] /\
  map toast_description (ui_toasts done.2) = ["Workspace name is required"].
Proof. vm_compute. auto. Qed.

Example a_padded_name_is_sent_as_typed :
  let st := {| isDialogOpen := true;
               newWorkspace := {| nw_name := " Audit "; nw_description := "" |} |} in
  let done := handleCreateWorkspace z_truthy z_text trim_ascii (Some "/api")
                (fun _ => always page_response) st at_rest in
  isDialogOpen done.1 = false /\
  map (fun c => init_body (call_init c)) (ui_calls done.2) =
    [Some (JsonBody (JObject [("name", JString " Audit "); ("description", JString "")]))] /\
  map toast_description (ui_toasts done.2) = ["Workspace created successfully"].
Proof. vm_compute. auto. Qed.

(** Without a base URL the creation fails before any request, and says
    so as any other failure. *)
Example an_unconfigured_client_fails_the_form :
  let st := {| isDialogOpen := true;
               newWorkspace := {| nw_name := "Audit"; nw_description := "" |} |} in
  let done := handleCreateWorkspace z_truthy z_text trim_ascii None
                (fun _ => always page_response) st at_rest in
  done.1 = st /\ ui_calls done.2 = [] /\
  map toast_description (ui_toasts done.2) = ["Failed to create workspace"].
Proof. vm_compute. auto. Qed.

(** A listing of three exports whose second row has no [kind]: the first
    is downloaded, the script stops, the third is never asked for. *)
Example a_row_without_kind_stops_the_downloads :
  download_exports z_ps_text "http://127.0.0.1:18083"
    (smoke_world "succeeded" (listing []) (listing [])) "ws-1"
    [JObject [("id", JString "e1"); ("kind", JString "pdf")];
     JObject [("id", JString "e2")];
     JObject [("id", JString "e3"); ("kind", JString "pdf")]] [] =
  ([call_export_download "http://127.0.0.1:18083" "ws-1" "e1"],
   Raised (PropertyNotFound "kind")).
Proof. vm_compute. reflexivity. Qed.

(** ** What a rejection of the client means *)

Section Rejections.

Context {Num : Type}.
Variable num_truthy : Num -> bool.
Variable num_text : Num -> string.
Variable base : option string.
Variable backend : Backend (Num:=Num).

Local Abbreviation cause' := (cause num_truthy num_text base backend).

(** What the failed-response branch of [request] and of the upload reads
    from a body that is not [null]. *)
Lemma js_get_body (r : Response Num) (data : JsValue Num) :
  json r = Some data ->
  data = JNull \/ forall k, js_get (Some data) k = Ok (body_member r k).
Proof.
  intros Hd. unfold body_member. rewrite Hd. destruct data; auto.
Qed.

Lemma request_rejection (c : ApiCall) (endpoint : string) (options : RequestInit) (x : Exn) :
  uses_request c = true ->
  settled (request num_truthy num_text base backend endpoint options) = Throw x ->
  cause' c (issued (request num_truthy num_text base backend endpoint options)) x.
Proof.
  intros Huses.
  assert (forall r, says_json r = true ->
            failure_message num_truthy num_text c r =
            ToString num_text (or_else num_truthy (body_member r "message") "An error occurred"))
    as Hfm.
  { intros r Hj. destruct c; try discriminate Huses; cbn [failure_message]; rewrite Hj;
      reflexivity. }
  unfold request, json_of.
  destruct (String.eqb_spec (API_BASE_URL base) "") as [Hb|Hb]; cbn [issued settled].
  - intros H. injection H as <-. left. auto.
  - set (call := {| call_url := _; call_init := _ |}).
    destruct (backend call) as [r|] eqn:Hr.
    + fold (says_json r). destruct (says_json r) eqn:Hj; cbn [negb].
      * destruct (json r) as [data|] eqn:Hd; cbn [bind].
        -- destruct (ok r) eqn:Hok; cbn [negb]; [discriminate|].
           destruct (js_get_body r data Hd) as [->|Hget].
           ++ cbn [js_get bind]. intros H. injection H as <-.
              exists call. split; [reflexivity|]. right. exists r. auto 6.
           ++ rewrite !Hget. cbn [bind]. rewrite <- (Hfm r Hj).
              destruct (failure_message num_truthy num_text c r) as [text|e] eqn:Ef;
                cbn [bind]; intros H; injection H as <-.
              ** right. exists call, r. auto.
              ** rewrite (Hfm r Hj) in Ef. pose proof (ToString_throws _ _ _ Ef) as ->.
                 exists call. split; [reflexivity|]. right. exists r.
                 rewrite (Hfm r Hj). auto 6.
        -- intros H. injection H as <-. exists call, r. rewrite Huses. auto.
      * intros H. injection H as <-. right. exists call, r. repeat split; auto.
    + intros H. injection H as <-. exists call. auto.
Qed.

(** X20.  Every rejection of a client operation has its cause.  An
    [ApiError] comes from a missing base URL (status 0, nothing sent), from
    a failed response, or from a response to [request] that does not say
    it carries JSON, and carries that response's status, which may be a
    success status.  A [SyntaxError] is a body that did not parse, of a
    response that said JSON to [request] or of a successful upload.  A
    [TypeError] has three causes: the network failure [fetch] rejects
    with, a failed response whose body is [null], and a failed response
    whose [message] has no text.  The download rejects with an [ApiError],
    or with the [TypeError] of a network failure. *)
Theorem every_rejection_has_its_cause (c : ApiCall) (x : Exn) :
  settled (perform num_truthy num_text base backend c) = Throw x ->
  cause' c (issued (perform num_truthy num_text base backend c)) x /\
  (forall w e, c = ExportsDownload w e ->
               (exists a, x = ThrowApiError a) \/
               (x = ThrowTypeError /\
                exists call, issued (perform num_truthy num_text base backend c) = [call] /\
                             backend call = NetworkError)).
Proof.
  intros H.
  assert (forall o : Outcome (JsValue Num),
            settled (resolve_with RJson o) = Throw x -> settled o = Throw x) as Hres.
  { intros o. unfold resolve_with. cbn. destruct (settled o); congruence. }
  destruct c; cbn [perform] in *;
    try (split; [|intros; discriminate];
         apply Hres in H; cbn [resolve_with issued];
         unfold workspacesApi_list, workspacesApi_get, workspacesApi_create,
           workspacesApi_update, workspacesApi_delete, documentsApi_list, documentsApi_delete,
           interviewsApi_list, interviewsApi_get, interviewsApi_create,
           interviewsApi_getQuestions, interviewsApi_submitResponses, pipelineApi_get,
           pipelineApi_start, pipelineApi_cancel, exportsApi_list, exportsApi_create in *;
         apply request_rejection; [reflexivity|exact H]).
  - (* upload *)
    split; [|intros; discriminate].
    apply Hres in H. revert H. unfold documentsApi_upload, json_of.
    cbn [resolve_with issued settled].
    set (call := {| call_url := _; call_init := _ |}).
    destruct (backend call) as [r|] eqn:Hr.
    + destruct (ok r) eqn:Hok; cbn [negb].
      * destruct (json r) as [data|] eqn:Hd; [discriminate|].
        intros H. injection H as <-. exists call, r. auto.
      * assert (json r = Some JNull \/
                js_get (Some (match json r with Some v => v | None => JObject [] end)) "message"
                = Ok (body_member r "message")) as [Hnull|Hget].
        { destruct (json r) as [data|] eqn:Hd.
          - destruct (js_get_body r data Hd) as [->|Hget]; auto.
          - right. unfold body_member. rewrite Hd. reflexivity. }
        -- rewrite Hnull. cbn [js_get bind]. intros H. injection H as <-.
           exists call. split; [reflexivity|]. right. exists r.
           split; [exact Hr|]. split; [exact Hok|]. split; [discriminate|]. auto.
        -- rewrite Hget. cbn [bind].
           change (ToString num_text (or_else num_truthy (body_member r "message") "Upload failed"))
             with (failure_message num_truthy num_text (DocumentsUpload workspaceId file) r).
           destruct (failure_message num_truthy num_text (DocumentsUpload workspaceId file) r)
             as [text|e] eqn:Ef; cbn [bind]; intros H; injection H as <-.
           ++ right. exists call, r. auto.
           ++ pose proof (ToString_throws _ _ _ Ef) as ->.
              exists call. split; [reflexivity|]. right. exists r.
              split; [exact Hr|]. split; [exact Hok|]. split; [discriminate|]. auto.
    + intros H. injection H as <-. exists call. auto.
  - (* download *)
    revert H. unfold resolve_with, exportsApi_download. cbn [issued settled].
    set (call := {| call_url := _; call_init := _ |}).
    destruct (backend call) as [r|] eqn:Hr.
    + destruct (ok r) eqn:Hok; cbn [negb]; [discriminate|].
      intros H. injection H as <-. split.
      * right. exists call, r. repeat split; auto.
      * intros. left. eauto.
    + intros H. injection H as <-. split.
      * exists call. auto.
      * intros. right. split; [reflexivity|]. exists call. auto.
Qed.

End Rejections.

(** A body that does not parse is a [SyntaxError]; a [message] without a
    text is a [TypeError], and so is a network failure. *)
Lemma every_rejection_has_its_cause_witness :
  cause z_truthy z_text (Some "/api") (always truncated) (WorkspacesGet "ws-1")
    (issued (perform z_truthy z_text (Some "/api") (always truncated) (WorkspacesGet "ws-1")))
    ThrowSyntaxError /\
  cause z_truthy z_text (Some "/api") (always textless) WorkspacesList
    (issued (perform z_truthy z_text (Some "/api") (always textless) WorkspacesList))
    ThrowTypeError /\
  cause z_truthy z_text (Some "/api") (fun _ => NetworkError) WorkspacesList
    (issued (perform z_truthy z_text (Some "/api") (fun _ => NetworkError) WorkspacesList))
    ThrowTypeError.
Proof.
  split; [|split].
  - apply (every_rejection_has_its_cause z_truthy z_text (Some "/api") (always truncated)
             (WorkspacesGet "ws-1") ThrowSyntaxError).
    vm_compute. reflexivity.
  - apply (every_rejection_has_its_cause z_truthy z_text (Some "/api") (always textless)
             WorkspacesList ThrowTypeError).
    vm_compute. reflexivity.
  - apply (every_rejection_has_its_cause z_truthy z_text (Some "/api") (fun _ => NetworkError)
             WorkspacesList ThrowTypeError).
    vm_compute. reflexivity.
Defined.

(** ** A client without a base URL *)

Section Unconfigured.

Context {Num : Type}.
Variable num_truthy : Num -> bool.
Variable num_text : Num -> string.

Lemma perform_unconfigured (base : option string) (backend : Backend (Num:=Num)) (c : ApiCall) :
  API_BASE_URL base = "" ->
  uses_request c = true ->
  perform num_truthy num_text base backend c =
  {| issued := [];
     settled := Throw (ThrowApiError
       {| err_message := "API not configured. Set VITE_API_BASE_URL environment variable.";
          err_status := 0;
          err_code := None |}) |}.
Proof.
  intros Hb Hc. destruct (perform_is_request num_truthy num_text base backend c Hc) as (ep & opts & ->).
  rewrite (request_unconfigured num_truthy num_text base backend ep opts Hb). reflexivity.
Qed.

(** X21.  Without a base URL every query is tried twice, the retry
    included, and fails with the [ApiError] that says so, and every
    mutation but the upload and the download fails at once; none of them
    sends anything, a failed mutation has no effect, and the cache is as it
    was. *)
Theorem an_unconfigured_client_fails_without_traffic (base : option string)
  (backends : nat -> Backend (Num:=Num)) (h : QueryHook) (m : Mutation)
  (cache : gmap QueryKey (CacheEntry Num)) :
  API_BASE_URL base = "" ->
  let failure : Outcome (Num:=Num) Resolved :=
    {| issued := [];
       settled := Throw (ThrowApiError
         {| err_message := "API not configured. Set VITE_API_BASE_URL environment variable.";
            err_status := 0;
            err_code := None |}) |} in
  fetch_query num_truthy num_text queryClient base backends (query_options h) = (2%nat, failure) /\
  (uses_request (mutation_call (Num:=Num) m) = true ->
   mutate num_truthy num_text base (backends 0%nat) m cache = (failure, [], cache)).
Proof.
  intros Hb. cbv zeta. split.
  - unfold fetch_query.
    assert (uses_request (queryFn (query_options (Num:=Num) h)) = true) as Hu
      by (destruct h; reflexivity).
    assert (resolved_retry queryClient (query_options (Num:=Num) h) = 1%nat) as ->
      by (destruct h; reflexivity).
    cbn [attempt]. rewrite !(perform_unconfigured base _ _ Hb Hu). reflexivity.
  - intros Hu. unfold mutate. rewrite (perform_unconfigured base _ _ Hb Hu). reflexivity.
Qed.

End Unconfigured.

Lemma an_unconfigured_client_fails_without_traffic_witness :
  fst (fetch_query z_truthy z_text queryClient None (fun _ => always page_response)
         (query_options (UseDocuments "ws-1"))) = 2%nat /\
  issued (snd (fetch_query z_truthy z_text queryClient None (fun _ => always page_response)
                 (query_options (UseDocuments "ws-1")))) = [].
Proof.
  destruct (an_unconfigured_client_fails_without_traffic z_truthy z_text None
              (fun _ => always page_response) (UseDocuments "ws-1") (DeleteWorkspace "ws-1")
              demo_cache eq_refl) as [H _].
  rewrite H. split; reflexivity.
Defined.
